(** * elementpath: XSD atomic datatypes and their XPath 2.0 constructors

    A shallow embedding of [elementpath/datatypes.py] and of the numeric
    constructors of [elementpath/xpath2_constructors.py], with the
    properties of the datatype model stated and proved over it.

    Conventions of the embedding.
    - A Python call that may raise is a function into [result]; the
      exception classes the modules raise are the constructors of [exn].
    - Python [int] is [Z].  Python [str] is [string]: byte strings, so the
      text is ASCII (the lexical forms of XSD use no other character).
    - Python [float] is IEEE 754 binary64, here [spec_float] at precision 53
      and maximal exponent 1024, with the rounding of [SpecFloat].
    - [decimal.Decimal] is a finite decimal: a signed coefficient and an
      exponent.  Arithmetic rounds to the 28 significant digits of the
      default context, half to even; NaN, the infinities, the negative zero
      and the exponent limits of the context are left out.
    - [datetime.timedelta] is its total number of microseconds, with the
      bound on the days checked where Python checks it; [datetime.datetime]
      is the record of its fields, and its arithmetic goes through the
      proleptic Gregorian ordinal as in the standard library. *)

From Stdlib Require Import ZArith List String Ascii Bool Lia DecimalString.
From Stdlib Require Import Floats.SpecFloat.
From Stdlib Require DecimalFacts DecimalPos.
Import ListNotations.

Local Open Scope Z_scope.

(** ** Exceptions and results *)

Inductive exn : Type :=
| TypeError
| ValueError
| OverflowError
| ZeroDivisionError
| DecimalException
| AssertionError
| XPathError (code : string).

Inductive result (A : Type) : Type :=
| Ok (a : A)
| Raise (e : exn).

Arguments Ok {A} a.
Arguments Raise {A} e.

Definition bind {A B : Type} (c : result A) (k : A -> result B) : result B :=
  match c with
  | Ok a => k a
  | Raise e => Raise e
  end.

Notation "x <- c ;; k" := (bind c (fun x => k))
  (at level 61, c at next level, right associativity).
Notation "' p <- c ;; k" := (bind c (fun x => let 'p := x in k))
  (at level 61, p pattern, c at next level, right associativity).

Definition is_ok {A : Type} (c : result A) : bool :=
  match c with Ok _ => true | Raise _ => false end.

Definition of_option {A : Type} (e : exn) (o : option A) : result A :=
  match o with Some a => Ok a | None => Raise e end.

Definition exn_eqb (a b : exn) : bool :=
  match a, b with
  | TypeError, TypeError | ValueError, ValueError
  | OverflowError, OverflowError | ZeroDivisionError, ZeroDivisionError
  | DecimalException, DecimalException | AssertionError, AssertionError => true
  | XPathError c, XPathError d => String.eqb c d
  | _, _ => false
  end.

(** ** Strings *)

Module PyStr.

Definition code (c : ascii) : Z := Z.of_N (N_of_ascii c).

(** The characters [str.strip], [int] and [float] treat as white space. *)
Definition is_space (c : ascii) : bool :=
  let n := code c in
  ((9 <=? n) && (n <=? 13)) || ((28 <=? n) && (n <=? 32)).

Definition is_digit (c : ascii) : bool :=
  let n := code c in (48 <=? n) && (n <=? 57).

Definition digit_val (c : ascii) : Z := code c - 48.

Fixpoint lstrip (cs : list ascii) : list ascii :=
  match cs with
  | c :: rest => if is_space c then lstrip rest else cs
  | [] => []
  end.

Definition strip_chars (cs : list ascii) : list ascii :=
  rev (lstrip (rev (lstrip cs))).

Definition strip (s : string) : string :=
  string_of_list_ascii (strip_chars (list_ascii_of_string s)).

(** [s.lstrip('-')] *)
Fixpoint lstrip_minus (cs : list ascii) : list ascii :=
  match cs with
  | c :: rest => if Ascii.eqb c "-" then lstrip_minus rest else cs
  | [] => []
  end.

(** [s.split(sep)] for a one-character separator. *)
Fixpoint split_on (sep : ascii) (cs cur : list ascii) : list (list ascii) :=
  match cs with
  | [] => [rev cur]
  | c :: rest =>
      if Ascii.eqb c sep then rev cur :: split_on sep rest []
      else split_on sep rest (c :: cur)
  end.

Definition split (sep : ascii) (s : string) : list string :=
  map string_of_list_ascii (split_on sep (list_ascii_of_string s) []).

Definition startswith (p : ascii) (s : string) : bool :=
  match s with
  | String c _ => Ascii.eqb c p
  | EmptyString => false
  end.

Definition lower_char (c : ascii) : ascii :=
  let n := code c in
  if (65 <=? n) && (n <=? 90) then ascii_of_N (Z.to_N (n + 32)) else c.

Definition lower (s : string) : string :=
  string_of_list_ascii (map lower_char (list_ascii_of_string s)).

(** ['%d' % z] *)
Definition of_Z (z : Z) : string := NilZero.string_of_int (Z.to_int z).

Definition zeros (n : nat) : string := string_of_list_ascii (repeat "0"%char n).

Definition mem (s : string) (l : list string) : bool :=
  existsb (String.eqb s) l.

End PyStr.

(** ** Python [int(text)] *)

Module PyInt.
Import PyStr.

(** Decimal digits, a single underscore allowed between two digits. *)
Fixpoint digits_value (cs : list ascii) (acc : Z) : option Z :=
  match cs with
  | [] => Some acc
  | c :: rest =>
      if is_digit c then digits_value rest (10 * acc + digit_val c)
      else if Ascii.eqb c "_" then
        match rest with
        | d :: _ => if is_digit d then digits_value rest acc else None
        | [] => None
        end
      else None
  end.

Definition unsigned (cs : list ascii) : option Z :=
  match cs with
  | c :: _ => if is_digit c then digits_value cs 0 else None
  | [] => None
  end.

Definition signed (cs : list ascii) : option Z :=
  match cs with
  | c :: rest =>
      if Ascii.eqb c "-" then option_map Z.opp (unsigned rest)
      else if Ascii.eqb c "+" then unsigned rest
      else unsigned cs
  | [] => None
  end.

(** [int(s)] for a string [s]: [ValueError] on a malformed literal. *)
Definition of_string (s : string) : result Z :=
  of_option ValueError (signed (strip_chars (list_ascii_of_string s))).

End PyInt.

(** ** Python [float]: IEEE 754 binary64 *)

Module PyFloat.
Import PyStr.

Definition float : Type := spec_float.

Definition prec : Z := 53.
Definition emax : Z := 1024.

Definition zero : float := S754_zero false.

Definition add : float -> float -> float := SFadd prec emax.
Definition sub : float -> float -> float := SFsub prec emax.
Definition mul : float -> float -> float := SFmul prec emax.
Definition eqb : float -> float -> bool := SFeqb.
Definition ltb : float -> float -> bool := SFltb.
Definition leb : float -> float -> bool := SFleb.

Definition is_zero (f : float) : bool :=
  match f with S754_zero _ => true | _ => false end.

(** [a / b] on floats: Python raises on a zero divisor. *)
Definition div (a b : float) : result float :=
  if is_zero b then Raise ZeroDivisionError else Ok (SFdiv prec emax a b).

(** The binary64 nearest to the integer [z] (ties to even). *)
Definition nearest_Z (z : Z) : float := binary_normalize prec emax z 0 false.

(** The binary64 nearest to [p / q], for [0 <= p] and [0 < q]. *)
Definition nearest_ratio (neg : bool) (p q : Z) : float :=
  let '(mz, ez, lz) := SFdiv_core_binary prec emax p 0 q 0 in
  binary_round_aux prec emax neg mz ez lz.

(** The binary64 nearest to [c * 10 ^ e], with the sign [neg]. *)
Definition nearest_scaled (neg : bool) (c e : Z) : float :=
  if c =? 0 then S754_zero neg
  else if 0 <=? e then
    binary_normalize prec emax (cond_Zopp neg (c * 10 ^ e)) 0 neg
  else nearest_ratio neg c (10 ^ (- e)).

(** [float(z)] for an [int]. *)
Definition of_int (z : Z) : result float :=
  match nearest_Z z with
  | S754_infinity _ => Raise OverflowError
  | f => Ok f
  end.

(** [a / b] on two [int]s. *)
Definition int_truediv (a b : Z) : result float :=
  if b =? 0 then Raise ZeroDivisionError
  else
    match nearest_ratio (xorb (a <? 0) (b <? 0)) (Z.abs a) (Z.abs b) with
    | S754_infinity _ => Raise OverflowError
    | f => Ok f
    end.

(** [int(f)]: truncation toward zero. *)
Definition to_int (f : float) : result Z :=
  match f with
  | S754_zero _ => Ok 0
  | S754_finite s m e => Ok (cond_Zopp s (Z.shiftl (Zpos m) e))
  | S754_infinity _ => Raise OverflowError
  | S754_nan => Raise ValueError
  end.

Definition half : float := nearest_ratio false 1 2.

(** *** [float(text)] *)

(** Underscores are allowed between two digits only. *)
Fixpoint drop_underscores (prev : option ascii) (cs : list ascii)
  : option (list ascii) :=
  match cs with
  | [] =>
      match prev with
      | Some p => if Ascii.eqb p "_" then None else Some []
      | None => Some []
      end
  | c :: rest =>
      if Ascii.eqb c "_" then
        match prev with
        | Some p =>
            if is_digit p then drop_underscores (Some c) rest else None
        | None => None
        end
      else
        let after_us :=
          match prev with Some p => Ascii.eqb p "_" | None => false end in
        if after_us && negb (is_digit c) then None
        else option_map (cons c) (drop_underscores (Some c) rest)
  end.

Fixpoint span_digits (cs : list ascii) : list ascii * list ascii :=
  match cs with
  | c :: rest =>
      if is_digit c then
        let '(ds, tl) := span_digits rest in (c :: ds, tl)
      else ([], cs)
  | [] => ([], [])
  end.

Definition digits_Z (ds : list ascii) : Z :=
  fold_left (fun acc c => 10 * acc + digit_val c) ds 0.

Definition split_sign (cs : list ascii) : bool * list ascii :=
  match cs with
  | c :: rest =>
      if Ascii.eqb c "-" then (true, rest)
      else if Ascii.eqb c "+" then (false, rest)
      else (false, cs)
  | [] => (false, [])
  end.

(** The exponent part: empty, or [e], an optional sign and digits. *)
Definition exponent (cs : list ascii) : option Z :=
  match cs with
  | [] => Some 0
  | c :: rest =>
      if Ascii.eqb (lower_char c) "e" then
        let '(neg, ds) := split_sign rest in
        match span_digits ds with
        | (d :: ds', []) => Some (cond_Zopp neg (digits_Z (d :: ds')))
        | _ => None
        end
      else None
  end.

(** A decimal literal: its coefficient and its power of ten. *)
Definition decimal_literal (cs : list ascii) : option (Z * Z) :=
  let '(ip, r1) := span_digits cs in
  let '(fp, r2) :=
    match r1 with
    | c :: r => if Ascii.eqb c "." then span_digits r else ([], r1)
    | [] => ([], [])
    end in
  match ip ++ fp with
  | [] => None
  | ds =>
      match exponent r2 with
      | Some e => Some (digits_Z ds, e - Z.of_nat (List.length fp))
      | None => None
      end
  end.

Definition literal (cs : list ascii) : option float :=
  let '(neg, body) := split_sign cs in
  let word := string_of_list_ascii (map lower_char body) in
  if mem word ["inf"; "infinity"]%string then Some (S754_infinity neg)
  else if String.eqb word "nan" then Some S754_nan
  else
    match decimal_literal body with
    | Some (c, e) => Some (nearest_scaled neg c e)
    | None => None
    end.

(** [float(s)] for a string [s]: [ValueError] on a malformed literal. *)
Definition of_string (s : string) : result float :=
  match drop_underscores None (strip_chars (list_ascii_of_string s)) with
  | Some cs => of_option ValueError (literal cs)
  | None => Raise ValueError
  end.

End PyFloat.

(** ** [decimal.Decimal] under the default context *)

Module PyDecimal.

Record decimal : Type := mk { coef : Z; expo : Z }.

Definition context_prec : Z := 28.

(** [len(self._int)]: the number of digits of the coefficient. *)
Definition ndigits (c : Z) : Z :=
  Z.of_nat (String.length (PyStr.of_Z (Z.abs c))).

Definition of_int (z : Z) : decimal := mk z 0.

Definition zero : decimal := of_int 0.

(** [c / 10 ^ k] rounded half to even, for [0 <= c] and [0 < k]. *)
Definition round_half_even (c k : Z) : Z :=
  let p := 10 ^ k in
  let q := c / p in
  match 2 * (c mod p) ?= p with
  | Lt => q
  | Gt => q + 1
  | Eq => if Z.even q then q else q + 1
  end.

(** [_fix]: round to the precision of the context. *)
Definition fix_ (d : decimal) : decimal :=
  let n := ndigits (coef d) in
  if n <=? context_prec then d
  else
    let k := n - context_prec in
    let m := round_half_even (Z.abs (coef d)) k in
    if m =? 10 ^ context_prec
    then mk (Z.sgn (coef d) * 10 ^ (context_prec - 1)) (expo d + k + 1)
    else mk (Z.sgn (coef d) * m) (expo d + k).

(** Both coefficients at the smaller of the two exponents. *)
Definition align (a b : decimal) : Z * Z * Z :=
  let e := Z.min (expo a) (expo b) in
  (coef a * 10 ^ (expo a - e), coef b * 10 ^ (expo b - e), e).

Definition compare (a b : decimal) : comparison :=
  let '(ca, cb, _) := align a b in ca ?= cb.

Definition eqb (a b : decimal) : bool :=
  match compare a b with Eq => true | _ => false end.
Definition ltb (a b : decimal) : bool :=
  match compare a b with Lt => true | _ => false end.

Definition is_zero (d : decimal) : bool := coef d =? 0.
Definition is_neg (d : decimal) : bool := coef d <? 0.
Definition is_pos (d : decimal) : bool := 0 <? coef d.

Definition copy_abs (d : decimal) : decimal := mk (Z.abs (coef d)) (expo d).

Definition neg (d : decimal) : decimal := fix_ (mk (- coef d) (expo d)).

Definition add (a b : decimal) : decimal :=
  let '(ca, cb, e) := align a b in fix_ (mk (ca + cb) e).

Definition sub (a b : decimal) : decimal :=
  let '(ca, cb, e) := align a b in fix_ (mk (ca - cb) e).

Definition mul (a b : decimal) : decimal :=
  fix_ (mk (coef a * coef b) (expo a + expo b)).

(** An exact quotient is brought as close to the ideal exponent as its
    trailing zeros allow. *)
Fixpoint reduce (fuel : nat) (c e ideal : Z) : Z * Z :=
  match fuel with
  | O => (c, e)
  | S fuel' =>
      if (e <? ideal) && (c mod 10 =? 0)
      then reduce fuel' (c / 10) (e + 1) ideal
      else (c, e)
  end.

(** [a / b] *)
Definition div (a b : decimal) : result decimal :=
  if is_zero b then
    Raise (if is_zero a then DecimalException else ZeroDivisionError)
  else if is_zero a then Ok (mk 0 (expo a - expo b))
  else
    let sign := Z.sgn (coef a) * Z.sgn (coef b) in
    let ia := Z.abs (coef a) in
    let ib := Z.abs (coef b) in
    let shift := ndigits ib - ndigits ia + context_prec + 1 in
    let e := expo a - expo b - shift in
    let '(q, r) :=
      if 0 <=? shift then Z.div_eucl (ia * 10 ^ shift) ib
      else Z.div_eucl ia (ib * 10 ^ (- shift)) in
    let '(q, e) :=
      if r =? 0 then reduce (Z.to_nat (ndigits q)) q e (expo a - expo b)
      else ((if q mod 5 =? 0 then q + 1 else q), e) in
    Ok (fix_ (mk (sign * q) e)).

(** [_divide]: the integer quotient, truncated toward zero, and the
    remainder, which takes the sign of the dividend. *)
Definition divide (a b : decimal) : result (decimal * decimal) :=
  if is_zero b then Raise DecimalException
  else
    let '(ca, cb, e) := align a b in
    let q := Z.quot ca cb in
    let r := Z.rem ca cb in
    if Z.abs q <? 10 ^ context_prec then Ok (mk q 0, mk r e)
    else Raise DecimalException.

(** [a // b] *)
Definition floordiv (a b : decimal) : result decimal :=
  if is_zero b && negb (is_zero a) then Raise ZeroDivisionError
  else '(q, _) <- divide a b ;; Ok q.

(** [a % b] *)
Definition mod_ (a b : decimal) : result decimal :=
  '(_, r) <- divide a b ;; Ok (fix_ r).

(** [int(d)]: truncation toward zero. *)
Definition to_int (d : decimal) : Z :=
  if 0 <=? expo d then coef d * 10 ^ expo d
  else Z.quot (coef d) (10 ^ (- expo d)).

(** [float(d)] *)
Definition to_float (d : decimal) : PyFloat.float :=
  PyFloat.nearest_scaled (coef d <? 0) (Z.abs (coef d)) (expo d).

(** [Decimal(text)] for an integer part and an optional fraction, both
    runs of digits. *)
Definition of_digits (ip fp : list ascii) : decimal :=
  mk (PyFloat.digits_Z (ip ++ fp)) (- Z.of_nat (List.length fp)).

(** [normalize]: round, then strip the trailing zeros. *)
Fixpoint strip_zeros (fuel : nat) (c e : Z) : Z * Z :=
  match fuel with
  | O => (c, e)
  | S fuel' =>
      if c mod 10 =? 0 then strip_zeros fuel' (c / 10) (e + 1) else (c, e)
  end.

Definition normalize (d : decimal) : decimal :=
  let d' := fix_ d in
  if is_zero d' then zero
  else
    let '(c, e) :=
      strip_zeros (Z.to_nat (ndigits (coef d'))) (Z.abs (coef d')) (expo d') in
    mk (Z.sgn (coef d') * c) e.

Definition signed_exp (z : Z) : string :=
  String.append (if 0 <=? z then "+"%string else ""%string) (PyStr.of_Z z).

(** [str(d)]: scientific notation when the exponent is positive or the
    value is below [1e-6]. *)
Definition to_string (d : decimal) : string :=
  let sign := if coef d <? 0 then "-"%string else ""%string in
  let digs := PyStr.of_Z (Z.abs (coef d)) in
  let len := Z.of_nat (String.length digs) in
  let leftdigits := expo d + len in
  let dotplace :=
    if (expo d <=? 0) && (-6 <? leftdigits) then leftdigits else 1 in
  let intpart :=
    if dotplace <=? 0 then "0"%string
    else if len <=? dotplace
         then String.append digs (PyStr.zeros (Z.to_nat (dotplace - len)))
         else String.substring 0 (Z.to_nat dotplace) digs in
  let fracpart :=
    if dotplace <=? 0
    then String.append "." (String.append (PyStr.zeros (Z.to_nat (- dotplace))) digs)
    else if len <=? dotplace then ""%string
         else String.append "."
                (String.substring (Z.to_nat dotplace)
                   (Z.to_nat (len - dotplace)) digs) in
  let exppart :=
    if leftdigits =? dotplace then ""%string
    else String.append "E" (signed_exp (leftdigits - dotplace)) in
  String.append sign (String.append intpart (String.append fracpart exppart)).

End PyDecimal.

(** ** [calendar] and the date helpers of the module *)

Definition isleap (year : Z) : bool :=
  (year mod 4 =? 0) && (negb (year mod 100 =? 0) || (year mod 400 =? 0)).

(** [calendar.leapdays(y1, y2)]: the leap years in the range [y1, y2). *)
Definition leapdays (y1 y2 : Z) : Z :=
  let y1 := y1 - 1 in
  let y2 := y2 - 1 in
  (y2 / 4 - y1 / 4) - (y2 / 100 - y1 / 100) + (y2 / 400 - y1 / 400).

Definition MONTH_DAYS : list Z :=
  [0; 31; 28; 31; 30; 31; 30; 31; 31; 30; 31; 30; 31].
Definition MONTH_DAYS_LEAP : list Z :=
  [0; 31; 29; 31; 30; 31; 30; 31; 31; 30; 31; 30; 31].

(** [l[i]] on a list of integers; a negative index counts from the end.
    The tables are read at the months 1..12; the [IndexError] of an
    index beyond the list is left out. *)
Definition getitem (l : list Z) (i : Z) : Z :=
  let n := Z.of_nat (List.length l) in
  nth (Z.to_nat (if i <? 0 then n + i else i)) l 0.

(** [sum(f(m) for m in range(lo, hi))] *)
Definition sum_range (f : Z -> Z) (lo hi : Z) : Z :=
  fold_left (fun acc k => acc + f (lo + Z.of_nat k))
    (seq 0 (Z.to_nat (hi - lo))) 0.

Definition adjust_day (year month day : Z) : Z :=
  if existsb (Z.eqb month) [1; 3; 5; 7; 8; 10; 12] then day
  else if existsb (Z.eqb month) [4; 6; 9; 11] then Z.min day 30
  else if isleap year then Z.min day 29 else Z.min day 28.

Definition days_from_common_era (year : Z) : Z :=
  if 0 <? year then year * 365 + year / 4 - year / 100 + year / 400
  else if -1 <=? year then year * 366
  else
    let year := - year - 1 in
    - (366 + year * 365 + year / 4 - year / 100 + year / 400).

Definition DAYS_IN_4Y : Z := Eval cbv in days_from_common_era 4.
Definition DAYS_IN_100Y : Z := Eval cbv in days_from_common_era 100.
Definition DAYS_IN_400Y : Z := Eval cbv in days_from_common_era 400.

Definition months2days (year month months_delta : Z) : Z :=
  if months_delta =? 0 then 0
  else
    let total_months := month - 1 + months_delta in
    let target_year := year + total_months / 12 in
    let target_month := total_months mod 12 + 1 in
    let y_days :=
      if month <=? 2
      then 365 * (target_year - year) + leapdays year target_year
      else 365 * (target_year - year) + leapdays (year + 1) (target_year + 1) in
    let months_days :=
      if isleap target_year then MONTH_DAYS_LEAP else MONTH_DAYS in
    if month <=? target_month then
      let m_days := sum_range (getitem months_days) month target_month in
      if 0 <=? y_days then y_days + m_days else y_days + m_days
    else
      let m_days := sum_range (getitem months_days) target_month month in
      if 0 <=? y_days then y_days - m_days else y_days - m_days.

(** ** [datetime.timedelta] *)

Module TimeDelta.

(** A duration as its total number of microseconds; [days], [seconds]
    and [microseconds] are the normalized fields of Python. *)
Definition timedelta : Type := Z.

Definition US_PER_SECOND : Z := 1000000.
Definition US_PER_DAY : Z := 86400 * US_PER_SECOND.
Definition MAX_DAYS : Z := 999999999.

Definition days (td : timedelta) : Z := td / US_PER_DAY.
Definition seconds (td : timedelta) : Z := (td mod US_PER_DAY) / US_PER_SECOND.
Definition microseconds (td : timedelta) : Z := td mod US_PER_SECOND.

(** Every constructed value has its days within the bound. *)
Definition checked (us : Z) : result timedelta :=
  if (- MAX_DAYS <=? days us) && (days us <=? MAX_DAYS) then Ok us
  else Raise OverflowError.

(** [timedelta(days=d, seconds=s, microseconds=us, minutes=m, hours=h)] *)
Definition make (d s us m h : Z) : result timedelta :=
  checked (d * US_PER_DAY + (h * 3600 + m * 60 + s) * US_PER_SECOND + us).

Definition zero : timedelta := 0.

Definition add (a b : timedelta) : result timedelta := checked (a + b).
Definition sub (a b : timedelta) : result timedelta := checked (a - b).
Definition neg (a : timedelta) : result timedelta := checked (- a).

(** [td.total_seconds()] *)
Definition total_seconds (td : timedelta) : result PyFloat.float :=
  PyFloat.int_truediv td US_PER_SECOND.

(** [modf]: the integral part and the fractional part of a float. *)
Definition modf (f : PyFloat.float) : result (Z * PyFloat.float) :=
  ip <- PyFloat.to_int f ;;
  Ok (ip, PyFloat.sub f (PyFloat.nearest_Z ip)).

(** The whole microseconds added for a left-over fraction [r] of a
    microsecond: nearest, a half going to the even total. *)
Definition round_leftover (x : Z) (r : PyFloat.float) : Z :=
  let a := SFabs r in
  let unit := if PyFloat.ltb r PyFloat.zero then -1 else 1 in
  if PyFloat.ltb a PyFloat.half then 0
  else if PyFloat.eqb a PyFloat.half then (if Z.odd x then unit else 0)
  else unit.

(** [timedelta(days=d, seconds=s)] for an [int] [d] and a [float] [s]. *)
Definition of_days_fseconds (d : Z) (s : PyFloat.float) : result timedelta :=
  '(ip, frac) <- modf s ;;
  let x := ip * US_PER_SECOND in
  if PyFloat.is_zero frac then checked (x + d * US_PER_DAY)
  else
    '(ip2, frac2) <- modf (PyFloat.mul (PyFloat.nearest_Z US_PER_SECOND) frac) ;;
    let x := x + ip2 + d * US_PER_DAY in
    checked (x + round_leftover x frac2).

End TimeDelta.

(** ** [Timezone] *)

Record Timezone : Type := mkTimezone { offset : TimeDelta.timedelta }.

Module TimezoneM.
Import TimeDelta.

Definition _maxoffset : timedelta := 14 * 3600 * US_PER_SECOND.
Definition _minoffset : timedelta := - _maxoffset.

(** [Timezone(offset)] *)
Definition init (off : timedelta) : result Timezone :=
  if (off <? _minoffset) || (_maxoffset <? off) then Raise ValueError
  else Ok (mkTimezone off).

Definition utc : Timezone := mkTimezone 0.

(** The body of the [try] of [fromstring]. *)
Definition parse_offset (text : string) : result Timezone :=
  match PyStr.split ":" (PyStr.strip text) with
  | [hours; minutes] =>
      h <- PyInt.of_string hours ;;
      m <- PyInt.of_string minutes ;;
      if PyStr.startswith "-" hours
      then td <- make 0 0 0 (- m) h ;; init td
      else td <- make 0 0 0 m h ;; init td
  | _ => Raise ValueError
  end.

(** [Timezone.fromstring(text)]: a [ValueError] of the body is caught,
    and raised again unless the text is [Z]. *)
Definition fromstring (text : string) : result Timezone :=
  match parse_offset text with
  | Raise ValueError =>
      if String.eqb (PyStr.strip text) "Z" then init zero
      else Raise ValueError
  | r => r
  end.

(** [Timezone.fromduration]: the seconds of the duration, truncated. *)
Definition fromseconds (secs : Z) : result Timezone :=
  td <- make 0 secs 0 0 0 ;; init td.

Definition two_digits (z : Z) : string :=
  if z <? 10 then String.append "0" (PyStr.of_Z z) else PyStr.of_Z z.

(** [tzname] *)
Definition tzname (tz : Timezone) : string :=
  if offset tz =? 0 then "Z"%string
  else
    let sign := if offset tz <? 0 then "-"%string else "+"%string in
    let off := Z.abs (offset tz) in
    let hours := seconds off / 3600 in
    let minutes := (seconds off / 60) mod 60 in
    String.append sign
      (String.append (two_digits hours)
         (String.append ":" (two_digits minutes))).

Definition eqb (a b : Timezone) : bool := offset a =? offset b.

End TimezoneM.

(** ** [datetime.datetime] *)

Module DT.
Import TimeDelta.

Record datetime : Type := mk {
  year : Z; month : Z; day : Z;
  hour : Z; minute : Z; second : Z; microsecond : Z;
  tzinfo : option Timezone
}.

Definition MINYEAR : Z := 1.
Definition MAXYEAR : Z := 9999.
Definition MAXORDINAL : Z := 3652059.

Definition _DI400Y : Z := 146097.
Definition _DI100Y : Z := 36524.
Definition _DI4Y : Z := 1461.

Definition _DAYS_IN_MONTH (month : Z) : Z :=
  match month with
  | 1 => 31 | 2 => 28 | 3 => 31 | 4 => 30 | 5 => 31 | 6 => 30
  | 7 => 31 | 8 => 31 | 9 => 30 | 10 => 31 | 11 => 30 | 12 => 31
  | _ => -1
  end.

Definition _DAYS_BEFORE_MONTH (month : Z) : Z :=
  match month with
  | 1 => 0 | 2 => 31 | 3 => 59 | 4 => 90 | 5 => 120 | 6 => 151
  | 7 => 181 | 8 => 212 | 9 => 243 | 10 => 273 | 11 => 304 | 12 => 334
  | _ => -1
  end.

Definition _days_before_year (y : Z) : Z :=
  let y := y - 1 in y * 365 + y / 4 - y / 100 + y / 400.

Definition _days_in_month (y m : Z) : Z :=
  if (m =? 2) && isleap y then 29 else _DAYS_IN_MONTH m.

Definition _days_before_month (y m : Z) : Z :=
  _DAYS_BEFORE_MONTH m + (if (2 <? m) && isleap y then 1 else 0).

Definition _ymd2ord (y m d : Z) : Z :=
  _days_before_year y + _days_before_month y m + d.

Definition _ord2ymd (n : Z) : Z * Z * Z :=
  let n := n - 1 in
  let n400 := n / _DI400Y in
  let n := n mod _DI400Y in
  let y := n400 * 400 + 1 in
  let n100 := n / _DI100Y in
  let n := n mod _DI100Y in
  let n4 := n / _DI4Y in
  let n := n mod _DI4Y in
  let n1 := n / 365 in
  let n := n mod 365 in
  let y := y + n100 * 100 + n4 * 4 + n1 in
  if (n1 =? 4) || (n100 =? 4) then (y - 1, 12, 31)
  else
    let leapyear := (n1 =? 3) && (negb (n4 =? 24) || (n100 =? 3)) in
    let m := Z.shiftr (n + 50) 5 in
    let preceding :=
      _DAYS_BEFORE_MONTH m + (if (2 <? m) && leapyear then 1 else 0) in
    if n <? preceding then
      let m := m - 1 in
      let preceding :=
        preceding
        - (_DAYS_IN_MONTH m + (if (m =? 2) && leapyear then 1 else 0)) in
      (y, m, n - preceding + 1)
    else (y, m, n - preceding + 1).

Definition valid_date (y m d : Z) : bool :=
  (MINYEAR <=? y) && (y <=? MAXYEAR) && (1 <=? m) && (m <=? 12)
  && (1 <=? d) && (d <=? _days_in_month y m).

Definition valid_time (h mi s us : Z) : bool :=
  (0 <=? h) && (h <=? 23) && (0 <=? mi) && (mi <=? 59)
  && (0 <=? s) && (s <=? 59) && (0 <=? us) && (us <=? 999999).

(** [datetime.datetime(year, month, day, hour, minute, second,
    microsecond, tzinfo)] *)
Definition make (y m d h mi s us : Z) (tz : option Timezone)
  : result datetime :=
  if valid_date y m d && valid_time h mi s us
  then Ok (mk y m d h mi s us tz)
  else Raise ValueError.

Definition replace_tzinfo (dt : datetime) (tz : option Timezone) : datetime :=
  mk (year dt) (month dt) (day dt) (hour dt) (minute dt) (second dt)
     (microsecond dt) tz.

(** [dt.replace(year=y, month=m, day=d)] *)
Definition replace_date (dt : datetime) (y m d : Z) : result datetime :=
  make y m d (hour dt) (minute dt) (second dt) (microsecond dt) (tzinfo dt).

Definition toordinal (dt : datetime) : Z :=
  _ymd2ord (year dt) (month dt) (day dt).

(** Microseconds since midnight. *)
Definition time_us (dt : datetime) : Z :=
  ((hour dt * 60 + minute dt) * 60 + second dt) * US_PER_SECOND
  + microsecond dt.

(** Microseconds of the wall clock since the day before 0001-01-01. *)
Definition wall_us (dt : datetime) : Z :=
  toordinal dt * US_PER_DAY + time_us dt.

Definition utcoffset (dt : datetime) : option timedelta :=
  option_map offset (tzinfo dt).

(** [dt + td] *)
Definition add (dt : datetime) (td : timedelta) : result datetime :=
  delta <- TimeDelta.add (wall_us dt) td ;;
  let secs := TimeDelta.seconds delta in
  let h := secs / 3600 in
  let rem := secs mod 3600 in
  if (0 <? days delta) && (days delta <=? MAXORDINAL) then
    let '(y, m, d) := _ord2ymd (days delta) in
    Ok (mk y m d h (rem / 60) (rem mod 60) (microseconds delta) (tzinfo dt))
  else Raise OverflowError.

(** [dt - td] *)
Definition sub_delta (dt : datetime) (td : timedelta) : result datetime :=
  ntd <- TimeDelta.neg td ;; add dt ntd.

(** [a - b]: naive and aware operands do not mix. *)
Definition sub (a b : datetime) : result timedelta :=
  let base := wall_us a - wall_us b in
  match utcoffset a, utcoffset b with
  | None, None => Ok base
  | Some oa, Some ob => Ok (base + ob - oa)
  | _, _ => Raise TypeError
  end.

Definition fields_compare (a b : datetime) : comparison :=
  wall_us a ?= wall_us b.

(** [a == b]: a naive and an aware operand are unequal. *)
Definition eqb (a b : datetime) : bool :=
  match utcoffset a, utcoffset b with
  | None, None => wall_us a =? wall_us b
  | Some oa, Some ob => wall_us a - oa =? wall_us b - ob
  | _, _ => false
  end.

(** The three-way comparison behind [<], [<=], [>] and [>=]. *)
Definition cmp (a b : datetime) : result comparison :=
  match utcoffset a, utcoffset b with
  | None, None => Ok (wall_us a ?= wall_us b)
  | Some oa, Some ob => Ok (wall_us a - oa ?= wall_us b - ob)
  | _, _ => Raise TypeError
  end.

Definition epoch : datetime := mk 1 1 1 0 0 0 0 None.

End DT.

(** ** The XSD date and time classes *)

(** The concrete classes of the module; [AbstractDateTime] and
    [OrderedDateTime] are abstract. *)
Inductive kind : Type :=
| DateTime10 | DateTime
| Date10 | Date
| XPathGregorianDay | GregorianDay
| XPathGregorianMonth | GregorianMonth
| XPathGregorianMonthDay | GregorianMonthDay
| XPathGregorianYear | GregorianYear10 | GregorianYear
| XPathGregorianYearMonth | GregorianYearMonth10 | GregorianYearMonth
| Time.

Definition kind_eqb (a b : kind) : bool :=
  match a, b with
  | DateTime10, DateTime10 | DateTime, DateTime | Date10, Date10
  | Date, Date | XPathGregorianDay, XPathGregorianDay
  | GregorianDay, GregorianDay | XPathGregorianMonth, XPathGregorianMonth
  | GregorianMonth, GregorianMonth
  | XPathGregorianMonthDay, XPathGregorianMonthDay
  | GregorianMonthDay, GregorianMonthDay
  | XPathGregorianYear, XPathGregorianYear
  | GregorianYear10, GregorianYear10 | GregorianYear, GregorianYear
  | XPathGregorianYearMonth, XPathGregorianYearMonth
  | GregorianYearMonth10, GregorianYearMonth10
  | GregorianYearMonth, GregorianYearMonth | Time, Time => true
  | _, _ => false
  end.

(** The class a concrete class is declared from, if it is concrete. *)
Definition parent (k : kind) : option kind :=
  match k with
  | DateTime => Some DateTime10
  | Date => Some Date10
  | GregorianDay => Some XPathGregorianDay
  | GregorianMonth => Some XPathGregorianMonth
  | GregorianMonthDay => Some XPathGregorianMonthDay
  | GregorianYear10 => Some XPathGregorianYear
  | GregorianYear => Some GregorianYear10
  | GregorianYearMonth10 => Some XPathGregorianYearMonth
  | GregorianYearMonth => Some GregorianYearMonth10
  | _ => None
  end.

(** [issubclass(a, b)] *)
Definition issubclass (a b : kind) : bool :=
  kind_eqb a b
  || match parent a with
     | Some p =>
         kind_eqb p b
         || match parent p with Some g => kind_eqb g b | None => false end
     | None => false
     end.

(** [issubclass(k, OrderedDateTime)] *)
Definition is_ordered (k : kind) : bool :=
  match k with
  | XPathGregorianDay | XPathGregorianMonth | XPathGregorianMonthDay
  | XPathGregorianYear | XPathGregorianYearMonth | Time => false
  | _ => true
  end.

(** The class attribute [version] is ['1.1'] rather than ['1.0']. *)
Definition version11 (k : kind) : bool :=
  match k with
  | DateTime | Date | GregorianYear | GregorianYearMonth => true
  | _ => false
  end.

(** The lexical shape a class takes its pattern and constructor from. *)
Inductive shape : Type :=
| SDateTime | SDate | SDay | SMonth | SMonthDay | SYear | SYearMonth | STime.

Definition shape_of (k : kind) : shape :=
  match k with
  | DateTime10 | DateTime => SDateTime
  | Date10 | Date => SDate
  | XPathGregorianDay | GregorianDay => SDay
  | XPathGregorianMonth | GregorianMonth => SMonth
  | XPathGregorianMonthDay | GregorianMonthDay => SMonthDay
  | XPathGregorianYear | GregorianYear10 | GregorianYear => SYear
  | XPathGregorianYearMonth | GregorianYearMonth10 | GregorianYearMonth =>
      SYearMonth
  | Time => STime
  end.

Record temporal : Type := mkTemporal {
  cls : kind;
  _dt : DT.datetime;
  _year : option Z
}.

(** The property [year]: [self._year or self._dt.year]. *)
Definition year (t : temporal) : Z :=
  match _year t with
  | Some y => if y =? 0 then DT.year (_dt t) else y
  | None => DT.year (_dt t)
  end.

Definition tzinfo (t : temporal) : option Timezone := DT.tzinfo (_dt t).

(** The setter of [tzinfo]. *)
Definition set_tzinfo (t : temporal) (tz : option Timezone) : temporal :=
  mkTemporal (cls t) (DT.replace_tzinfo (_dt t) tz) (_year t).

(** [AbstractDateTime.__init__] *)
Definition abstract_init (k : kind)
    (year month day hour minute second microsecond : Z)
    (tz : option Timezone) : result temporal :=
  let midnight := (hour =? 24) && (minute =? second) && (second =? 0) in
  let delta := if midnight then TimeDelta.US_PER_DAY else 0 in
  let hour := if midnight then 0 else hour in
  '(dt, yr) <-
    (if (1 <=? year) && (year <=? 9999) then
       dt <- DT.make year month day hour minute second microsecond tz ;;
       Ok (dt, None)
     else if year =? 0 then Raise ValueError
     else if isleap (year + (if version11 k then 1 else 0)) then
       dt <- DT.make 4 month day hour minute second microsecond tz ;;
       Ok (dt, Some year)
     else
       dt <- DT.make 6 month day hour minute second microsecond tz ;;
       Ok (dt, Some year)) ;;
  dt <- (if delta =? 0 then Ok dt else DT.add dt delta) ;;
  Ok (mkTemporal k dt yr).

(** The keyword arguments of a constructor call. *)
Record kwargs : Type := mkKwargs {
  kw_year : option Z; kw_month : option Z; kw_day : option Z;
  kw_hour : option Z; kw_minute : option Z; kw_second : option Z;
  kw_microsecond : option Z; kw_tzinfo : option Timezone
}.

Definition absent (o : option Z) : bool :=
  match o with None => true | Some _ => false end.

Definition or_default (o : option Z) (d : Z) : Z :=
  match o with Some z => z | None => d end.

(** The [__init__] of each class, called with keyword arguments.  A
    missing required argument and an argument the class does not take are
    a [TypeError]. *)
Definition construct (k : kind) (kw : kwargs) : result temporal :=
  let no_date_part := absent (kw_year kw) && absent (kw_month kw)
                      && absent (kw_day kw) in
  let no_time_part := absent (kw_hour kw) && absent (kw_minute kw)
                      && absent (kw_second kw) && absent (kw_microsecond kw) in
  match shape_of k with
  | SDateTime =>
      match kw_year kw, kw_month kw, kw_day kw with
      | Some y, Some m, Some d =>
          abstract_init k y m d (or_default (kw_hour kw) 0)
            (or_default (kw_minute kw) 0) (or_default (kw_second kw) 0)
            (or_default (kw_microsecond kw) 0) (kw_tzinfo kw)
      | _, _, _ => Raise TypeError
      end
  | SDate =>
      match kw_year kw, kw_month kw, kw_day kw with
      | Some y, Some m, Some d =>
          if no_time_part then abstract_init k y m d 0 0 0 0 (kw_tzinfo kw)
          else Raise TypeError
      | _, _, _ => Raise TypeError
      end
  | SDay =>
      match kw_day kw with
      | Some d =>
          if no_time_part && absent (kw_year kw) && absent (kw_month kw)
          then abstract_init k 2000 1 d 0 0 0 0 (kw_tzinfo kw)
          else Raise TypeError
      | None => Raise TypeError
      end
  | SMonth =>
      match kw_month kw with
      | Some m =>
          if no_time_part && absent (kw_year kw) && absent (kw_day kw)
          then abstract_init k 2000 m 1 0 0 0 0 (kw_tzinfo kw)
          else Raise TypeError
      | None => Raise TypeError
      end
  | SMonthDay =>
      match kw_month kw, kw_day kw with
      | Some m, Some d =>
          if no_time_part && absent (kw_year kw)
          then abstract_init k 2000 m d 0 0 0 0 (kw_tzinfo kw)
          else Raise TypeError
      | _, _ => Raise TypeError
      end
  | SYear =>
      match kw_year kw with
      | Some y =>
          if no_time_part && absent (kw_month kw) && absent (kw_day kw)
          then abstract_init k y 1 1 0 0 0 0 (kw_tzinfo kw)
          else Raise TypeError
      | None => Raise TypeError
      end
  | SYearMonth =>
      match kw_year kw, kw_month kw with
      | Some y, Some m =>
          if no_time_part && absent (kw_day kw)
          then abstract_init k y m 1 0 0 0 0 (kw_tzinfo kw)
          else Raise TypeError
      | _, _ => Raise TypeError
      end
  | STime =>
      if no_date_part then
        let h := or_default (kw_hour kw) 0 in
        let mi := or_default (kw_minute kw) 0 in
        let s := or_default (kw_second kw) 0 in
        let h := if (h =? 24) && (mi =? s) && (s =? 0) then 0 else h in
        abstract_init k 2000 1 1 h mi s (or_default (kw_microsecond kw) 0)
          (kw_tzinfo kw)
      else Raise TypeError
  end.

(** [cls(year, month, day, hour, minute, second, microsecond, tzinfo)]:
    the positional call of [fromdelta], which only the date-time classes
    accept. *)
Definition construct8 (k : kind) (y m d h mi s us : Z)
    (tz : option Timezone) : result temporal :=
  match shape_of k with
  | SDateTime => abstract_init k y m d h mi s us tz
  | _ => Raise TypeError
  end.

(** *** The lexical patterns *)

Module Lexical.
Import PyStr.

(** The named groups of a match; [None] for a group that did not
    take part in it. *)
Record groups : Type := mkGroups {
  g_year : option string; g_month : option string; g_day : option string;
  g_hour : option string; g_minute : option string;
  g_second : option string; g_microsecond : option string;
  g_tzinfo : option string
}.

Definition no_groups : groups :=
  mkGroups None None None None None None None None.

Definition text (cs : list ascii) : string := string_of_list_ascii cs.

(** [[0-9]{2}] *)
Definition two_digits (cs : list ascii) : option (string * list ascii) :=
  match cs with
  | a :: b :: rest =>
      if is_digit a && is_digit b then Some (text [a; b], rest) else None
  | _ => None
  end.

(** A literal character. *)
Definition lit (c : ascii) (cs : list ascii) : option (list ascii) :=
  match cs with
  | x :: rest => if Ascii.eqb x c then Some rest else None
  | [] => None
  end.

(** [(?:-)?[0-9]*[0-9]{4}]: what follows a year in every pattern is
    not a digit, so the run of digits is taken whole. *)
Definition year_group (cs : list ascii) : option (string * list ascii) :=
  let '(neg, body) :=
    match cs with
    | c :: rest => if Ascii.eqb c "-" then (true, rest) else (false, cs)
    | [] => (false, [])
    end in
  let '(ds, rest) := PyFloat.span_digits body in
  if (4 <=? List.length ds)%nat
  then Some (text ((if neg then ["-"%char] else []) ++ ds), rest)
  else None.

Definition in_range (c lo hi : ascii) : bool :=
  (code lo <=? code c) && (code c <=? code hi).

(** [Z|[+-](?:(?:0[0-9]|1[0-3]):[0-5][0-9]|14:00)] *)
Definition is_timezone (cs : list ascii) : bool :=
  match cs with
  | [z] => Ascii.eqb z "Z"
  | [s; h1; h2; c; m1; m2] =>
      (Ascii.eqb s "+" || Ascii.eqb s "-") && Ascii.eqb c ":"
      && ((((Ascii.eqb h1 "0" && is_digit h2)
            || (Ascii.eqb h1 "1" && in_range h2 "0" "3"))
           && in_range m1 "0" "5" && is_digit m2)
          || String.eqb (text [h1; h2; m1; m2]) "1400")
  | _ => false
  end.

(** The optional time zone, up to the end of the text. *)
Definition tz_end (cs : list ascii) : option (option string) :=
  match cs with
  | [] => Some None
  | _ => if is_timezone cs then Some (Some (text cs)) else None
  end.

(** [(?:\.(?P<microsecond>[0-9]+))?] *)
Definition fraction (cs : list ascii) : option string * list ascii :=
  match cs with
  | c :: rest =>
      if Ascii.eqb c "." then
        match PyFloat.span_digits rest with
        | (d :: ds, rest') => (Some (text (d :: ds)), rest')
        | _ => (None, cs)
        end
      else (None, cs)
  | [] => (None, [])
  end.

Definition opt_bind {A B : Type} (o : option A) (k : A -> option B)
  : option B :=
  match o with Some a => k a | None => None end.

Notation "x <~ c ;; k" := (opt_bind c (fun x => k))
  (at level 61, c at next level, right associativity).
Notation "' p <~ c ;; k" := (opt_bind c (fun x => let 'p := x in k))
  (at level 61, p pattern, c at next level, right associativity).

(** [hh:mm:ss(.f+)?] *)
Definition time_groups (cs : list ascii)
  : option (string * string * string * option string * list ascii) :=
  '(h, r) <~ two_digits cs ;;
  r <~ lit ":" r ;;
  '(mi, r) <~ two_digits r ;;
  r <~ lit ":" r ;;
  '(s, r) <~ two_digits r ;;
  let '(f, r) := fraction r in
  Some (h, mi, s, f, r).

(** [cls.pattern.match(text)], by the shape of the class. *)
Definition pattern_match (sh : shape) (cs : list ascii) : option groups :=
  match sh with
  | SDateTime =>
      '(y, r) <~ year_group cs ;;
      r <~ lit "-" r ;;
      '(m, r) <~ two_digits r ;;
      r <~ lit "-" r ;;
      '(d, r) <~ two_digits r ;;
      r <~ lit "T" r ;;
      '(h, mi, s, f, r) <~ time_groups r ;;
      tz <~ tz_end r ;;
      Some (mkGroups (Some y) (Some m) (Some d) (Some h) (Some mi)
              (Some s) f tz)
  | SDate =>
      '(y, r) <~ year_group cs ;;
      r <~ lit "-" r ;;
      '(m, r) <~ two_digits r ;;
      r <~ lit "-" r ;;
      '(d, r) <~ two_digits r ;;
      tz <~ tz_end r ;;
      Some (mkGroups (Some y) (Some m) (Some d) None None None None tz)
  | SDay =>
      r <~ lit "-" cs ;;
      r <~ lit "-" r ;;
      r <~ lit "-" r ;;
      '(d, r) <~ two_digits r ;;
      tz <~ tz_end r ;;
      Some (mkGroups None None (Some d) None None None None tz)
  | SMonth =>
      r <~ lit "-" cs ;;
      r <~ lit "-" r ;;
      '(m, r) <~ two_digits r ;;
      tz <~ tz_end r ;;
      Some (mkGroups None (Some m) None None None None None tz)
  | SMonthDay =>
      r <~ lit "-" cs ;;
      r <~ lit "-" r ;;
      '(m, r) <~ two_digits r ;;
      r <~ lit "-" r ;;
      '(d, r) <~ two_digits r ;;
      tz <~ tz_end r ;;
      Some (mkGroups None (Some m) (Some d) None None None None tz)
  | SYear =>
      '(y, r) <~ year_group cs ;;
      tz <~ tz_end r ;;
      Some (mkGroups (Some y) None None None None None None tz)
  | SYearMonth =>
      '(y, r) <~ year_group cs ;;
      r <~ lit "-" r ;;
      '(m, r) <~ two_digits r ;;
      tz <~ tz_end r ;;
      Some (mkGroups (Some y) (Some m) None None None None None tz)
  | STime =>
      '(h, mi, s, f, r) <~ time_groups cs ;;
      tz <~ tz_end r ;;
      Some (mkGroups None None None (Some h) (Some mi) (Some s) f tz)
  end.

End Lexical.

(** [int(v)] of a group that took part in the match. *)
Definition int_group (g : option string) : result (option Z) :=
  match g with
  | Some v => z <- PyInt.of_string v ;; Ok (Some z)
  | None => Ok None
  end.

Definition strlen (s : string) : Z := Z.of_nat (String.length s).

(** [AbstractDateTime.fromstring], a class method: [k] is the class. *)
Definition fromstring (k : kind) (datetime_string : string)
    (tz : option Timezone) : result temporal :=
  match Lexical.pattern_match (shape_of k)
          (PyStr.strip_chars (list_ascii_of_string datetime_string)) with
  | None => Raise ValueError
  | Some g =>
      y <- int_group (Lexical.g_year g) ;;
      m <- int_group (Lexical.g_month g) ;;
      d <- int_group (Lexical.g_day g) ;;
      h <- int_group (Lexical.g_hour g) ;;
      mi <- int_group (Lexical.g_minute g) ;;
      s <- int_group (Lexical.g_second g) ;;
      us <- int_group (Lexical.g_microsecond g) ;;
      tzi <- match Lexical.g_tzinfo g with
             | Some v => t <- TimezoneM.fromstring v ;; Ok (Some t)
             | None => Ok tz
             end ;;
      let us :=
        match us, Lexical.g_microsecond g with
        | Some u, Some v =>
            let pow10 := 6 - strlen v in
            Some (if pow10 <? 0 then 0 else u * 10 ^ pow10)
        | _, _ => us
        end in
      y <- match y, Lexical.g_year g with
           | Some yv, Some v =>
               let year_digits :=
                 PyStr.lstrip_minus (list_ascii_of_string v) in
               if PyStr.startswith "0" (string_of_list_ascii year_digits)
                  && (4 <? Z.of_nat (List.length year_digits))
               then Raise ValueError
               else if (yv <=? 0) && version11 k then Ok (Some (yv - 1))
               else Ok (Some yv)
           | _, _ => Ok y
           end ;;
      construct k (mkKwargs y m d h mi s us tzi)
  end.

(** ** The XSD duration classes *)

Inductive dkind : Type := KDuration | KYearMonthDuration | KDayTimeDuration.

Definition dkind_eqb (a b : dkind) : bool :=
  match a, b with
  | KDuration, KDuration | KYearMonthDuration, KYearMonthDuration
  | KDayTimeDuration, KDayTimeDuration => true
  | _, _ => false
  end.

(** [issubclass(a, b)]: both variants derive from [Duration]. *)
Definition dsubclass (a b : dkind) : bool :=
  match b with KDuration => true | _ => dkind_eqb a b end.

Record duration : Type := mkDuration {
  dcls : dkind;
  months : Z;
  seconds : PyDecimal.decimal
}.

(** [Duration.__init__] *)
Definition duration_init (k : dkind) (months : Z)
    (seconds : PyDecimal.decimal) : result duration :=
  if (PyDecimal.is_neg seconds && (0 <? months))
     || ((months <? 0) && PyDecimal.is_pos seconds)
  then Raise ValueError
  else Ok (mkDuration k months seconds).

(** [Duration(months, seconds)] *)
Definition Duration (months : Z) (seconds : PyDecimal.decimal)
  : result duration :=
  duration_init KDuration months seconds.

(** [YearMonthDuration(months)] *)
Definition YearMonthDuration (months : Z) : result duration :=
  duration_init KYearMonthDuration months PyDecimal.zero.

(** [DayTimeDuration(seconds)] *)
Definition DayTimeDuration (seconds : PyDecimal.decimal) : result duration :=
  duration_init KDayTimeDuration 0 seconds.

(** The property [sign] *)
Definition sign (d : duration) : string :=
  if (months d <? 0) || PyDecimal.is_neg (seconds d)
  then "-"%string else ""%string.

Definition dec (z : Z) : PyDecimal.decimal := PyDecimal.of_int z.

(** [Duration.__str__], also the [__str__] of [DayTimeDuration] *)
Definition duration_str (d : duration) : result string :=
  let m := Z.abs (months d) in
  let years := m / 12 in
  let months := m mod 12 in
  let s := PyDecimal.copy_abs (seconds d) in
  q <- PyDecimal.floordiv s (dec 86400) ;;
  let days := PyDecimal.to_int q in
  q <- PyDecimal.floordiv s (dec 3600) ;;
  r <- PyDecimal.mod_ q (dec 24) ;;
  let hours := PyDecimal.to_int r in
  q <- PyDecimal.floordiv s (dec 60) ;;
  r <- PyDecimal.mod_ q (dec 60) ;;
  let minutes := PyDecimal.to_int r in
  secs <- PyDecimal.mod_ s (dec 60) ;;
  let part (z : Z) (unit : string) : string :=
    if z =? 0 then ""%string else String.append (PyStr.of_Z z) unit in
  let value := if String.eqb (sign d) "" then "P"%string else "-P"%string in
  let value :=
    String.append value
      (String.append (part years "Y"%string)
         (String.append (part months "M"%string) (part days "D"%string))) in
  if negb (hours =? 0) || negb (minutes =? 0) || negb (PyDecimal.is_zero secs)
  then
    Ok (String.append value
          (String.append "T"%string
             (String.append (part hours "H"%string)
                (String.append (part minutes "M"%string)
                   (if PyDecimal.is_zero secs then ""%string
                    else String.append
                           (PyDecimal.to_string (PyDecimal.normalize secs))
                           "S"%string)))))
  else if (years =? 0) && (months =? 0) && (days =? 0)
       then Ok (String.append value "T0S"%string)
       else Ok value.

(** [YearMonthDuration.__str__] *)
Definition year_month_str (d : duration) : string :=
  let m := Z.abs (months d) in
  let years := m / 12 in
  let mths := m mod 12 in
  let p := if months d <? 0 then "-P"%string else "P"%string in
  if years =? 0 then String.append p (String.append (PyStr.of_Z mths) "M"%string)
  else if mths =? 0 then String.append p (String.append (PyStr.of_Z years) "Y"%string)
  else String.append p
         (String.append (PyStr.of_Z years)
            (String.append "Y"%string (String.append (PyStr.of_Z mths) "M"%string))).

(** [str(d)]: the [__str__] of the class of [d]. *)
Definition format (d : duration) : result string :=
  match dcls d with
  | KYearMonthDuration => Ok (year_month_str d)
  | _ => duration_str d
  end.

(** *** The lexical form of a duration *)

Module DurationLexical.
Import PyStr Lexical.

(** The groups of [Duration._pattern], in their order. *)
Record dgroups : Type := mkDgroups {
  g_sign : bool;
  g_years : option (list ascii);
  g_months : option (list ascii);
  g_days : option (list ascii);
  g_hours : option (list ascii);
  g_minutes : option (list ascii);
  g_seconds : option (list ascii * list ascii)
}.

(** [(?:([0-9]+)X)?] for a designator [X] *)
Definition component (x : ascii) (cs : list ascii)
  : option (list ascii) * list ascii :=
  match PyFloat.span_digits cs with
  | (d :: ds, c :: rest) =>
      if Ascii.eqb c x then (Some (d :: ds), rest) else (None, cs)
  | _ => (None, cs)
  end.

(** [(?:([0-9]+(?:\.[0-9]+)?)S)?]: the integer part and the fraction *)
Definition seconds_component (cs : list ascii)
  : option (list ascii * list ascii) * list ascii :=
  match PyFloat.span_digits cs with
  | (d :: ds, rest) =>
      let '(f, rest') := fraction rest in
      match rest' with
      | c :: rest'' =>
          if Ascii.eqb c "S" then
            (Some (d :: ds,
                   match f with
                   | Some fs => list_ascii_of_string fs
                   | None => []
                   end), rest'')
          else (None, cs)
      | [] => (None, cs)
      end
  | _ => (None, cs)
  end.

Definition starts_with_digit (cs : list ascii) : bool :=
  match cs with c :: _ => is_digit c | [] => false end.

(** [Duration._pattern.match(text)] *)
Definition pattern_match (cs : list ascii) : option dgroups :=
  let '(neg, cs) :=
    match cs with
    | c :: rest => if Ascii.eqb c "-" then (true, rest) else (false, cs)
    | [] => (false, [])
    end in
  r <~ lit "P" cs ;;
  if negb (starts_with_digit r
           || match r with c :: _ => Ascii.eqb c "T" | [] => false end)
  then None
  else
    let '(y, r) := component "Y" r in
    let '(m, r) := component "M" r in
    let '(d, r) := component "D" r in
    match r with
    | [] => Some (mkDgroups neg y m d None None None)
    | c :: r' =>
        if Ascii.eqb c "T" && starts_with_digit r' then
          let '(h, r') := component "H" r' in
          let '(mi, r') := component "M" r' in
          let '(s, r') := seconds_component r' in
          match r' with
          | [] => Some (mkDgroups neg y m d h mi s)
          | _ => None
          end
        else None
    end.

(** [int(g or 0)] for a group of digits *)
Definition int_or_0 (g : option (list ascii)) : Z :=
  match g with Some ds => PyFloat.digits_Z ds | None => 0 end.

End DurationLexical.

(** [Duration.fromstring], a class method: [k] is the class. *)
Definition duration_fromstring (k : dkind) (text : string) : result duration :=
  match DurationLexical.pattern_match
          (PyStr.strip_chars (list_ascii_of_string text)) with
  | None => Raise ValueError
  | Some g =>
      let seconds :=
        match DurationLexical.g_seconds g with
        | Some (ip, fp) => PyDecimal.of_digits ip fp
        | None => dec 0
        end in
      q <- PyDecimal.floordiv seconds (dec 60) ;;
      let minutes :=
        DurationLexical.int_or_0 (DurationLexical.g_minutes g)
        + PyDecimal.to_int q in
      seconds <- PyDecimal.mod_ seconds (dec 60) ;;
      let hours :=
        DurationLexical.int_or_0 (DurationLexical.g_hours g) + minutes / 60 in
      let minutes := minutes mod 60 in
      let days :=
        DurationLexical.int_or_0 (DurationLexical.g_days g) + hours / 24 in
      let hours := hours mod 24 in
      let months :=
        DurationLexical.int_or_0 (DurationLexical.g_months g)
        + 12 * DurationLexical.int_or_0 (DurationLexical.g_years g) in
      let '(months, seconds) :=
        if DurationLexical.g_sign g then
          (- months,
           PyDecimal.sub
             (PyDecimal.sub (PyDecimal.neg seconds)
                (dec ((days * 24 + hours) * 3600)))
             (dec (minutes * 60)))
        else
          (months,
           PyDecimal.add
             (PyDecimal.add seconds (dec ((days * 24 + hours) * 3600)))
             (dec (minutes * 60))) in
      match k with
      | KDayTimeDuration =>
          if months =? 0 then DayTimeDuration seconds else Raise ValueError
      | KYearMonthDuration =>
          if PyDecimal.is_zero seconds then YearMonthDuration months
          else Raise ValueError
      | KDuration => Duration months seconds
      end
  end.

(** [DayTimeDuration.fromtimedelta]: the text
    ['{}.{:06}'.format(td.days * 86400 + td.seconds, td.microseconds)]
    read as a decimal. *)
Definition fromtimedelta (td : TimeDelta.timedelta) : result duration :=
  let whole := TimeDelta.days td * 86400 + TimeDelta.seconds td in
  let us := TimeDelta.microseconds td in
  DayTimeDuration
    (PyDecimal.mk
       (if whole <? 0 then - (Z.abs whole * 1000000 + us)
        else whole * 1000000 + us)
       (-6)).

(** [DayTimeDuration.get_timedelta] *)
Definition get_timedelta (d : duration) : result TimeDelta.timedelta :=
  let secs := PyDecimal.to_int (seconds d) in
  r <- PyDecimal.mod_ (seconds d) (dec 1) ;;
  let us := PyDecimal.to_int (PyDecimal.mul r (dec 1000000)) in
  TimeDelta.make 0 secs us 0 0.

(** *** Ordering of durations *)

Inductive cmpop : Type := OpLt | OpLe | OpGt | OpGe.

Definition holds (op : cmpop) (c : comparison) : bool :=
  match op, c with
  | OpLt, Lt | OpLe, Lt | OpLe, Eq | OpGt, Gt | OpGe, Gt | OpGe, Eq => true
  | _, _ => false
  end.

(** [isinstance(d, K)] for the class [K] of another duration *)
Definition disinstance (d : duration) (k : dkind) : bool :=
  dsubclass (dcls d) k.

(** [Duration._compare_durations] *)
Definition _compare_durations (self other : duration) (op : cmpop)
  : result bool :=
  if negb (disinstance other (dcls self)) then Raise TypeError
  else
    let m1 := months self in
    let s1 := PyDecimal.to_int (seconds self) in
    let m2 := months other in
    let s2 := PyDecimal.to_int (seconds other) in
    let ms1 :=
      PyDecimal.to_int
        (PyDecimal.mul (PyDecimal.sub (seconds self) (dec s1)) (dec 1000000)) in
    let ms2 :=
      PyDecimal.to_int
        (PyDecimal.mul (PyDecimal.sub (seconds other) (dec s2)) (dec 1000000)) in
    let anchored (y m : Z) : result bool :=
      a <- TimeDelta.make (months2days y m m1) s1 ms1 0 0 ;;
      b <- TimeDelta.make (months2days y m m2) s2 ms2 0 0 ;;
      Ok (holds op (a ?= b)) in
    c1 <- anchored 1696 9 ;;
    c2 <- anchored 1697 2 ;;
    c3 <- anchored 1903 3 ;;
    c4 <- anchored 1903 7 ;;
    Ok (forallb (fun b => b) [c1; c2; c3; c4]).

(** [Duration.__eq__]: against a duration of another class the
    comparison falls back to the pair of fields, so it is the same test. *)
Definition duration_eq (self other : duration) : bool :=
  (months self =? months other)
  && PyDecimal.eqb (seconds self) (seconds other).

Definition duration_ne (self other : duration) : bool :=
  negb (duration_eq self other).

Definition duration_lt (self other : duration) : result bool :=
  _compare_durations self other OpLt.

Definition duration_le (self other : duration) : result bool :=
  if duration_eq self other then Ok true
  else _compare_durations self other OpLe.

Definition duration_gt (self other : duration) : result bool :=
  _compare_durations self other OpGt.

Definition duration_ge (self other : duration) : result bool :=
  if duration_eq self other then Ok true
  else _compare_durations self other OpGe.

Definition swapped (op : cmpop) : cmpop :=
  match op with OpLt => OpGt | OpLe => OpGe | OpGt => OpLt | OpGe => OpLe end.

Definition duration_method (op : cmpop) : duration -> duration -> result bool :=
  match op with
  | OpLt => duration_lt | OpLe => duration_le
  | OpGt => duration_gt | OpGe => duration_ge
  end.

(** The operators [a < b], [a <= b], [a > b] and [a >= b] on two
    durations: when the class of [b] is a strict subclass of the class of
    [a], Python calls the reflected method of [b] first. *)
Definition duration_compare (op : cmpop) (a b : duration) : result bool :=
  if dsubclass (dcls b) (dcls a) && negb (dkind_eqb (dcls a) (dcls b))
  then duration_method (swapped op) b a
  else duration_method op a b.

(** ** Values *)

(** The Python values the operators of the module meet. *)
Inductive pyval : Type :=
| PBool (b : bool)
| PInt (z : Z)
| PFloat (f : PyFloat.float)
| PDecimal (d : PyDecimal.decimal)
| PStr (s : string)
| PUntyped (value : string)
| PTimedelta (td : TimeDelta.timedelta)
| PDatetime (dt : DT.datetime)
| PTemporal (t : temporal)
| PDuration (d : duration).

(** ** Comparison of date and time values *)

Definition utc_timezone : Timezone := TimezoneM.utc.

(** The two datetimes [_get_operands] hands to a comparison: a naive
    one gets the offset zero when the other one is aware.  [replace]
    builds a new datetime; the stored ones are not assigned. *)
Definition align_tzinfo (a b : DT.datetime) : DT.datetime * DT.datetime :=
  match DT.tzinfo a, DT.tzinfo b with
  | None, Some _ => (DT.replace_tzinfo a (Some utc_timezone), b)
  | Some _, None => (a, DT.replace_tzinfo b (Some utc_timezone))
  | _, _ => (a, b)
  end.

(** [AbstractDateTime._get_operands] *)
Definition _get_operands (self : temporal) (other : pyval)
  : result (DT.datetime * DT.datetime) :=
  match other with
  | PDatetime dt => Ok (align_tzinfo (_dt self) dt)
  | PTemporal o =>
      if issubclass (cls o) (cls self) || issubclass (cls self) (cls o)
      then Ok (align_tzinfo (_dt self) (_dt o))
      else Raise TypeError
  | _ => Raise TypeError
  end.

(** [other.year] *)
Definition year_of (other : pyval) : result Z :=
  match other with
  | PDatetime dt => Ok (DT.year dt)
  | PTemporal o => Ok (year o)
  | _ => Raise TypeError
  end.

(** [AbstractDateTime.__eq__] *)
Definition temporal_eq (self : temporal) (other : pyval) : bool :=
  match _get_operands self other with
  | Ok (dt1, dt2) =>
      DT.eqb dt1 dt2
      && match year_of other with Ok y => year self =? y | Raise _ => false end
  | Raise _ => false
  end.

(** [AbstractDateTime.__ne__] *)
Definition temporal_ne (self : temporal) (other : pyval) : bool :=
  match _get_operands self other with
  | Ok (dt1, dt2) =>
      negb (DT.eqb dt1 dt2)
      || match year_of other with
         | Ok y => negb (year self =? y)
         | Raise _ => true
         end
  | Raise _ => true
  end.

(** A call of [__eq__] as a step on the two objects: the answer and the
    objects after the call.  No attribute is assigned on the way. *)
Definition eq_call (self other : temporal) : bool * temporal * temporal :=
  (temporal_eq self (PTemporal other), self, other).

(** [OrderedDateTime.__lt__], [__le__], [__gt__] and [__ge__] *)
Definition ordered_compare (op : cmpop) (self : temporal) (other : pyval)
  : result bool :=
  '(dt1, dt2) <- _get_operands self other ;;
  y2 <- year_of other ;;
  let y1 := year self in
  match op with
  | OpLt | OpLe =>
      if y1 <? y2 then Ok true
      else if y1 =? y2 then c <- DT.cmp dt1 dt2 ;; Ok (holds op c)
      else Ok false
  | OpGt | OpGe =>
      if y2 <? y1 then Ok true
      else if y1 =? y2 then c <- DT.cmp dt1 dt2 ;; Ok (holds op c)
      else Ok false
  end.

(** [Time.__lt__], [__le__], [__gt__] and [__ge__] *)
Definition time_compare (op : cmpop) (self : temporal) (other : pyval)
  : result bool :=
  '(dt1, dt2) <- _get_operands self other ;;
  c <- DT.cmp dt1 dt2 ;;
  Ok (holds op c).

(** The comparison method of the class of [self], if it has one. *)
Definition temporal_method (op : cmpop) (self : temporal) (other : pyval)
  : option (result bool) :=
  if is_ordered (cls self) then Some (ordered_compare op self other)
  else match cls self with
       | Time => Some (time_compare op self other)
       | _ => None
       end.

(** ** Arithmetic of date and time values *)

(** [OrderedDateTime.todelta] *)
Definition todelta (self : temporal) : result TimeDelta.timedelta :=
  match _year self with
  | None =>
      '(dt1, dt2) <- _get_operands self (PDatetime DT.epoch) ;;
      DT.sub dt1 dt2
  | Some _ =>
      let year := year self in
      let dt := _dt self in
      let tz :=
        match DT.tzinfo dt with
        | None => None
        | Some _ => Some utc_timezone
        end in
      let days :=
        if 0 <? year then
          let m_days := if isleap year then MONTH_DAYS_LEAP else MONTH_DAYS in
          days_from_common_era (year - 1)
          + sum_range (getitem m_days) 1 (DT.month dt)
        else
          let m_days :=
            if isleap (year + 1) then MONTH_DAYS_LEAP else MONTH_DAYS in
          days_from_common_era year
          + sum_range (getitem m_days) 1 (DT.month dt) in
      first <- DT.make (DT.year dt) (DT.month dt) 1 0 0 0 0 tz ;;
      delta <- DT.sub dt first ;;
      secs <- TimeDelta.total_seconds delta ;;
      TimeDelta.of_days_fseconds days secs
  end.

(** The years of [days] days by cycles of 400, 100, 4 and 1 years, and
    the days left over. *)
Definition year_cycles (days : Z) : Z * Z * Z * Z * Z :=
  let y400 := days / DAYS_IN_400Y in
  let days := days mod DAYS_IN_400Y in
  let y100 := days / DAYS_IN_100Y in
  let days := days mod DAYS_IN_100Y in
  let y4 := days / DAYS_IN_4Y in
  let days := days mod DAYS_IN_4Y in
  let y1 := days / 365 in
  let days := days mod 365 in
  (y400, y100, y4, y1, days).

(** The [except OverflowError] branch of [fromdelta]: the year and the
    datetime within a reference year. *)
Definition fromdelta_overflow (delta : TimeDelta.timedelta)
  : result (Z * DT.datetime) :=
  let days := TimeDelta.days delta in
  let january (y : Z) : DT.datetime := DT.mk y 1 1 0 0 0 0 None in
  if 0 <? days then
    let '(y400, y100, y4, y1, days) := year_cycles days in
    let year := y400 * 400 + y100 * 100 + y4 * 4 + y1 + 1 in
    let '(year, days) :=
      if (y1 =? 4) || (y100 =? 4) then (year - 1, 365) else (year, days) in
    td <- TimeDelta.make days (TimeDelta.seconds delta)
            (TimeDelta.microseconds delta) 0 0 ;;
    dt <- DT.add (january (if isleap year then 4 else 6)) td ;;
    Ok (year, dt)
  else if -366 <=? days then
    td <- TimeDelta.make days (TimeDelta.seconds delta)
            (TimeDelta.microseconds delta) 0 0 ;;
    dt <- DT.add (january 5) td ;;
    Ok (-1, dt)
  else
    let '(y400, y100, y4, y1, days) := year_cycles (- days - 366) in
    let year := - y400 * 400 - y100 * 100 - y4 * 4 - y1 - 2 in
    let '(year, days) :=
      if (y1 =? 4) || (y100 =? 4) then (year + 1, 365) else (year, days) in
    td <- TimeDelta.make (- days) (TimeDelta.seconds delta)
            (TimeDelta.microseconds delta) 0 0 ;;
    if td =? 0 then Ok (year + 1, january (if isleap (year + 1) then 4 else 6))
    else
      dt <- DT.add (january (if isleap (year + 1) then 5 else 7)) td ;;
      Ok (year, dt).

(** [OrderedDateTime.fromdelta], a class method: [k] is the class. *)
Definition fromdelta (k : kind) (delta : TimeDelta.timedelta)
    (adjust_timezone : bool) : result temporal :=
  '(year, dt) <-
    match DT.add DT.epoch delta with
    | Ok dt => Ok (DT.year dt, dt)
    | Raise OverflowError => fromdelta_overflow delta
    | Raise e => Raise e
    end ;;
  if issubclass k Date10 then
    dt <-
      (if adjust_timezone
          && (negb (DT.hour dt =? 0) || negb (DT.minute dt =? 0))
       then
         match DT.tzinfo dt with
         | Some _ => Raise AssertionError
         | None =>
             let hour := DT.hour dt in
             let minute := DT.minute dt in
             if (hour <? 14) || ((hour =? 14) && (minute =? 0)) then
               off <- TimeDelta.make 0 0 0 (- minute) (- hour) ;;
               tz <- TimezoneM.init off ;;
               Ok (DT.replace_tzinfo dt (Some tz))
             else
               off <- TimeDelta.make 0 0 0 (- minute) (- hour + 24) ;;
               tz <- TimezoneM.init off ;;
               DT.add (DT.replace_tzinfo dt (Some tz)) TimeDelta.US_PER_DAY
         end
       else Ok dt) ;;
    abstract_init k year (DT.month dt) (DT.day dt) 0 0 0 0 (DT.tzinfo dt)
  else
    construct8 k year (DT.month dt) (DT.day dt) (DT.hour dt) (DT.minute dt)
      (DT.second dt) (DT.microsecond dt) (DT.tzinfo dt).

Inductive binop : Type := OpAdd | OpSub.

Definition apply_Z (op : binop) (a b : Z) : Z :=
  match op with OpAdd => a + b | OpSub => a - b end.

Definition apply_timedelta (op : binop) (a b : TimeDelta.timedelta)
  : result TimeDelta.timedelta :=
  match op with OpAdd => TimeDelta.add a b | OpSub => TimeDelta.sub a b end.

(** [{k: getattr(dt, k) for k in self.pattern.groupindex.keys()}] *)
Definition pattern_fields (sh : shape) (dt : DT.datetime) : kwargs :=
  let y := Some (DT.year dt) in
  let m := Some (DT.month dt) in
  let d := Some (DT.day dt) in
  let tz := DT.tzinfo dt in
  match sh with
  | SDateTime =>
      mkKwargs y m d (Some (DT.hour dt)) (Some (DT.minute dt))
        (Some (DT.second dt)) (Some (DT.microsecond dt)) tz
  | SDate => mkKwargs y m d None None None None tz
  | SDay => mkKwargs None None d None None None None tz
  | SMonth => mkKwargs None m None None None None None tz
  | SMonthDay => mkKwargs None m d None None None None tz
  | SYear => mkKwargs y None None None None None None tz
  | SYearMonth => mkKwargs y m None None None None None tz
  | STime =>
      mkKwargs None None None (Some (DT.hour dt)) (Some (DT.minute dt))
        (Some (DT.second dt)) (Some (DT.microsecond dt)) tz
  end.

Definition with_year (kw : kwargs) (y : Z) : kwargs :=
  mkKwargs (Some y) (kw_month kw) (kw_day kw) (kw_hour kw) (kw_minute kw)
    (kw_second kw) (kw_microsecond kw) (kw_tzinfo kw).

(** [OrderedDateTime._date_operator] *)
Definition _date_operator (self : temporal) (op : binop) (other : pyval)
  : result pyval :=
  let own := cls self in
  match other with
  | PTemporal o =>
      if issubclass (cls o) own then
        '(dt1, dt2) <- _get_operands self other ;;
        match _year self, _year o with
        | None, None =>
            td <- DT.sub dt1 dt2 ;;
            d <- fromtimedelta td ;; Ok (PDuration d)
        | _, _ =>
            a <- todelta self ;;
            b <- todelta o ;;
            td <- TimeDelta.sub a b ;;
            d <- fromtimedelta td ;; Ok (PDuration d)
        end
      else Raise TypeError
  | PTimedelta td =>
      a <- todelta self ;;
      delta <- apply_timedelta op a td ;;
      v <- fromdelta own delta true ;; Ok (PTemporal v)
  | PDuration d =>
      match dcls d with
      | KDayTimeDuration =>
          a <- todelta self ;;
          b <- get_timedelta d ;;
          delta <- apply_timedelta op a b ;;
          value <- fromdelta own delta false ;;
          match DT.tzinfo (_dt self) with
          | None => Ok (PTemporal value)
          | Some _ =>
              match tzinfo value with
              | None => Ok (PTemporal (set_tzinfo value (Some utc_timezone)))
              | Some _ => Ok (PTemporal value)
              end
          end
      | KYearMonthDuration =>
          let shifted := apply_Z op (DT.month (_dt self) - 1) (months d) in
          let month := shifted mod 12 + 1 in
          let year := year self + shifted / 12 in
          let day := adjust_day year month (DT.day (_dt self)) in
          dt <- DT.replace_date (_dt self)
                  (if 0 <? year then year else if isleap year then 4 else 6)
                  month day ;;
          let kw := pattern_fields (shape_of own) dt in
          v <- construct own (if year <=? 0 then with_year kw year else kw) ;;
          Ok (PTemporal v)
      | KDuration => Raise TypeError
      end
  | _ => Raise TypeError
  end.

(** [isinstance(v, OrderedDateTime)] *)
Definition is_ordered_value (v : pyval) : bool :=
  match v with PTemporal o => is_ordered (cls o) | _ => false end.

(** [OrderedDateTime.__add__] *)
Definition ordered_add (self : temporal) (other : pyval) : result pyval :=
  if is_ordered_value other then Raise TypeError
  else _date_operator self OpAdd other.

(** [OrderedDateTime.__sub__] *)
Definition ordered_sub (self : temporal) (other : pyval) : result pyval :=
  _date_operator self OpSub other.

(** [Time(dt.hour, dt.minute, dt.second, dt.microsecond, dt.tzinfo)] *)
Definition time_of (dt : DT.datetime) : result pyval :=
  v <- construct Time
         (mkKwargs None None None (Some (DT.hour dt)) (Some (DT.minute dt))
            (Some (DT.second dt)) (Some (DT.microsecond dt)) (DT.tzinfo dt)) ;;
  Ok (PTemporal v).

(** [Time.__add__] *)
Definition time_add (self : temporal) (other : pyval) : result pyval :=
  match other with
  | PDuration d =>
      match dcls d with
      | KDayTimeDuration =>
          td <- get_timedelta d ;;
          dt <- DT.add (_dt self) td ;; time_of dt
      | _ => Raise TypeError
      end
  | PTimedelta td => dt <- DT.add (_dt self) td ;; time_of dt
  | _ => Raise TypeError
  end.

(** [Time.__sub__] *)
Definition time_sub (self : temporal) (other : pyval) : result pyval :=
  match other with
  | PTemporal o =>
      if issubclass (cls o) (cls self) then
        '(dt1, dt2) <- _get_operands self other ;;
        td <- DT.sub dt1 dt2 ;;
        d <- fromtimedelta td ;; Ok (PDuration d)
      else Raise TypeError
  | PDuration d =>
      match dcls d with
      | KDayTimeDuration =>
          td <- get_timedelta d ;;
          dt <- DT.sub_delta (_dt self) td ;; time_of dt
      | _ => Raise TypeError
      end
  | PTimedelta td => dt <- DT.sub_delta (_dt self) td ;; time_of dt
  | _ => Raise TypeError
  end.

(** [self + other] and [self - other] for a date or time value [self]:
    the method of its class; the classes that are not ordered have none. *)
Definition temporal_add (self : temporal) (other : pyval) : result pyval :=
  if is_ordered (cls self) then ordered_add self other
  else match cls self with
       | Time => time_add self other
       | _ => Raise TypeError
       end.

Definition temporal_sub (self : temporal) (other : pyval) : result pyval :=
  if is_ordered (cls self) then ordered_sub self other
  else match cls self with
       | Time => time_sub self other
       | _ => Raise TypeError
       end.

(** ** Numbers *)

Definition as_int (v : pyval) : option Z :=
  match v with
  | PBool b => Some (if b then 1 else 0)
  | PInt z => Some z
  | _ => None
  end.

(** [isinstance(v, (float, int, Decimal))] *)
Definition is_number (v : pyval) : bool :=
  match v with
  | PBool _ | PInt _ | PFloat _ | PDecimal _ => true
  | _ => false
  end.

(** The operands of an arithmetic operator on two numbers, after the
    coercion of Python: an [int] goes to the type of the other operand,
    and a [Decimal] does not combine with a [float]. *)
Inductive numpair : Type :=
| IntPair (a b : Z)
| FloatPair (a b : PyFloat.float)
| DecPair (a b : PyDecimal.decimal).

Definition coerce (a b : pyval) : result numpair :=
  match a, b with
  | PFloat x, PFloat y => Ok (FloatPair x y)
  | PDecimal x, PDecimal y => Ok (DecPair x y)
  | PFloat x, _ =>
      match as_int b with
      | Some z => f <- PyFloat.of_int z ;; Ok (FloatPair x f)
      | None => Raise TypeError
      end
  | _, PFloat y =>
      match as_int a with
      | Some z => f <- PyFloat.of_int z ;; Ok (FloatPair f y)
      | None => Raise TypeError
      end
  | PDecimal x, _ =>
      match as_int b with
      | Some z => Ok (DecPair x (dec z))
      | None => Raise TypeError
      end
  | _, PDecimal y =>
      match as_int a with
      | Some z => Ok (DecPair (dec z) y)
      | None => Raise TypeError
      end
  | _, _ =>
      match as_int a, as_int b with
      | Some x, Some y => Ok (IntPair x y)
      | _, _ => Raise TypeError
      end
  end.

Inductive arith : Type := ArAdd | ArSub | ArMul | ArTrueDiv.

(** [a + b], [a - b], [a * b] and [a / b] on two numbers *)
Definition num_arith (op : arith) (a b : pyval) : result pyval :=
  p <- coerce a b ;;
  match p, op with
  | IntPair x y, ArAdd => Ok (PInt (x + y))
  | IntPair x y, ArSub => Ok (PInt (x - y))
  | IntPair x y, ArMul => Ok (PInt (x * y))
  | IntPair x y, ArTrueDiv => f <- PyFloat.int_truediv x y ;; Ok (PFloat f)
  | FloatPair x y, ArAdd => Ok (PFloat (PyFloat.add x y))
  | FloatPair x y, ArSub => Ok (PFloat (PyFloat.sub x y))
  | FloatPair x y, ArMul => Ok (PFloat (PyFloat.mul x y))
  | FloatPair x y, ArTrueDiv => f <- PyFloat.div x y ;; Ok (PFloat f)
  | DecPair x y, ArAdd => Ok (PDecimal (PyDecimal.add x y))
  | DecPair x y, ArSub => Ok (PDecimal (PyDecimal.sub x y))
  | DecPair x y, ArMul => Ok (PDecimal (PyDecimal.mul x y))
  | DecPair x y, ArTrueDiv => d <- PyDecimal.div x y ;; Ok (PDecimal d)
  end.

(** [float(v)] for a number *)
Definition to_float (v : pyval) : result PyFloat.float :=
  match v with
  | PFloat f => Ok f
  | PDecimal d => Ok (PyDecimal.to_float d)
  | _ =>
      match as_int v with
      | Some z => PyFloat.of_int z
      | None => Raise TypeError
      end
  end.

(** [int(float(v) + 0.5)] *)
Definition round_half_up (v : pyval) : result Z :=
  f <- to_float v ;;
  PyFloat.to_int (PyFloat.add f PyFloat.half).

(** ** Arithmetic of durations *)

(** [YearMonthDuration.__add__] *)
Definition ym_add (self : duration) (other : pyval) : result pyval :=
  match other with
  | PDuration o =>
      if disinstance o (dcls self)
      then d <- YearMonthDuration (months self + months o) ;; Ok (PDuration d)
      else Raise TypeError
  | PTemporal t =>
      if issubclass (cls t) DateTime10 || issubclass (cls t) Date10
      then temporal_add t (PDuration self)
      else Raise TypeError
  | _ => Raise TypeError
  end.

(** [YearMonthDuration.__sub__] *)
Definition ym_sub (self : duration) (other : pyval) : result pyval :=
  match other with
  | PDuration o =>
      if disinstance o (dcls self)
      then d <- YearMonthDuration (months self - months o) ;; Ok (PDuration d)
      else Raise TypeError
  | _ => Raise TypeError
  end.

(** [YearMonthDuration.__mul__] *)
Definition ym_mul (self : duration) (other : pyval) : result pyval :=
  if is_number other then
    p <- num_arith ArMul (PInt (months self)) other ;;
    m <- round_half_up p ;;
    d <- YearMonthDuration m ;; Ok (PDuration d)
  else Raise TypeError.

(** [YearMonthDuration.__truediv__] *)
Definition ym_truediv (self : duration) (other : pyval) : result pyval :=
  match other with
  | PDuration o =>
      if disinstance o (dcls self)
      then num_arith ArTrueDiv (PInt (months self)) (PInt (months o))
      else Raise TypeError
  | _ =>
      if is_number other then
        q <- num_arith ArTrueDiv (PInt (months self)) other ;;
        m <- round_half_up q ;;
        d <- YearMonthDuration m ;; Ok (PDuration d)
      else Raise TypeError
  end.

(** [DayTimeDuration.__add__] *)
Definition dt_add (self : duration) (other : pyval) : result pyval :=
  match other with
  | PDuration o =>
      if disinstance o (dcls self) then
        d <- DayTimeDuration (PyDecimal.add (seconds self) (seconds o)) ;;
        Ok (PDuration d)
      else Raise TypeError
  | _ => Raise TypeError
  end.

(** [DayTimeDuration.__sub__] *)
Definition dt_sub (self : duration) (other : pyval) : result pyval :=
  match other with
  | PDuration o =>
      if disinstance o (dcls self) then
        d <- DayTimeDuration (PyDecimal.sub (seconds self) (seconds o)) ;;
        Ok (PDuration d)
      else Raise TypeError
  | _ => Raise TypeError
  end.

(** [DayTimeDuration.__mul__] *)
Definition dt_mul (self : duration) (other : pyval) : result pyval :=
  if is_number other then
    p <- num_arith ArMul (PDecimal (seconds self)) other ;;
    s <- round_half_up p ;;
    d <- DayTimeDuration (dec s) ;; Ok (PDuration d)
  else Raise TypeError.

(** [DayTimeDuration.__truediv__] *)
Definition dt_truediv (self : duration) (other : pyval) : result pyval :=
  match other with
  | PDuration o =>
      if disinstance o (dcls self)
      then num_arith ArTrueDiv (PDecimal (seconds self)) (PDecimal (seconds o))
      else Raise TypeError
  | _ =>
      if is_number other then
        q <- num_arith ArTrueDiv (PDecimal (seconds self)) other ;;
        s <- round_half_up q ;;
        d <- DayTimeDuration (dec s) ;; Ok (PDuration d)
      else Raise TypeError
  end.

(** [self op other] for a duration [self]: the method of its class; the
    base class [Duration] has no arithmetic. *)
Definition duration_arith (op : arith) (self : duration) (other : pyval)
  : result pyval :=
  match dcls self, op with
  | KYearMonthDuration, ArAdd => ym_add self other
  | KYearMonthDuration, ArSub => ym_sub self other
  | KYearMonthDuration, ArMul => ym_mul self other
  | KYearMonthDuration, ArTrueDiv => ym_truediv self other
  | KDayTimeDuration, ArAdd => dt_add self other
  | KDayTimeDuration, ArSub => dt_sub self other
  | KDayTimeDuration, ArMul => dt_mul self other
  | KDayTimeDuration, ArTrueDiv => dt_truediv self other
  | KDuration, _ => Raise TypeError
  end.

(** ** [UntypedAtomic] *)

(** The exact comparison of a [float] with an [int]. *)
Definition float_compare_int (f : PyFloat.float) (z : Z) : option comparison :=
  match f with
  | S754_nan => None
  | S754_infinity s => Some (if s then Lt else Gt)
  | S754_zero _ => Some (0 ?= z)
  | S754_finite s m e =>
      let n := cond_Zopp s (Zpos m) in
      Some (if 0 <=? e then n * 2 ^ e ?= z else n ?= z * 2 ^ (- e))
  end.

(** The pairs [UntypedAtomic._get_operands] returns. *)
Inductive operands : Type :=
| Floats (a b : PyFloat.float)
| Strings (a b : string)
| Bools (a b : bool)
| FloatInt (a : PyFloat.float) (b : Z)
| Decimals (a b : PyDecimal.decimal)
| Temporals (a b : temporal)
| Durations (a b : duration).

(** [UntypedAtomic.__bool__] *)
Definition untyped_bool (value : string) : result bool :=
  let v := PyStr.strip value in
  if negb (PyStr.mem v ["0"; "1"; "true"; "false"]%string)
  then Raise ValueError
  else Ok (PyStr.mem v ["1"; "true"]%string).

(** [Decimal(text)] *)
Definition decimal_of_string (s : string) : result PyDecimal.decimal :=
  let cs :=
    filter (fun c => negb (Ascii.eqb c "_"))
      (PyStr.strip_chars (list_ascii_of_string s)) in
  let '(neg, body) := PyFloat.split_sign cs in
  match PyFloat.decimal_literal body with
  | Some (c, e) => Ok (PyDecimal.mk (cond_Zopp neg c) e)
  | None => Raise DecimalException
  end.

(** [UntypedAtomic._get_operands]: [value] is the text of [self]. *)
Definition untyped_operands (value : string) (other : pyval)
    (force_float : bool) : result operands :=
  match other with
  | PUntyped o =>
      if force_float then
        a <- PyFloat.of_string value ;;
        b <- PyFloat.of_string o ;;
        Ok (Floats a b)
      else Ok (Strings value o)
  | PBool b => a <- untyped_bool value ;; Ok (Bools a b)
  | PInt z => a <- PyFloat.of_string value ;; Ok (FloatInt a z)
  | PTemporal t => a <- fromstring (cls t) value None ;; Ok (Temporals a t)
  | PDuration d => a <- duration_fromstring (dcls d) value ;; Ok (Durations a d)
  | PFloat f => a <- PyFloat.of_string value ;; Ok (Floats a f)
  | PDecimal d => a <- decimal_of_string value ;; Ok (Decimals a d)
  | PStr s => Ok (Strings value s)
  | PTimedelta _ | PDatetime _ => Raise TypeError
  end.

Definition reversed (p : operands) : result operands :=
  match p with
  | Floats a b => Ok (Floats b a)
  | Strings a b => Ok (Strings b a)
  | Bools a b => Ok (Bools b a)
  | Decimals a b => Ok (Decimals b a)
  | Temporals a b => Ok (Temporals b a)
  | Durations a b => Ok (Durations b a)
  | FloatInt a b => f <- PyFloat.of_int b ;; Ok (Floats f a)
  end.

Definition int_of_bool (b : bool) : Z := if b then 1 else 0.

(** [operator.eq(a, b)] *)
Definition operator_eq (p : operands) : bool :=
  match p with
  | Floats a b => PyFloat.eqb a b
  | Strings a b => String.eqb a b
  | Bools a b => Bool.eqb a b
  | FloatInt a b =>
      match float_compare_int a b with Some Eq => true | _ => false end
  | Decimals a b => PyDecimal.eqb a b
  | Temporals a b => temporal_eq a (PTemporal b)
  | Durations a b => duration_eq a b
  end.

(** [operator.lt(a, b)], [le], [gt] and [ge] *)
Definition operator_cmp (op : cmpop) (p : operands) : result bool :=
  match p with
  | Floats a b =>
      Ok (match SFcompare a b with Some c => holds op c | None => false end)
  | Strings a b => Ok (holds op (String.compare a b))
  | Bools a b => Ok (holds op (int_of_bool a ?= int_of_bool b))
  | FloatInt a b =>
      Ok (match float_compare_int a b with
          | Some c => holds op c
          | None => false
          end)
  | Decimals a b => Ok (holds op (PyDecimal.compare a b))
  | Temporals a b =>
      match temporal_method op a (PTemporal b) with
      | Some r => r
      | None => Raise TypeError
      end
  | Durations a b => duration_compare op a b
  end.

(** [operator.add(a, b)], [sub], [mul] and [truediv] *)
Definition operator_arith (op : arith) (p : operands) : result pyval :=
  match p with
  | Floats a b => num_arith op (PFloat a) (PFloat b)
  | Strings a b =>
      match op with
      | ArAdd => Ok (PStr (String.append a b))
      | _ => Raise TypeError
      end
  | Bools a b => num_arith op (PBool a) (PBool b)
  | FloatInt a b => num_arith op (PFloat a) (PInt b)
  | Decimals a b => num_arith op (PDecimal a) (PDecimal b)
  | Temporals a b =>
      match op with
      | ArAdd => temporal_add a (PTemporal b)
      | ArSub => temporal_sub a (PTemporal b)
      | _ => Raise TypeError
      end
  | Durations a b => duration_arith op a (PDuration b)
  end.

(** [UntypedAtomic.__eq__] and [__ne__] *)
Definition untyped_eq (value : string) (other : pyval) : result bool :=
  p <- untyped_operands value other false ;; Ok (operator_eq p).

Definition untyped_ne (value : string) (other : pyval) : result bool :=
  p <- untyped_operands value other false ;; Ok (negb (operator_eq p)).

(** [UntypedAtomic.__lt__], [__le__], [__gt__] and [__ge__] *)
Definition untyped_cmp (op : cmpop) (value : string) (other : pyval)
  : result bool :=
  p <- untyped_operands value other true ;; operator_cmp op p.

(** [UntypedAtomic.__add__], [__sub__], [__mul__] and [__truediv__];
    [__radd__] and [__rmul__] are [__add__] and [__mul__]. *)
Definition untyped_arith (op : arith) (value : string) (other : pyval)
  : result pyval :=
  p <- untyped_operands value other true ;; operator_arith op p.

(** [UntypedAtomic.__rsub__] and [__rtruediv__] *)
Definition untyped_rarith (op : arith) (value : string) (other : pyval)
  : result pyval :=
  p <- untyped_operands value other true ;;
  q <- reversed p ;;
  operator_arith op q.

(** ** The integer constructors and the registry of builtin types *)

(** [xpath_error(code, message)], of the module of exceptions: the error
    with that code. *)
Definition xpath_error (code : string) : exn := XPathError code.

(** [int(value)] for a value that is not a string *)
Definition int_of_value (value : pyval) : result Z :=
  match value with
  | PBool b => Ok (int_of_bool b)
  | PInt z => Ok z
  | PFloat f => PyFloat.to_int f
  | PDecimal d => Ok (PyDecimal.to_int d)
  | PUntyped s => PyInt.of_string s
  | _ => Raise TypeError
  end.

Definition recode (r : result Z) : result Z :=
  match r with
  | Raise ValueError => Raise (xpath_error "FORG0001")
  | Raise OverflowError => Raise (xpath_error "FOAR0002")
  | _ => r
  end.

(** [cast_to_integer(value, lower_bound, higher_bound)] *)
Definition cast_to_integer (value : pyval) (lower_bound higher_bound : option Z)
  : result Z :=
  r <- match value with
       | PStr s =>
           recode
             (if PyStr.mem (PyStr.lower (PyStr.strip s)) ["inf"; "-inf"]%string
                 && negb (PyStr.mem (PyStr.strip s) ["INF"; "-INF"]%string)
              then Raise ValueError
              else f <- PyFloat.of_string s ;; PyFloat.to_int f)
       | _ => recode (int_of_value value)
       end ;;
  match lower_bound, higher_bound with
  | Some lo, _ =>
      if r <? lo then Raise (xpath_error "FORG0001")
      else match higher_bound with
           | Some hi =>
               if hi <=? r then Raise (xpath_error "FORG0001") else Ok r
           | None => Ok r
           end
  | None, Some hi =>
      if hi <=? r then Raise (xpath_error "FORG0001") else Ok r
  | None, None => Ok r
  end.

(** The constructors registered for the integer types. *)
Definition cast_integer (v : pyval) := cast_to_integer v None None.
Definition cast_nonNegativeInteger (v : pyval) := cast_to_integer v (Some 0) None.
Definition cast_positiveInteger (v : pyval) := cast_to_integer v (Some 1) None.
Definition cast_nonPositiveInteger (v : pyval) := cast_to_integer v None (Some 1).
Definition cast_negativeInteger (v : pyval) := cast_to_integer v None (Some 0).
Definition cast_long (v : pyval) := cast_to_integer v (Some (- 2 ^ 127)) (Some (2 ^ 127)).
Definition cast_int (v : pyval) := cast_to_integer v (Some (- 2 ^ 63)) (Some (2 ^ 63)).
Definition cast_short (v : pyval) := cast_to_integer v (Some (- 2 ^ 15)) (Some (2 ^ 15)).
Definition cast_byte (v : pyval) := cast_to_integer v (Some (- 2 ^ 7)) (Some (2 ^ 7)).
Definition cast_unsignedLong (v : pyval) := cast_to_integer v (Some 0) (Some (2 ^ 128)).
Definition cast_unsignedInt (v : pyval) := cast_to_integer v (Some 0) (Some (2 ^ 64)).
Definition cast_unsignedShort (v : pyval) := cast_to_integer v (Some 0) (Some (2 ^ 16)).
Definition cast_unsignedByte (v : pyval) := cast_to_integer v (Some 0) (Some (2 ^ 8)).

(** [integer_validator] *)
Definition integer_validator (v : pyval) : bool :=
  match v with PInt _ => true | _ => false end.

Definition bounded_validator (lo hi : Z) (v : pyval) : bool :=
  integer_validator v
  && match v with PInt x => (lo <=? x) && (x <? hi) | _ => false end.

(** [XSD_BUILTIN_TYPES['long'].validator] and [XSD_BUILTIN_TYPES['int'].validator] *)
Definition long_validator : pyval -> bool := bounded_validator (- 2 ^ 63) (2 ^ 63).
Definition int_validator : pyval -> bool := bounded_validator (- 2 ^ 31) (2 ^ 31).

(** ** The vocabulary of the properties *)

(** The text of the offset of [hh] hours and [mm] minutes, with its sign. *)
Definition tz_text (neg : bool) (hh mm : Z) : string :=
  String.append (if neg then "-" else "+")
    (String.append (TimezoneM.two_digits hh)
       (String.append ":" (TimezoneM.two_digits mm))).

Definition tz_micros (neg : bool) (hh mm : Z) : Z :=
  (if neg then -1 else 1) * ((hh * 60 + mm) * 60000000).

Definition tz_case (neg : bool) (hh mm : Z) : bool :=
  match TimezoneM.fromstring (tz_text neg hh mm) with
  | Ok tz => offset tz =? tz_micros neg hh mm
  | Raise _ => false
  end.

Definition upto (n : nat) : list Z := map Z.of_nat (seq 0 n).

(** The month and the day of the [n]-th day of a year, counted from 0:
    the last part of [_ord2ymd]. *)
Definition month_day (n : Z) (leapyear : bool) : Z * Z :=
  let m := Z.shiftr (n + 50) 5 in
  let preceding :=
    DT._DAYS_BEFORE_MONTH m + (if (2 <? m) && leapyear then 1 else 0) in
  if n <? preceding then
    let m := m - 1 in
    let preceding :=
      preceding
      - (DT._DAYS_IN_MONTH m + (if (m =? 2) && leapyear then 1 else 0)) in
    (m, n - preceding + 1)
  else (m, n - preceding + 1).

Definition month_day_ok (leap : bool) (n : Z) : bool :=
  let '(m, d) := month_day n leap in
  (1 <=? m) && (m <=? 12) && (1 <=? d)
  && (d <=? (if (m =? 2) && leap then 29 else DT._DAYS_IN_MONTH m))
  && (DT._DAYS_BEFORE_MONTH m + (if (2 <? m) && leap then 1 else 0) + d
      =? n + 1).

(** A date at midnight, as [Date10] and [Date] store it. *)
Definition midnight (y m d : Z) (tz : option Timezone) : DT.datetime :=
  DT.mk y m d 0 0 0 0 tz.

Definition day_of (n : Z) (tz : option Timezone) : DT.datetime :=
  let '(y, m, d) := DT._ord2ymd n in midnight y m d tz.

Definition shift (op : binop) (n : Z) : Z :=
  match op with OpAdd => n | OpSub => - n end.

(** The year a text writes, for a class whose pattern has a year. *)
Definition lexical_year (k : kind) (text : string) : option Z :=
  match Lexical.pattern_match (shape_of k)
          (PyStr.strip_chars (list_ascii_of_string text)) with
  | Some g =>
      match Lexical.g_year g with
      | Some v =>
          match PyInt.of_string v with
          | Ok z => Some z
          | Raise _ => None
          end
      | None => None
      end
  | None => None
  end.

(** The invariant of a duration: the months and the seconds do not have
    strictly opposite signs. *)
Definition signs_agree (d : duration) : Prop :=
  (months d <= 0 /\ PyDecimal.coef (seconds d) <= 0)
  \/ (0 <= months d /\ 0 <= PyDecimal.coef (seconds d)).

(** The invariant, on a value that is a duration. *)
Definition duration_ok (v : pyval) : Prop :=
  match v with
  | PDuration d => signs_agree d
  | _ => True
  end.

(** The keyword arguments [kw] with the offset [tz]. *)
Definition with_tzinfo (kw : kwargs) (tz : option Timezone) : kwargs :=
  mkKwargs (kw_year kw) (kw_month kw) (kw_day kw) (kw_hour kw)
    (kw_minute kw) (kw_second kw) (kw_microsecond kw) tz.

(** The days of the months [a .. b - 1] by the tables of the module,
    against the days before a month of the standard calendar. *)
Definition table_ok (leap : bool) (a b : Z) : bool :=
  sum_range (getitem (if leap then MONTH_DAYS_LEAP else MONTH_DAYS)) a b
  =? (DT._DAYS_BEFORE_MONTH b + (if (2 <? b) && leap then 1 else 0))
     - (DT._DAYS_BEFORE_MONTH a + (if (2 <? a) && leap then 1 else 0)).

(** The character of a digit. *)
Definition digit_char (r : Z) : ascii := ascii_of_N (Z.to_N (48 + r)).

Definition digit_of (r : Z) : DecimalFacts.digits :=
  match r with
  | 0 => DecimalFacts.d0 | 1 => DecimalFacts.d1 | 2 => DecimalFacts.d2
  | 3 => DecimalFacts.d3 | 4 => DecimalFacts.d4 | 5 => DecimalFacts.d5
  | 6 => DecimalFacts.d6 | 7 => DecimalFacts.d7 | 8 => DecimalFacts.d8
  | _ => DecimalFacts.d9
  end.

(** The number a list of digits writes. *)
Definition lval (l : list DecimalFacts.digits) : N :=
  fold_left (fun acc d =>
    (10 * acc + match d with
                | DecimalFacts.d0 => 0 | DecimalFacts.d1 => 1
                | DecimalFacts.d2 => 2 | DecimalFacts.d3 => 3
                | DecimalFacts.d4 => 4 | DecimalFacts.d5 => 5
                | DecimalFacts.d6 => 6 | DecimalFacts.d7 => 7
                | DecimalFacts.d8 => 8 | DecimalFacts.d9 => 9
                end)%N) l 0%N.

(** The characters of ['%d' % n]. *)
Definition digits_of (n : Z) : list ascii := list_ascii_of_string (PyStr.of_Z n).

(** The offset of a value in microseconds, zero for a naive one. *)
Definition offset_us (tz : option Timezone) : Z :=
  match tz with Some z => offset z | None => 0 end.


(** The characters [YearMonthDuration.__str__] writes for [n] months. *)
Definition ym_text (n : Z) : list ascii :=
  let m := Z.abs n in
  (if n <? 0 then ["-"%char; "P"%char] else ["P"%char])
  ++ (if m / 12 =? 0 then digits_of (m mod 12) ++ ["M"%char]
      else if m mod 12 =? 0 then digits_of (m / 12) ++ ["Y"%char]
      else digits_of (m / 12) ++ "Y"%char :: digits_of (m mod 12) ++ ["M"%char]).

(** * Properties *)

(** ** Tactics *)

(** Boolean tests on integers as propositions, for [lia]. *)
Ltac bool_to_Z :=
  repeat match goal with
    | H : andb _ _ = true |- _ => apply andb_true_iff in H; destruct H
    | H : andb _ _ = false |- _ => apply andb_false_iff in H; destruct H
    | H : orb _ _ = true |- _ => apply orb_true_iff in H; destruct H
    | H : orb _ _ = false |- _ => apply orb_false_iff in H; destruct H
    | H : negb _ = true |- _ => apply negb_true_iff in H
    | H : negb _ = false |- _ => apply negb_false_iff in H
    | H : (_ <=? _) = true |- _ => apply Z.leb_le in H
    | H : (_ <=? _) = false |- _ => apply Z.leb_gt in H
    | H : (_ <? _) = true |- _ => apply Z.ltb_lt in H
    | H : (_ <? _) = false |- _ => apply Z.ltb_ge in H
    | H : (_ =? _) = true |- _ => apply Z.eqb_eq in H
    | H : (_ =? _) = false |- _ => apply Z.eqb_neq in H
    end.

(** Linear arithmetic with quotients and remainders by constants. *)
Ltac lia_div := Z.div_mod_to_equations; lia.

Ltac table_simpl :=
  cbn [DT._DAYS_BEFORE_MONTH DT._DAYS_IN_MONTH Z.eqb Z.ltb Z.compare
       Pos.compare Pos.compare_cont Pos.eqb andb] in *.

Ltac out_of_range :=
  match goal with
  | |- context [?y =? 0] => destruct (Z.eqb_spec y 0); [discriminate |]
  end;
  destruct (isleap _);
  match goal with
  | |- context [DT.make ?a ?m ?d ?h ?mi ?s ?us ?tz] =>
      destruct (DT.make a m d h mi s us tz) as [dt |]; cbn [bind];
      [| discriminate]
  end;
  match goal with
  | |- context [if ?c then Ok ?dt else ?e] =>
      destruct (if c then Ok dt else e) as [dt' |]; cbn [bind];
      [| discriminate]
  end;
  intros [= <-]; unfold year; cbn [_year];
  match goal with
  | |- context [?y =? 0] => destruct (Z.eqb_spec y 0); [lia |]
  end;
  repeat split; try lia.

(** Inversion of a chain of calls that returned: each call returned, each
    test went one way. *)
Ltac returned :=
  repeat match goal with
    | |- bind ?c _ = Ok _ -> _ =>
        let E := fresh "E" in
        destruct c eqn:E; cbn [bind]; [| discriminate]
    | |- (if ?c then _ else _) = Ok _ -> _ => destruct c
    | |- (let '(_, _) := ?p in _) = Ok _ -> _ => destruct p
    | |- match ?x with _ => _ end = Ok _ -> _ => destruct x
    | |- Raise _ = Ok _ -> _ => discriminate
    end.

(** ** The integer constructors against the registry *)

Lemma cast_to_integer_int (x lo hi : Z) :
  cast_to_integer (PInt x) (Some lo) (Some hi)
  = if (lo <=? x) && (x <? hi) then Ok x else Raise (xpath_error "FORG0001").
Proof.
  unfold cast_to_integer; cbn [int_of_value recode bind].
  destruct (Z.ltb_spec x lo), (Z.leb_spec lo x), (Z.leb_spec hi x),
    (Z.ltb_spec x hi); cbn; try reflexivity; lia.
Qed.

(** C10: on an integer input the [long] constructor accepts exactly the
    values of [-2^127, 2^127) and the [int] constructor exactly those of
    [-2^63, 2^63), and rejects the others with [FORG0001]; the validators
    of the registry accept exactly [-2^63, 2^63) and [-2^31, 2^31), so
    every integer a validator accepts is accepted by the constructor, and
    [2^63] is accepted by the [long] constructor and rejected by the
    [long] validator. *)
Theorem integer_constructors_wider_than_registry :
  (forall x : Z,
      (cast_long (PInt x) = Ok x <-> - 2 ^ 127 <= x < 2 ^ 127)
      /\ (cast_long (PInt x) = Raise (xpath_error "FORG0001")
          <-> ~ (- 2 ^ 127 <= x < 2 ^ 127))
      /\ (cast_int (PInt x) = Ok x <-> - 2 ^ 63 <= x < 2 ^ 63)
      /\ (cast_int (PInt x) = Raise (xpath_error "FORG0001")
          <-> ~ (- 2 ^ 63 <= x < 2 ^ 63))
      /\ (long_validator (PInt x) = true <-> - 2 ^ 63 <= x < 2 ^ 63)
      /\ (int_validator (PInt x) = true <-> - 2 ^ 31 <= x < 2 ^ 31))
  /\ cast_long (PInt (2 ^ 63)) = Ok (2 ^ 63)
  /\ long_validator (PInt (2 ^ 63)) = false.
Proof.
  split; [intro x | split; reflexivity].
  unfold cast_long, cast_int, long_validator, int_validator, bounded_validator.
  rewrite !cast_to_integer_int; cbn [integer_validator andb].
  repeat match goal with |- _ /\ _ => split end;
    (split; intros Hyp;
     repeat match goal with
       | H : context [if ?b then _ else _] |- _ => destruct b eqn:?
       | |- context [if ?b then _ else _] => destruct b eqn:?
       end;
     try discriminate; try reflexivity; bool_to_Z; try lia).
Qed.

(** ** The format of a zero duration *)

Lemma divide_zero (a b : PyDecimal.decimal) :
  PyDecimal.coef a = 0 ->
  PyDecimal.is_zero b = false ->
  PyDecimal.divide a b
  = Ok (PyDecimal.mk 0 0,
        PyDecimal.mk 0 (Z.min (PyDecimal.expo a) (PyDecimal.expo b))).
Proof.
  intros Ha Hb. unfold PyDecimal.divide, PyDecimal.align.
  rewrite Hb, Ha, Z.mul_0_l. reflexivity.
Qed.

Lemma floordiv_zero (a b : PyDecimal.decimal) :
  PyDecimal.coef a = 0 ->
  PyDecimal.is_zero b = false ->
  PyDecimal.floordiv a b = Ok (PyDecimal.mk 0 0).
Proof.
  intros Ha Hb. unfold PyDecimal.floordiv.
  rewrite Hb, (divide_zero a b Ha Hb). reflexivity.
Qed.

Lemma mod_zero (a b : PyDecimal.decimal) :
  PyDecimal.coef a = 0 ->
  PyDecimal.is_zero b = false ->
  PyDecimal.mod_ a b
  = Ok (PyDecimal.mk 0 (Z.min (PyDecimal.expo a) (PyDecimal.expo b))).
Proof.
  intros Ha Hb. unfold PyDecimal.mod_.
  rewrite (divide_zero a b Ha Hb). reflexivity.
Qed.

(** C4, as the code has it: a duration whose months and seconds are both
    zero is formatted as ["PT0S"] by the general and the day-time variant,
    and as ["P0M"] by the year-month variant, which has a format of its
    own. *)
Theorem format_zero_duration (d : duration) :
  months d = 0 ->
  PyDecimal.is_zero (seconds d) = true ->
  format d
  = Ok (match dcls d with
        | KYearMonthDuration => "P0M"%string
        | _ => "PT0S"%string
        end).
Proof.
  destruct d as [k m [c e]]; cbn [months seconds dcls].
  unfold PyDecimal.is_zero; cbn [PyDecimal.coef].
  intros -> Hc. apply Z.eqb_eq in Hc; subst c.
  assert (Hstr : duration_str (mkDuration k 0 (PyDecimal.mk 0 e))
                 = Ok "PT0S"%string).
  { unfold duration_str; cbn [months seconds PyDecimal.copy_abs
                               PyDecimal.coef PyDecimal.expo Z.abs].
    rewrite !floordiv_zero by reflexivity. cbn [bind].
    rewrite !mod_zero by reflexivity. cbn [bind].
    reflexivity. }
  destruct k; unfold format; cbn [dcls]; auto.
Qed.

Lemma format_zero_duration_witness :
  months (mkDuration KDayTimeDuration 0 (PyDecimal.mk 0 (-2))) = 0
  /\ PyDecimal.is_zero (seconds (mkDuration KDayTimeDuration 0 (PyDecimal.mk 0 (-2)))) = true
  /\ format (mkDuration KDayTimeDuration 0 (PyDecimal.mk 0 (-2))) = Ok "PT0S"%string.
Proof.
  split; [reflexivity | split; [reflexivity |]].
  apply (format_zero_duration (mkDuration KDayTimeDuration 0 (PyDecimal.mk 0 (-2))));
    reflexivity.
Defined.

(** The zero year-month duration, built by its constructor, is formatted
    as ["P0M"], not as ["PT0S"]. *)
Lemma format_zero_year_month_is_P0M :
  YearMonthDuration 0 = Ok (mkDuration KYearMonthDuration 0 PyDecimal.zero)
  /\ months (mkDuration KYearMonthDuration 0 PyDecimal.zero) = 0
  /\ PyDecimal.is_zero (seconds (mkDuration KYearMonthDuration 0 PyDecimal.zero)) = true
  /\ format (mkDuration KYearMonthDuration 0 PyDecimal.zero) = Ok "P0M"%string
  /\ format (mkDuration KYearMonthDuration 0 PyDecimal.zero) <> Ok "PT0S"%string.
Proof. repeat split; discriminate. Qed.

(** ** Ordering across the duration variants *)

(** C2, as the code has it: [<] and [>] between a year-month duration and
    a day-time duration raise [TypeError] in both operand orders, since
    [_compare_durations] takes only an instance of the class of its first
    operand; so do [YearMonthDuration(months=1)] and
    [DayTimeDuration(seconds=28*86400)].  The same two durations as
    general [Duration] values are incomparable: [<] and [>] are false in
    both orders, and nothing is raised. *)
Theorem year_month_and_day_time_do_not_compare :
  (forall (m1 m2 : Z) (s1 s2 : PyDecimal.decimal),
      let a := mkDuration KYearMonthDuration m1 s1 in
      let b := mkDuration KDayTimeDuration m2 s2 in
      duration_compare OpLt a b = Raise TypeError
      /\ duration_compare OpGt a b = Raise TypeError
      /\ duration_compare OpLt b a = Raise TypeError
      /\ duration_compare OpGt b a = Raise TypeError)
  /\ (let a := mkDuration KDuration 1 (dec 0) in
      let b := mkDuration KDuration 0 (dec (28 * 86400)) in
      Duration 1 (dec 0) = Ok a
      /\ Duration 0 (dec (28 * 86400)) = Ok b
      /\ duration_compare OpLt a b = Ok false
      /\ duration_compare OpGt a b = Ok false
      /\ duration_compare OpLt b a = Ok false
      /\ duration_compare OpGt b a = Ok false).
Proof.
  split.
  - intros m1 m2 s1 s2 a b. repeat split; reflexivity.
  - cbv zeta. repeat split; vm_compute; reflexivity.
Qed.

(** [YearMonthDuration(months=1)] against
    [DayTimeDuration(seconds=28*86400)]: each of the four comparisons
    raises, none returns false. *)
Lemma one_month_vs_28_days_raises :
  let a := mkDuration KYearMonthDuration 1 PyDecimal.zero in
  let b := mkDuration KDayTimeDuration 0 (dec (28 * 86400)) in
  YearMonthDuration 1 = Ok a
  /\ DayTimeDuration (dec (28 * 86400)) = Ok b
  /\ duration_compare OpLt a b = Raise TypeError
  /\ duration_compare OpGt a b = Raise TypeError
  /\ duration_compare OpLt b a = Raise TypeError
  /\ duration_compare OpGt b a = Raise TypeError
  /\ duration_compare OpLt a b <> Ok false.
Proof. cbv zeta. repeat split; try reflexivity. discriminate. Qed.

(** ** Two untyped operands *)

Lemma num_arith_floats (op : arith) (x y : PyFloat.float) (v : pyval) :
  num_arith op (PFloat x) (PFloat y) = Ok v -> exists f, v = PFloat f.
Proof.
  unfold num_arith; cbn [coerce bind].
  destruct op; try (intros [= <-]; eexists; reflexivity).
  destruct (PyFloat.div x y); cbn [bind]; [intros [= <-]; eexists; reflexivity | discriminate].
Qed.

(** C7: with two untyped operands, the arithmetic and the ordering
    operators convert both texts to floats and work on the floats, so an
    arithmetic result is a float and [UntypedAtomic("5") + UntypedAtomic("3")]
    is the float [8.0]; equality compares the two texts as they are, so
    ["5"] and ["5.0"] are unequal. *)
Theorem untyped_pair_floats_or_raw_strings :
  (forall (op : arith) (a b : string),
      untyped_arith op a (PUntyped b)
      = (x <- PyFloat.of_string a ;;
         y <- PyFloat.of_string b ;;
         num_arith op (PFloat x) (PFloat y)))
  /\ (forall (op : arith) (a b : string) (v : pyval),
         untyped_arith op a (PUntyped b) = Ok v -> exists f, v = PFloat f)
  /\ (forall (op : cmpop) (a b : string),
         untyped_cmp op a (PUntyped b)
         = (x <- PyFloat.of_string a ;;
            y <- PyFloat.of_string b ;;
            Ok (match SFcompare x y with
                | Some c => holds op c
                | None => false
                end)))
  /\ (forall a b : string,
         untyped_eq a (PUntyped b) = Ok (String.eqb a b))
  /\ untyped_arith ArAdd "5" (PUntyped "3") = Ok (PFloat (PyFloat.nearest_Z 8))
  /\ untyped_eq "5" (PUntyped "5.0") = Ok false
  /\ untyped_cmp OpLt "5" (PUntyped "10") = Ok true.
Proof.
  assert (Harith : forall op a b,
             untyped_arith op a (PUntyped b)
             = (x <- PyFloat.of_string a ;;
                y <- PyFloat.of_string b ;;
                num_arith op (PFloat x) (PFloat y))).
  { intros op a b. unfold untyped_arith, untyped_operands.
    destruct (PyFloat.of_string a); cbn [bind]; [| reflexivity].
    destruct (PyFloat.of_string b); reflexivity. }
  repeat match goal with |- _ /\ _ => split end.
  - exact Harith.
  - intros op a b v. rewrite Harith.
    destruct (PyFloat.of_string a); cbn [bind]; [| discriminate].
    destruct (PyFloat.of_string b); cbn [bind]; [| discriminate].
    apply num_arith_floats.
  - intros op a b. unfold untyped_cmp, untyped_operands.
    destruct (PyFloat.of_string a); cbn [bind]; [| reflexivity].
    destruct (PyFloat.of_string b); reflexivity.
  - reflexivity.
  - vm_compute; reflexivity.
  - reflexivity.
  - vm_compute; reflexivity.
Qed.

Lemma untyped_pair_witness :
  untyped_arith ArAdd "5" (PUntyped "3") = Ok (PFloat (PyFloat.nearest_Z 8))
  /\ exists f, PFloat (PyFloat.nearest_Z 8) = PFloat f.
Proof.
  split; [vm_compute; reflexivity |].
  apply (proj1 (proj2 untyped_pair_floats_or_raw_strings)
           ArAdd "5"%string "3"%string).
  vm_compute; reflexivity.
Defined.

(** ** The lexical form of a time zone offset *)

Lemma upto_In (n : nat) (z : Z) : 0 <= z < Z.of_nat n -> In z (upto n).
Proof.
  intros H. unfold upto. rewrite <- (Z2Nat.id z) by lia.
  apply in_map, in_seq. lia.
Qed.

Lemma tz_cases_hold :
  forallb (fun hh =>
    forallb (fun mm =>
      implb ((hh <? 14) || (mm =? 0))
        (tz_case true hh mm && tz_case false hh mm))
      (upto 60))
    (upto 15) = true.
Proof. vm_compute. reflexivity. Qed.

Lemma tz_lexical_accepted (neg : bool) (hh mm : Z) :
  0 <= hh <= 14 -> 0 <= mm <= 59 -> (hh = 14 -> mm = 0) ->
  TimezoneM.fromstring (tz_text neg hh mm)
  = Ok (mkTimezone (tz_micros neg hh mm)).
Proof.
  intros Hh Hm H14.
  pose proof tz_cases_hold as Hall.
  rewrite forallb_forall in Hall.
  specialize (Hall hh (upto_In 15 hh ltac:(lia))).
  rewrite forallb_forall in Hall.
  specialize (Hall mm (upto_In 60 mm ltac:(lia))).
  assert (Hg : (hh <? 14) || (mm =? 0) = true).
  { destruct (Z.ltb_spec hh 14); [reflexivity |].
    rewrite H14 by lia. reflexivity. }
  rewrite Hg in Hall. cbn [implb] in Hall.
  apply andb_true_iff in Hall. destruct Hall as [Ht Hf].
  assert (Hc : tz_case neg hh mm = true) by (destruct neg; assumption).
  unfold tz_case in Hc.
  destruct (TimezoneM.fromstring (tz_text neg hh mm)) as [[off] | e];
    [| discriminate].
  cbn [offset] in Hc. apply Z.eqb_eq in Hc. subst off. reflexivity.
Qed.

Lemma tz_init_bounds (off : Z) (tz : Timezone) :
  TimezoneM.init off = Ok tz ->
  offset tz = off /\ TimezoneM._minoffset <= off <= TimezoneM._maxoffset.
Proof.
  unfold TimezoneM.init.
  destruct ((off <? TimezoneM._minoffset) || (TimezoneM._maxoffset <? off))
    eqn:E; [discriminate |].
  intros [= <-]. bool_to_Z. cbn [offset]. lia.
Qed.

Lemma checked_raises (us : Z) (e : exn) :
  TimeDelta.checked us = Raise e -> e = OverflowError.
Proof.
  unfold TimeDelta.checked.
  destruct (_ && _); [discriminate | intros [= <-]; reflexivity].
Qed.

Lemma tz_init_raises (off : Z) (e : exn) :
  TimezoneM.init off = Raise e -> e = ValueError.
Proof.
  unfold TimezoneM.init.
  destruct (_ || _); [intros [= <-]; reflexivity | discriminate].
Qed.

Lemma int_of_string_raises (s : string) (e : exn) :
  PyInt.of_string s = Raise e -> e = ValueError.
Proof.
  unfold PyInt.of_string, of_option.
  destruct (PyInt.signed _); [discriminate | intros [= <-]; reflexivity].
Qed.

(** What the body of [fromstring] returns or raises. *)
Lemma parse_offset_spec (text : string) :
  match TimezoneM.parse_offset text with
  | Ok tz => TimezoneM._minoffset <= offset tz <= TimezoneM._maxoffset
  | Raise e => e = ValueError \/ e = OverflowError
  end.
Proof.
  unfold TimezoneM.parse_offset.
  destruct (PyStr.split ":" (PyStr.strip text)) as [| hs [| ms [| x l]]];
    try (left; reflexivity).
  destruct (PyInt.of_string hs) as [h | e] eqn:Eh; cbn [bind];
    [| left; eapply int_of_string_raises; eassumption].
  destruct (PyInt.of_string ms) as [m | e] eqn:Em; cbn [bind];
    [| left; eapply int_of_string_raises; eassumption].
  destruct (PyStr.startswith "-" hs);
    match goal with
    | |- context [TimeDelta.make ?a ?b ?c ?d ?f] =>
        destruct (TimeDelta.make a b c d f) as [td | e] eqn:Etd; cbn [bind];
        [ destruct (TimezoneM.init td) as [tz | e] eqn:Etz;
          [ apply tz_init_bounds in Etz; destruct Etz as [-> ?]; assumption
          | left; eapply tz_init_raises; eassumption ]
        | right; eapply checked_raises; exact Etd ]
    end.
Qed.

(** C5, as the code has it: the parser accepts ["Z"] and every text of a
    sign, [HH], a colon and [MM] with [HH] in 00..14, [MM] in 00..59 and
    [HH = 14] only with [MM = 00], and gives the offset it writes.  It is
    not lexical beyond that: any text of two integers around one colon is
    accepted when the offset they add up to lies within 14 hours of zero,
    whatever the minutes.  An accepted offset lies within 14 hours of
    zero, and a rejected text raises [ValueError], or [OverflowError] when
    the hours overflow a [timedelta]. *)
Theorem timezone_fromstring_accepts :
  TimezoneM.fromstring "Z" = Ok (mkTimezone 0)
  /\ (forall (neg : bool) (hh mm : Z),
         0 <= hh <= 14 -> 0 <= mm <= 59 -> (hh = 14 -> mm = 0) ->
         TimezoneM.fromstring (tz_text neg hh mm)
         = Ok (mkTimezone (tz_micros neg hh mm)))
  /\ (forall (text hs ms : string) (h m : Z),
         PyStr.split ":" (PyStr.strip text) = [hs; ms] ->
         PyInt.of_string hs = Ok h ->
         PyInt.of_string ms = Ok m ->
         let off :=
           (h * 60 + (if PyStr.startswith "-" hs then - m else m)) * 60000000 in
         TimezoneM._minoffset <= off <= TimezoneM._maxoffset ->
         TimezoneM.fromstring text = Ok (mkTimezone off))
  /\ (forall (text : string) (tz : Timezone),
         TimezoneM.fromstring text = Ok tz ->
         TimezoneM._minoffset <= offset tz <= TimezoneM._maxoffset)
  /\ (forall (text : string) (e : exn),
         TimezoneM.fromstring text = Raise e ->
         e = ValueError \/ e = OverflowError).
Proof.
  repeat match goal with |- _ /\ _ => split end.
  - reflexivity.
  - exact tz_lexical_accepted.
  - intros text hs ms h m Hsplit Hh Hm off Hoff.
    unfold TimezoneM.fromstring, TimezoneM.parse_offset.
    rewrite Hsplit, Hh, Hm. cbn [bind].
    assert (Hmake : forall mm, off = (h * 60 + mm) * 60000000 ->
               TimeDelta.make 0 0 0 mm h = Ok off).
    { intros mm Hmm. unfold TimeDelta.make, TimeDelta.checked, TimeDelta.days.
      replace (0 * TimeDelta.US_PER_DAY
               + (h * 3600 + mm * 60 + 0) * TimeDelta.US_PER_SECOND + 0)
        with off by (unfold TimeDelta.US_PER_DAY, TimeDelta.US_PER_SECOND; lia).
      assert (Hd : -1 <= off / TimeDelta.US_PER_DAY <= 0).
      { unfold TimezoneM._minoffset, TimezoneM._maxoffset in Hoff.
        change TimeDelta.US_PER_DAY with 86400000000.
        change (14 * 3600 * TimeDelta.US_PER_SECOND) with 50400000000 in Hoff.
        clearbody off. lia_div. }
      destruct (Z.leb_spec (- TimeDelta.MAX_DAYS) (off / TimeDelta.US_PER_DAY));
        destruct (Z.leb_spec (off / TimeDelta.US_PER_DAY) TimeDelta.MAX_DAYS);
        try reflexivity; exfalso; unfold TimeDelta.MAX_DAYS in *; lia. }
    assert (Hinit : TimezoneM.init off = Ok (mkTimezone off)).
    { unfold TimezoneM.init.
      destruct (Z.ltb_spec off TimezoneM._minoffset);
        destruct (Z.ltb_spec TimezoneM._maxoffset off);
        try reflexivity; exfalso; lia. }
    subst off. destruct (PyStr.startswith "-" hs);
      (rewrite Hmake by reflexivity); cbn [bind]; rewrite Hinit; reflexivity.
  - intros text tz. unfold TimezoneM.fromstring.
    pose proof (parse_offset_spec text) as Hp.
    destruct (TimezoneM.parse_offset text) as [tz' | e].
    + intros [= <-]. exact Hp.
    + destruct e; try discriminate.
      destruct (String.eqb _ _); [| discriminate].
      intros H. apply tz_init_bounds in H. destruct H as [-> H]. exact H.
  - intros text e. unfold TimezoneM.fromstring.
    pose proof (parse_offset_spec text) as Hp.
    destruct (TimezoneM.parse_offset text) as [tz' | e']; [discriminate |].
    destruct e'; try (intros [= <-]; exact Hp).
    destruct (String.eqb _ _); [| intros [= <-]; left; reflexivity].
    intros H. left. eapply tz_init_raises; exact H.
Qed.

Lemma timezone_fromstring_witness :
  (0 <= 5 <= 14 /\ 0 <= 30 <= 59 /\ (5 = 14 -> 30 = 0))
  /\ TimezoneM.fromstring (tz_text true 5 30)
     = Ok (mkTimezone (tz_micros true 5 30)).
Proof.
  split; [lia |].
  apply (proj1 (proj2 timezone_fromstring_accepts) true 5 30); lia.
Defined.

(** ["+01:75"], with minutes outside 00..59, is accepted: it is read as
    the offset of 2 hours and 15 minutes. *)
Lemma timezone_minutes_75_accepted :
  TimezoneM.fromstring "+01:75" = Ok (mkTimezone ((2 * 60 + 15) * 60000000))
  /\ ~ (0 <= 75 <= 59)
  /\ TimezoneM.fromstring "+01:75" <> Raise ValueError.
Proof. repeat split; [lia | discriminate]. Qed.

(** ** The proleptic Gregorian ordinal *)

Lemma month_day_checked :
  forallb (month_day_ok false) (upto 365) && forallb (month_day_ok true) (upto 366)
  = true.
Proof. vm_compute. reflexivity. Qed.

Lemma month_day_spec (n : Z) (leap : bool) :
  0 <= n < (if leap then 366 else 365) ->
  month_day_ok leap n = true.
Proof.
  intros H. pose proof month_day_checked as Hc.
  apply andb_true_iff in Hc. destruct Hc as [Hf Ht].
  rewrite forallb_forall in Hf, Ht.
  destruct leap; [apply Ht | apply Hf]; apply upto_In; lia.
Qed.

(** The cycles of [_ord2ymd] *)
Lemma year_part (n0 : Z) :
  0 <= n0 ->
  let n400 := n0 / 146097 in
  let r400 := n0 mod 146097 in
  let n100 := r400 / 36524 in
  let r100 := r400 mod 36524 in
  let n4 := r100 / 1461 in
  let r4 := r100 mod 1461 in
  let n1 := r4 / 365 in
  let r1 := r4 mod 365 in
  let y := n400 * 400 + 1 + n100 * 100 + n4 * 4 + n1 in
  if (n1 =? 4) || (n100 =? 4) then
    isleap (y - 1) = true /\ DT._days_before_year (y - 1) + 365 = n0 /\ 1 <= y - 1
  else
    isleap y = (n1 =? 3) && (negb (n4 =? 24) || (n100 =? 3))
    /\ DT._days_before_year y + r1 = n0 /\ 1 <= y
    /\ 0 <= r1 < (if isleap y then 366 else 365).
Proof.
  intros H0. cbv zeta. unfold isleap, DT._days_before_year.
  repeat match goal with
    | |- context [if ?b then _ else _] => destruct b eqn:?
    | |- context [?a =? ?b] => destruct (Z.eqb_spec a b)
    end; cbn [andb orb negb] in *; try discriminate;
  repeat split; try lia_div.
Qed.

Lemma ord2ymd_unfold (n : Z) :
  DT._ord2ymd n =
  let n0 := n - 1 in
  let n400 := n0 / 146097 in
  let r400 := n0 mod 146097 in
  let n100 := r400 / 36524 in
  let r100 := r400 mod 36524 in
  let n4 := r100 / 1461 in
  let r4 := r100 mod 1461 in
  let n1 := r4 / 365 in
  let r1 := r4 mod 365 in
  let y := n400 * 400 + 1 + n100 * 100 + n4 * 4 + n1 in
  if (n1 =? 4) || (n100 =? 4) then (y - 1, 12, 31)
  else
    let '(m, d) := month_day r1 ((n1 =? 3) && (negb (n4 =? 24) || (n100 =? 3))) in
    (y, m, d).
Proof.
  unfold DT._ord2ymd, month_day, DT._DI400Y, DT._DI100Y, DT._DI4Y. cbv zeta.
  destruct (_ || _); [reflexivity |].
  destruct (_ <? _); reflexivity.
Qed.

Lemma days_before_year_succ (y : Z) :
  DT._days_before_year (y + 1)
  = DT._days_before_year y + (if isleap y then 366 else 365).
Proof.
  unfold DT._days_before_year, isleap.
  repeat match goal with
    | |- context [?a =? ?b] => destruct (Z.eqb_spec a b)
    end; cbn [andb orb negb]; lia_div.
Qed.

Lemma days_before_year_mono (y1 y2 : Z) :
  y1 <= y2 -> DT._days_before_year y1 <= DT._days_before_year y2.
Proof.
  intros H. destruct (Z.eq_dec y1 y2) as [-> | Hne]; [lia |].
  unfold DT._days_before_year. lia_div.
Qed.

(** [_ord2ymd] gives a date of the calendar, and [_ymd2ord] takes it back. *)
Lemma ord2ymd_spec (n : Z) :
  1 <= n <= DT.MAXORDINAL ->
  let '(y, m, d) := DT._ord2ymd n in
  DT.valid_date y m d = true /\ DT._ymd2ord y m d = n.
Proof.
  intros Hn. rewrite ord2ymd_unfold. cbv zeta.
  pose proof (year_part (n - 1) ltac:(lia)) as Hy. cbv zeta in Hy.
  set (n0 := n - 1) in *.
  set (n400 := n0 / 146097) in *.
  set (r400 := n0 mod 146097) in *.
  set (n100 := r400 / 36524) in *.
  set (r100 := r400 mod 36524) in *.
  set (n4 := r100 / 1461) in *.
  set (r4 := r100 mod 1461) in *.
  set (n1 := r4 / 365) in *.
  set (r1 := r4 mod 365) in *.
  set (y := n400 * 400 + 1 + n100 * 100 + n4 * 4 + n1) in *.
  assert (Hmax : forall y', DT._days_before_year y' < n -> y' <= 9999).
  { intros y' Hlt. destruct (Z_le_gt_dec y' 9999) as [|Hgt]; [assumption |].
    pose proof (days_before_year_mono 10000 y' ltac:(lia)) as Hm.
    change (DT._days_before_year 10000) with 3652059 in Hm.
    unfold DT.MAXORDINAL in Hn. lia. }
  destruct ((n1 =? 4) || (n100 =? 4)).
  - destruct Hy as (Hleap & Hd & Hpos).
    unfold DT.valid_date, DT._ymd2ord, DT._days_before_month, DT._days_in_month.
    rewrite Hleap. cbn [DT._DAYS_BEFORE_MONTH DT._DAYS_IN_MONTH Z.eqb Z.ltb Z.compare
                        Pos.compare Pos.compare_cont andb].
    specialize (Hmax (y - 1) ltac:(lia)).
    unfold DT.MINYEAR, DT.MAXYEAR.
    split; [| subst n0; lia].
    destruct (Z.leb_spec 1 (y - 1)); [| lia].
    destruct (Z.leb_spec (y - 1) 9999); [| lia]. reflexivity.
  - destruct Hy as (Hleap & Hd & Hpos & Hr).
    rewrite <- Hleap.
    pose proof (month_day_spec r1 (isleap y) Hr) as Hmd.
    unfold month_day_ok in Hmd.
    destruct (month_day r1 (isleap y)) as [m d].
    apply andb_true_iff in Hmd. destruct Hmd as [Hmd Hsum].
    apply Z.eqb_eq in Hsum.
    specialize (Hmax y ltac:(subst n0; lia)).
    unfold DT.valid_date, DT._ymd2ord, DT._days_before_month, DT._days_in_month.
    unfold DT.MINYEAR, DT.MAXYEAR.
    split; [| subst n0; lia].
    destruct (Z.leb_spec 1 y); [| lia].
    destruct (Z.leb_spec y 9999); [| lia]. exact Hmd.
Qed.

Lemma month_bounds (y m d : Z) :
  1 <= m <= 12 -> 1 <= d <= DT._days_in_month y m ->
  0 <= DT._days_before_month y m
  /\ DT._days_before_month y m + d
     <= (if isleap y then 366 else 365)
  /\ (forall m' d', 1 <= m' <= 12 -> 1 <= d' <= DT._days_in_month y m' ->
        m < m' ->
        DT._days_before_month y m + d < DT._days_before_month y m' + d').
Proof.
  unfold DT._days_before_month, DT._days_in_month.
  generalize (isleap y). intros leap Hm Hd.
  assert (Hcases : m = 1 \/ m = 2 \/ m = 3 \/ m = 4 \/ m = 5 \/ m = 6 \/ m = 7
                   \/ m = 8 \/ m = 9 \/ m = 10 \/ m = 11 \/ m = 12) by lia.
  repeat split.
  - destruct leap;
      repeat (destruct Hcases as [-> | Hcases]); try subst m;
      table_simpl; lia.
  - destruct leap;
      repeat (destruct Hcases as [-> | Hcases]); try subst m;
      table_simpl; lia.
  - intros m' d' Hm' Hd' Hlt.
    assert (Hcases' : m' = 2 \/ m' = 3 \/ m' = 4 \/ m' = 5 \/ m' = 6
                      \/ m' = 7 \/ m' = 8 \/ m' = 9 \/ m' = 10 \/ m' = 11
                      \/ m' = 12) by lia.
    destruct leap;
      repeat (destruct Hcases as [-> | Hcases]); try subst m;
      repeat (destruct Hcases' as [-> | Hcases']); try subst m';
      table_simpl; lia.
Qed.

(** [_ymd2ord] is one-to-one on the dates of the calendar and stays
    within the ordinals. *)
Lemma ymd2ord_range (y m d : Z) :
  DT.valid_date y m d = true -> 1 <= DT._ymd2ord y m d <= DT.MAXORDINAL.
Proof.
  unfold DT.valid_date, DT.MINYEAR, DT.MAXYEAR. intros H. bool_to_Z.
  destruct (month_bounds y m d ltac:(lia) ltac:(lia)) as (Hlo & Hhi & _).
  pose proof (days_before_year_mono 1 y ltac:(lia)) as Hfirst.
  pose proof (days_before_year_mono (y + 1) 10000 ltac:(lia)) as Hlast.
  rewrite days_before_year_succ in Hlast.
  change (DT._days_before_year 1) with 0 in Hfirst.
  change (DT._days_before_year 10000) with 3652059 in Hlast.
  unfold DT._ymd2ord, DT.MAXORDINAL. destruct (isleap y); lia.
Qed.

Lemma ymd2ord_lt_year (y m d y' m' d' : Z) :
  DT.valid_date y m d = true -> DT.valid_date y' m' d' = true ->
  y < y' -> DT._ymd2ord y m d < DT._ymd2ord y' m' d'.
Proof.
  unfold DT.valid_date. intros H H' Hlt. bool_to_Z.
  destruct (month_bounds y m d ltac:(lia) ltac:(lia)) as (_ & Hhi & _).
  destruct (month_bounds y' m' d' ltac:(lia) ltac:(lia)) as (Hlo & _ & _).
  pose proof (days_before_year_mono (y + 1) y' ltac:(lia)) as Hm.
  rewrite days_before_year_succ in Hm.
  unfold DT._ymd2ord. destruct (isleap y); lia.
Qed.

Lemma ymd2ord_inj (y m d y' m' d' : Z) :
  DT.valid_date y m d = true -> DT.valid_date y' m' d' = true ->
  DT._ymd2ord y m d = DT._ymd2ord y' m' d' ->
  y = y' /\ m = m' /\ d = d'.
Proof.
  intros H H' Heq.
  assert (Hy : y = y').
  { destruct (Z.lt_trichotomy y y') as [Hlt | [-> | Hgt]]; [| reflexivity |].
    - pose proof (ymd2ord_lt_year _ _ _ _ _ _ H H' Hlt). lia.
    - pose proof (ymd2ord_lt_year _ _ _ _ _ _ H' H Hgt). lia. }
  subst y'. split; [reflexivity |].
  unfold DT.valid_date in H, H'. bool_to_Z.
  destruct (month_bounds y m d ltac:(lia) ltac:(lia)) as (_ & _ & Hm).
  destruct (month_bounds y m' d' ltac:(lia) ltac:(lia)) as (_ & _ & Hm').
  unfold DT._ymd2ord in Heq.
  assert (m = m').
  { destruct (Z.lt_trichotomy m m') as [Hlt | [-> | Hgt]]; [| reflexivity |].
    - specialize (Hm m' d' ltac:(lia) ltac:(lia) Hlt). lia.
    - specialize (Hm' m d ltac:(lia) ltac:(lia) Hgt). lia. }
  subst m'. split; [reflexivity | lia].
Qed.

Lemma ord2ymd_ymd2ord (y m d : Z) :
  DT.valid_date y m d = true ->
  DT._ord2ymd (DT._ymd2ord y m d) = (y, m, d).
Proof.
  intros H. pose proof (ymd2ord_range y m d H) as Hr.
  pose proof (ord2ymd_spec _ Hr) as Hs.
  destruct (DT._ord2ymd (DT._ymd2ord y m d)) as [[y' m'] d'].
  destruct Hs as [Hv He].
  destruct (ymd2ord_inj _ _ _ _ _ _ Hv H He) as (-> & -> & ->). reflexivity.
Qed.

(** ** A date plus and minus a duration of whole days *)

Lemma checked_in_range (us : Z) :
  - TimeDelta.MAX_DAYS <= us / TimeDelta.US_PER_DAY <= TimeDelta.MAX_DAYS ->
  TimeDelta.checked us = Ok us.
Proof.
  intros H. unfold TimeDelta.checked, TimeDelta.days.
  destruct (Z.leb_spec (- TimeDelta.MAX_DAYS) (us / TimeDelta.US_PER_DAY));
    destruct (Z.leb_spec (us / TimeDelta.US_PER_DAY) TimeDelta.MAX_DAYS);
    try reflexivity; lia.
Qed.

Lemma whole_days_fields (j : Z) :
  TimeDelta.days (j * TimeDelta.US_PER_DAY) = j
  /\ TimeDelta.seconds (j * TimeDelta.US_PER_DAY) = 0
  /\ TimeDelta.microseconds (j * TimeDelta.US_PER_DAY) = 0.
Proof.
  unfold TimeDelta.days, TimeDelta.seconds, TimeDelta.microseconds.
  change TimeDelta.US_PER_DAY with 86400000000.
  change TimeDelta.US_PER_SECOND with 1000000.
  repeat split; lia_div.
Qed.

Lemma wall_us_midnight (y m d : Z) (tz : option Timezone) :
  DT.wall_us (midnight y m d tz) = DT._ymd2ord y m d * TimeDelta.US_PER_DAY.
Proof.
  unfold DT.wall_us, DT.time_us, DT.toordinal, midnight; cbn [DT.year DT.month DT.day DT.hour DT.minute DT.second DT.microsecond].
  lia.
Qed.

(** [datetime(1, 1, 1) + timedelta(days=j)] *)
Lemma epoch_plus_days (j : Z) :
  0 <= j < DT.MAXORDINAL ->
  DT.add DT.epoch (j * TimeDelta.US_PER_DAY) = Ok (day_of (j + 1) None).
Proof.
  intros Hj. unfold DT.add, TimeDelta.add.
  change DT.epoch with (midnight 1 1 1 None). rewrite wall_us_midnight.
  change (DT._ymd2ord 1 1 1) with 1.
  replace (1 * TimeDelta.US_PER_DAY + j * TimeDelta.US_PER_DAY)
    with ((j + 1) * TimeDelta.US_PER_DAY) by lia.
  destruct (whole_days_fields (j + 1)) as (Hd & Hs & Hu).
  rewrite checked_in_range
    by (fold (TimeDelta.days ((j + 1) * TimeDelta.US_PER_DAY)); rewrite Hd;
        unfold TimeDelta.MAX_DAYS, DT.MAXORDINAL in *; lia).
  cbn [bind]. rewrite Hd, Hs, Hu.
  destruct (Z.ltb_spec 0 (j + 1)); [| lia].
  destruct (Z.leb_spec (j + 1) DT.MAXORDINAL); [| lia].
  cbn [andb]. unfold day_of.
  destruct (DT._ord2ymd (j + 1)) as [[y m] d]. reflexivity.
Qed.

(** A date of a year within 1..9999 is built from the fields as they are. *)
Lemma date_init (k : kind) (y m d : Z) (tz : option Timezone) :
  1 <= y <= 9999 ->
  abstract_init k y m d 0 0 0 0 tz
  = if DT.valid_date y m d
    then Ok (mkTemporal k (midnight y m d tz) None)
    else Raise ValueError.
Proof.
  intros Hy. unfold abstract_init. cbn [Z.eqb andb].
  destruct (Z.leb_spec 1 y); [| lia].
  destruct (Z.leb_spec y 9999); [| lia]. cbn [andb].
  unfold DT.make. destruct (DT.valid_date y m d); reflexivity.
Qed.

Lemma valid_date_year (y m d : Z) :
  DT.valid_date y m d = true -> 1 <= y <= 9999.
Proof. unfold DT.valid_date, DT.MINYEAR, DT.MAXYEAR. intros H. bool_to_Z. lia. Qed.

(** [fromdelta] of whole days within the calendar, for a date class *)
Lemma fromdelta_days (k : kind) (j : Z) :
  issubclass k Date10 = true ->
  0 <= j < DT.MAXORDINAL ->
  fromdelta k (j * TimeDelta.US_PER_DAY) false
  = Ok (mkTemporal k (day_of (j + 1) None) None).
Proof.
  intros Hk Hj. unfold fromdelta. rewrite epoch_plus_days by assumption.
  cbn [bind]. rewrite Hk. cbn [andb].
  pose proof (ord2ymd_spec (j + 1) ltac:(lia)) as Hs.
  unfold day_of. destruct (DT._ord2ymd (j + 1)) as [[y m] d].
  destruct Hs as [Hv _]. cbn [bind midnight DT.year DT.month DT.day DT.tzinfo].
  rewrite date_init by (eapply valid_date_year; eassumption).
  rewrite Hv. reflexivity.
Qed.

(** [todelta] of a date within the calendar, naive or at offset zero *)
Lemma todelta_date (k : kind) (y m d : Z) (tz : option Timezone) :
  tz = None \/ tz = Some utc_timezone ->
  todelta (mkTemporal k (midnight y m d tz) None)
  = Ok ((DT._ymd2ord y m d - 1) * TimeDelta.US_PER_DAY).
Proof.
  intros Htz. unfold todelta. cbn [_year _get_operands _dt bind].
  assert (Hw : DT.wall_us (midnight y m d tz) - DT.wall_us DT.epoch
               = (DT._ymd2ord y m d - 1) * TimeDelta.US_PER_DAY).
  { rewrite wall_us_midnight. change DT.epoch with (midnight 1 1 1 None).
    rewrite wall_us_midnight. change (DT._ymd2ord 1 1 1) with 1. lia. }
  destruct Htz as [-> | ->]; unfold align_tzinfo, DT.sub, DT.utcoffset;
    cbn [DT.tzinfo midnight DT.epoch option_map DT.replace_tzinfo offset
         utc_timezone TimezoneM.utc].
  - fold (midnight y m d None). rewrite Hw. reflexivity.
  - change (DT.wall_us _ - DT.wall_us _ + 0 - 0)
      with (DT.wall_us (midnight y m d (Some utc_timezone))
            - DT.wall_us DT.epoch + 0 - 0).
    rewrite Hw. f_equal. lia.
Qed.

Lemma day_of_eq (n y m d : Z) (tz : option Timezone) :
  DT._ord2ymd n = (y, m, d) -> day_of n tz = midnight y m d tz.
Proof. intros H. unfold day_of. rewrite H. reflexivity. Qed.

(** A date of the calendar, naive or at offset zero, plus or minus a
    duration of [n] whole days: the date [n] days later or earlier. *)
Lemma date_shift (k : kind) (op : binop) (y m d : Z) (tz : option Timezone)
    (delta : duration) (n : Z) :
  issubclass k Date10 = true ->
  tz = None \/ tz = Some utc_timezone ->
  dcls delta = KDayTimeDuration ->
  get_timedelta delta = Ok (n * TimeDelta.US_PER_DAY) ->
  1 <= DT._ymd2ord y m d + shift op n <= DT.MAXORDINAL ->
  _date_operator (mkTemporal k (midnight y m d tz) None) op (PDuration delta)
  = Ok (PTemporal
          (mkTemporal k (day_of (DT._ymd2ord y m d + shift op n) tz) None)).
Proof.
  intros Hk Htz Hcls Hdelta Hrange.
  unfold _date_operator. rewrite Hcls, (todelta_date k y m d tz Htz), Hdelta.
  cbn [bind cls].
  assert (Happ : apply_timedelta op
                   ((DT._ymd2ord y m d - 1) * TimeDelta.US_PER_DAY)
                   (n * TimeDelta.US_PER_DAY)
                 = Ok ((DT._ymd2ord y m d + shift op n - 1)
                       * TimeDelta.US_PER_DAY)).
  { destruct op; unfold apply_timedelta, TimeDelta.add, TimeDelta.sub, shift.
    - replace ((DT._ymd2ord y m d - 1) * TimeDelta.US_PER_DAY
               + n * TimeDelta.US_PER_DAY)
        with ((DT._ymd2ord y m d + n - 1) * TimeDelta.US_PER_DAY) by lia.
      apply checked_in_range.
      destruct (whole_days_fields (DT._ymd2ord y m d + n - 1)) as (Hd & _).
      unfold TimeDelta.days in Hd. rewrite Hd.
      unfold TimeDelta.MAX_DAYS, DT.MAXORDINAL, shift in *. lia.
    - replace ((DT._ymd2ord y m d - 1) * TimeDelta.US_PER_DAY
               - n * TimeDelta.US_PER_DAY)
        with ((DT._ymd2ord y m d + - n - 1) * TimeDelta.US_PER_DAY) by lia.
      apply checked_in_range.
      destruct (whole_days_fields (DT._ymd2ord y m d + - n - 1)) as (Hd & _).
      unfold TimeDelta.days in Hd. rewrite Hd.
      unfold TimeDelta.MAX_DAYS, DT.MAXORDINAL, shift in *. lia. }
  rewrite Happ. cbn [bind].
  rewrite (fromdelta_days k _ Hk) by lia. cbn [bind].
  replace (DT._ymd2ord y m d + shift op n - 1 + 1)
    with (DT._ymd2ord y m d + shift op n) by lia.
  unfold day_of. destruct (DT._ord2ymd (DT._ymd2ord y m d + shift op n))
    as [[y' m'] d'].
  destruct Htz as [-> | ->]; reflexivity.
Qed.

Lemma date_is_ordered (k : kind) : issubclass k Date10 = true -> is_ordered k = true.
Proof. destruct k; cbn; congruence. Qed.

Lemma temporal_eq_refl (t : temporal) : temporal_eq t (PTemporal t) = true.
Proof.
  unfold temporal_eq, _get_operands, year_of.
  assert (Hs : issubclass (cls t) (cls t) = true) by (destruct (cls t); reflexivity).
  rewrite Hs. cbn [orb].
  destruct (align_tzinfo (_dt t) (_dt t)) as [dt1 dt2] eqn:Ha.
  rewrite Z.eqb_refl, andb_true_r.
  unfold align_tzinfo in Ha.
  destruct (DT.tzinfo (_dt t)) eqn:Htz; injection Ha as <- <-;
    unfold DT.eqb, DT.utcoffset; rewrite Htz; cbn [option_map];
    apply Z.eqb_refl.
Qed.

(** C1, as the code has it: for a date [d] of either version, of a
    year within 1..9999 and naive or at offset zero, and a day-time
    duration of [n] whole days that leaves the date within 0001-01-01 ..
    9999-12-31, [d + delta] is the date [n] days later and
    [(d + delta) - delta] is [d] again.  (A date drops the time of day
    of a sum, so a duration with hours does not come back.) *)
Theorem date_plus_minus_whole_days (k : kind) (y m d : Z)
    (tz : option Timezone) (date : temporal) (delta : duration) (n : Z) :
  issubclass k Date10 = true ->
  1 <= y <= 9999 ->
  tz = None \/ tz = Some utc_timezone ->
  abstract_init k y m d 0 0 0 0 tz = Ok date ->
  dcls delta = KDayTimeDuration ->
  get_timedelta delta = Ok (n * TimeDelta.US_PER_DAY) ->
  1 <= DT._ymd2ord y m d + n <= DT.MAXORDINAL ->
  exists shifted back : temporal,
    temporal_add date (PDuration delta) = Ok (PTemporal shifted)
    /\ DT.toordinal (_dt shifted) = DT.toordinal (_dt date) + n
    /\ temporal_sub shifted (PDuration delta) = Ok (PTemporal back)
    /\ back = date
    /\ temporal_eq back (PTemporal date) = true.
Proof.
  intros Hk Hy Htz Hinit Hcls Hdelta Hrange.
  rewrite date_init in Hinit by assumption.
  destruct (DT.valid_date y m d) eqn:Hv; [| discriminate].
  injection Hinit as <-.
  pose proof (ord2ymd_spec _ Hrange) as Hs.
  pose proof (date_shift k OpAdd y m d tz delta n Hk Htz Hcls Hdelta Hrange)
    as Hadd.
  cbn [shift] in Hadd.
  destruct (DT._ord2ymd (DT._ymd2ord y m d + n)) as [[y' m'] d'] eqn:Hord.
  destruct Hs as [Hv' Hord'].
  rewrite (day_of_eq _ _ _ _ tz Hord) in Hadd.
  pose proof (date_shift k OpSub y' m' d' tz delta n Hk Htz Hcls Hdelta) as Hsub.
  cbn [shift] in Hsub. rewrite Hord' in Hsub.
  replace (DT._ymd2ord y m d + n + - n) with (DT._ymd2ord y m d) in Hsub by lia.
  rewrite (day_of_eq _ _ _ _ tz (ord2ymd_ymd2ord y m d Hv)) in Hsub.
  specialize (Hsub ltac:(pose proof (ymd2ord_range y m d Hv); lia)).
  exists (mkTemporal k (midnight y' m' d' tz) None),
         (mkTemporal k (midnight y m d tz) None).
  unfold temporal_add, temporal_sub, ordered_add, ordered_sub.
  cbn [is_ordered_value cls]. rewrite (date_is_ordered k Hk).
  split; [exact Hadd |].
  split; [exact Hord' |].
  split; [exact Hsub |].
  split; [reflexivity | apply temporal_eq_refl].
Qed.

Lemma date_plus_minus_whole_days_witness :
  exists shifted back : temporal,
    temporal_add (mkTemporal Date10 (midnight 2000 1 1 None) None)
      (PDuration (mkDuration KDayTimeDuration 0 (dec 86400)))
    = Ok (PTemporal shifted)
    /\ DT.toordinal (_dt shifted)
       = DT.toordinal (_dt (mkTemporal Date10 (midnight 2000 1 1 None) None)) + 1
    /\ temporal_sub shifted
         (PDuration (mkDuration KDayTimeDuration 0 (dec 86400)))
       = Ok (PTemporal back)
    /\ back = mkTemporal Date10 (midnight 2000 1 1 None) None
    /\ temporal_eq back
         (PTemporal (mkTemporal Date10 (midnight 2000 1 1 None) None))
       = true.
Proof.
  apply (date_plus_minus_whole_days Date10 2000 1 1 None
           (mkTemporal Date10 (midnight 2000 1 1 None) None)
           (mkDuration KDayTimeDuration 0 (dec 86400)) 1).
  - reflexivity.
  - lia.
  - left; reflexivity.
  - reflexivity.
  - reflexivity.
  - vm_compute; reflexivity.
  - change (DT._ymd2ord 2000 1 1) with 730120. unfold DT.MAXORDINAL. lia.
Defined.

(** The date 2000-01-01 plus twelve hours is 2000-01-01, and that minus
    twelve hours is 1999-12-31. *)
Lemma date_plus_minus_half_day :
  let date := mkTemporal Date10 (midnight 2000 1 1 None) None in
  let delta := mkDuration KDayTimeDuration 0 (dec 43200) in
  let back := mkTemporal Date10 (midnight 1999 12 31 None) None in
  abstract_init Date10 2000 1 1 0 0 0 0 None = Ok date
  /\ DayTimeDuration (dec 43200) = Ok delta
  /\ temporal_add date (PDuration delta) = Ok (PTemporal date)
  /\ temporal_sub date (PDuration delta) = Ok (PTemporal back)
  /\ temporal_eq back (PTemporal date) = false.
Proof. cbv zeta. repeat split; vm_compute; reflexivity. Qed.

(** Outside the dates of the theorem the sum and the difference do not
    come back either.  A date at a non-zero offset leaves [todelta] with
    a time of day, which [fromdelta] drops: 2000-01-01+05:00 plus and
    minus zero days is 1999-12-31Z. *)
Example date_with_offset_plus_minus_zero_days :
  (date <- fromstring Date10 "2000-01-01+05:00" None ;;
   delta <- duration_fromstring KDayTimeDuration "P0D" ;;
   shifted <- temporal_add date (PDuration delta) ;;
   match shifted with
   | PTemporal v => temporal_sub v (PDuration delta)
   | _ => Raise TypeError
   end)
  = Ok (PTemporal
          (mkTemporal Date10 (midnight 1999 12 31 (Some utc_timezone)) None)).
Proof. vm_compute. reflexivity. Qed.

(** Beyond the years 1..9999 [__init__] and [todelta] choose the leap
    years differently: in XSD 1.0 the leap day of the year -4 plus zero
    days is the first of March, and so is, in XSD 1.1, the leap day of the
    year 10003. *)
Example leap_day_plus_zero_days_outside_calendar :
  (date <- abstract_init Date10 (-4) 2 29 0 0 0 0 None ;;
   delta <- duration_fromstring KDayTimeDuration "P0D" ;;
   temporal_add date (PDuration delta))
  = Ok (PTemporal (mkTemporal Date10 (midnight 4 3 1 None) (Some (-4))))
  /\ (date <- abstract_init Date 10003 2 29 0 0 0 0 None ;;
      delta <- duration_fromstring KDayTimeDuration "P0D" ;;
      temporal_add date (PDuration delta))
     = Ok (PTemporal (mkTemporal Date (midnight 4 3 1 None) (Some 10003))).
Proof. split; vm_compute; reflexivity. Qed.

(** ** The year zero *)

Lemma add_year_range (dt dt' : DT.datetime) (td : TimeDelta.timedelta) :
  DT.add dt td = Ok dt' -> 1 <= DT.year dt' <= 9999.
Proof.
  unfold DT.add.
  destruct (TimeDelta.add (DT.wall_us dt) td) as [delta |]; cbn [bind];
    [| discriminate].
  destruct (_ && _) eqn:E; [| discriminate]. bool_to_Z.
  pose proof (ord2ymd_spec (TimeDelta.days delta) ltac:(lia)) as Hs.
  destruct (DT._ord2ymd (TimeDelta.days delta)) as [[y m] d].
  destruct Hs as [Hv _]. intros [= <-]. cbn [DT.year].
  eapply valid_date_year; eassumption.
Qed.

Lemma make_year (y m d h mi s us : Z) (tz : option Timezone) (dt : DT.datetime) :
  DT.make y m d h mi s us tz = Ok dt -> DT.year dt = y /\ 1 <= y <= 9999.
Proof.
  unfold DT.make. destruct (DT.valid_date y m d) eqn:Hv; cbn [andb]; [| discriminate].
  destruct (DT.valid_time h mi s us); [| discriminate].
  intros [= <-]. split; [reflexivity | eapply valid_date_year; eassumption].
Qed.

(** What [__init__] stores for the year. *)
Lemma abstract_init_year (k : kind) (y m d h mi s us : Z)
    (tz : option Timezone) (t : temporal) :
  abstract_init k y m d h mi s us tz = Ok t ->
  year t <> 0
  /\ y <> 0
  /\ (1 <= y <= 9999 -> _year t = None)
  /\ (~ 1 <= y <= 9999 -> _year t = Some y /\ year t = y).
Proof.
  unfold abstract_init.
  set (midnight := (h =? 24) && (mi =? s) && (s =? 0)).
  set (h' := if midnight then 0 else h).
  set (delta := if midnight then TimeDelta.US_PER_DAY else 0).
  destruct (Z.leb_spec 1 y); destruct (Z.leb_spec y 9999); cbn [andb].
  - destruct (DT.make y m d h' mi s us tz) as [dt |] eqn:Hm; cbn [bind];
      [| discriminate].
    destruct (if delta =? 0 then Ok dt else DT.add dt delta) as [dt' |] eqn:Ha;
      cbn [bind]; [| discriminate].
    intros [= <-]. unfold year. cbn [_year _dt].
    assert (1 <= DT.year dt' <= 9999).
    { revert Ha. destruct (delta =? 0); intros Ha.
      - injection Ha as <-. apply make_year in Hm. clear - Hm. lia.
      - eapply add_year_range; eassumption. }
    clearbody midnight h' delta. repeat split; try lia.
  - out_of_range.
  - out_of_range.
  - lia.
Qed.

(** A constructor call is a [TypeError] or ends in
    [AbstractDateTime.__init__], with the year of the call when it has
    one. *)
Lemma construct_cases (k : kind) (kw : kwargs) :
  construct k kw = Raise TypeError
  \/ exists y m d h mi s us,
       construct k kw = abstract_init k y m d h mi s us (kw_tzinfo kw)
       /\ (forall y0, kw_year kw = Some y0 -> y = y0).
Proof.
  unfold construct.
  destruct (shape_of k), kw as [ky km kd kh kmi ks kus ktz];
    cbn [kw_year kw_month kw_day kw_hour kw_minute kw_second kw_microsecond
         kw_tzinfo];
    destruct ky, km, kd; cbn [absent andb]; rewrite ?andb_false_r;
    try (left; reflexivity);
    repeat match goal with
      | |- context [if ?c then _ else Raise TypeError] =>
          destruct c; [| left; reflexivity]
      end;
    right; do 7 eexists; (split; [reflexivity |]); intros y0 Hy0; congruence.
Qed.

Lemma construct_init (k : kind) (kw : kwargs) (t : temporal) :
  construct k kw = Ok t ->
  exists y m d h mi s us,
    abstract_init k y m d h mi s us (kw_tzinfo kw) = Ok t
    /\ (forall y0, kw_year kw = Some y0 -> y = y0).
Proof.
  intros Hc.
  destruct (construct_cases k kw)
    as [He | (y & m & d & h & mi & s & us & He & Hy)];
    rewrite He in Hc; [discriminate |].
  exists y, m, d, h, mi, s, us. split; assumption.
Qed.

Lemma construct_year_zero (k : kind) (kw : kwargs) :
  kw_year kw = Some 0 ->
  construct k kw = Raise ValueError \/ construct k kw = Raise TypeError.
Proof.
  intros Hy0.
  destruct (construct_cases k kw)
    as [He | (y & m & d & h & mi & s & us & He & Hy)]; [right; exact He |].
  left. rewrite He, (Hy 0 Hy0). reflexivity.
Qed.

(** A parse raises, or ends in the constructor of the class, called
    with the year of the text: shifted by one in a class of XSD 1.1 when
    it is not positive. *)
Lemma fromstring_cases (k : kind) (text : string) (tz : option Timezone) :
  (exists e, fromstring k text tz = Raise e)
  \/ exists kw,
       fromstring k text tz = construct k kw
       /\ (forall z, lexical_year k text = Some z ->
             kw_year kw
             = Some (if (z <=? 0) && version11 k then z - 1 else z)).
Proof.
  unfold fromstring, lexical_year.
  destruct (Lexical.pattern_match _ _) as [g |];
    [| left; eexists; reflexivity].
  destruct (Lexical.g_year g) as [v |] eqn:Hg; cbn [int_group].
  - destruct (PyInt.of_string v) as [yv | e]; cbn [bind];
      [| left; eexists; reflexivity].
    repeat match goal with
      | |- context [bind (int_group ?x) _] =>
          destruct (int_group x); cbn [bind]; [| left; eexists; reflexivity]
      end.
    match goal with
    | |- context [bind ?c _] =>
        destruct c; cbn [bind]; [| left; eexists; reflexivity]
    end.
    destruct (_ && _); cbn [bind]; [left; eexists; reflexivity |].
    right. destruct ((yv <=? 0) && version11 k) eqn:Hshift; cbn [bind];
      eexists; (split; [reflexivity |]); cbn [kw_year];
      intros z [= <-]; rewrite Hshift; reflexivity.
  - cbn [bind].
    repeat match goal with
      | |- context [bind (int_group ?x) _] =>
          destruct (int_group x); cbn [bind]; [| left; eexists; reflexivity]
      end.
    match goal with
    | |- context [bind ?c _] =>
        destruct c; cbn [bind]; [| left; eexists; reflexivity]
    end.
    right. eexists. split; [reflexivity |]. discriminate.
Qed.

(** C9, as the code has it: a constructor called with the year 0 fails,
    whatever the class and the other fields, and so does the parse of a
    text whose year is 0000 in a class of XSD 1.0; no value that was
    built has the year 0.  A class of XSD 1.1 reads the year 0000 as the
    year before 0001 and stores it as -1: there the parse of year 0000
    does not fail because of the year. *)
Theorem year_zero_is_rejected :
  (forall (k : kind) (m d h mi s us : Z) (tz : option Timezone),
      abstract_init k 0 m d h mi s us tz = Raise ValueError)
  /\ (forall (k : kind) (kw : kwargs),
         kw_year kw = Some 0 ->
         construct k kw = Raise ValueError \/ construct k kw = Raise TypeError)
  /\ (forall (k : kind) (text : string) (tz : option Timezone),
         version11 k = false ->
         lexical_year k text = Some 0 ->
         is_ok (fromstring k text tz) = false)
  /\ (forall (k : kind) (text : string) (tz : option Timezone) (t : temporal),
         version11 k = true ->
         lexical_year k text = Some 0 ->
         fromstring k text tz = Ok t ->
         year t = -1)
  /\ (forall (k : kind) (y m d h mi s us : Z) (tz : option Timezone)
             (t : temporal),
         abstract_init k y m d h mi s us tz = Ok t -> year t <> 0)
  /\ (forall (k : kind) (kw : kwargs) (t : temporal),
         construct k kw = Ok t -> year t <> 0)
  /\ (forall (k : kind) (text : string) (tz : option Timezone) (t : temporal),
         fromstring k text tz = Ok t -> year t <> 0).
Proof.
  assert (Hconstruct : forall k kw t, construct k kw = Ok t -> year t <> 0).
  { intros k kw t Hc. apply construct_init in Hc.
    destruct Hc as (y & m & d & h & mi & s & us & Hinit & _).
    apply abstract_init_year in Hinit. tauto. }
  repeat match goal with |- _ /\ _ => split end.
  - intros. unfold abstract_init. reflexivity.
  - exact construct_year_zero.
  - intros k text tz Hv Hl.
    destruct (fromstring_cases k text tz) as [[e ->] | (kw & -> & Hy)];
      [reflexivity |].
    specialize (Hy 0 Hl). rewrite Hv in Hy. cbn in Hy.
    destruct (construct_year_zero k kw Hy) as [-> | ->]; reflexivity.
  - intros k text tz t Hv Hl.
    destruct (fromstring_cases k text tz) as [[e ->] | (kw & -> & Hy)];
      [discriminate |].
    specialize (Hy 0 Hl). rewrite Hv in Hy. cbn in Hy. intros Hc.
    apply construct_init in Hc.
    destruct Hc as (y & m & d & h & mi & s & us & Hinit & Hyear).
    specialize (Hyear (-1) Hy). subst y.
    apply abstract_init_year in Hinit.
    destruct Hinit as (_ & _ & _ & Hout). apply Hout. lia.
  - intros k y m d h mi s us tz t Hinit.
    apply abstract_init_year in Hinit. tauto.
  - exact Hconstruct.
  - intros k text tz t.
    destruct (fromstring_cases k text tz) as [[e ->] | (kw & -> & _)];
      [discriminate | apply Hconstruct].
Qed.

Lemma year_zero_is_rejected_witness :
  (version11 Date10 = false /\ lexical_year Date10 "0000-01-01" = Some 0)
  /\ is_ok (fromstring Date10 "0000-01-01" None) = false.
Proof.
  split; [split; reflexivity |].
  apply (proj1 (proj2 (proj2 year_zero_is_rejected)) Date10
           "0000-01-01"%string None); reflexivity.
Defined.

(** The text ["0000-01-01"] is a date of XSD 1.1: the year 0000 is read
    and stored as the year -1. *)
Lemma year_0000_parsed_by_date11 :
  lexical_year Date "0000-01-01" = Some 0
  /\ fromstring Date "0000-01-01" None
     = Ok (mkTemporal Date (DT.mk 4 1 1 0 0 0 0 None) (Some (-1)))
  /\ is_ok (fromstring Date "0000-01-01" None) = true.
Proof. repeat split. Qed.

(** ** The invariant of the durations *)

Lemma duration_init_signs (k : dkind) (m : Z) (s : PyDecimal.decimal)
    (d : duration) :
  duration_init k m s = Ok d -> signs_agree d.
Proof.
  unfold duration_init, PyDecimal.is_neg, PyDecimal.is_pos, signs_agree.
  destruct (_ || _) eqn:E; [discriminate |].
  intros [= <-]. cbn [months seconds]. bool_to_Z; lia.
Qed.

Lemma fromtimedelta_signs (td : TimeDelta.timedelta) (d : duration) :
  fromtimedelta td = Ok d -> signs_agree d.
Proof. apply duration_init_signs. Qed.

Lemma date_operator_ok (self : temporal) (op : binop) (other v : pyval) :
  _date_operator self op other = Ok v -> duration_ok v.
Proof.
  unfold _date_operator. returned;
    intros [= <-]; cbn [duration_ok]; try exact I;
    eapply fromtimedelta_signs; eassumption.
Qed.

Lemma time_of_ok (dt : DT.datetime) (v : pyval) :
  time_of dt = Ok v -> duration_ok v.
Proof. unfold time_of. returned. intros [= <-]. exact I. Qed.

Lemma temporal_add_ok (self : temporal) (other v : pyval) :
  temporal_add self other = Ok v -> duration_ok v.
Proof.
  unfold temporal_add, ordered_add, time_add.
  returned; try apply date_operator_ok; try apply time_of_ok.
Qed.

Lemma temporal_sub_ok (self : temporal) (other v : pyval) :
  temporal_sub self other = Ok v -> duration_ok v.
Proof.
  unfold temporal_sub, ordered_sub, time_sub.
  returned; try apply date_operator_ok; try apply time_of_ok;
    intros [= <-]; cbn [duration_ok];
    eapply fromtimedelta_signs; eassumption.
Qed.

Lemma num_arith_ok (op : arith) (a b v : pyval) :
  num_arith op a b = Ok v -> duration_ok v.
Proof.
  unfold num_arith. returned; intros [= <-]; exact I.
Qed.

Lemma duration_arith_ok (op : arith) (self : duration) (other v : pyval) :
  duration_arith op self other = Ok v -> duration_ok v.
Proof.
  unfold duration_arith, ym_add, ym_sub, ym_mul, ym_truediv, dt_add, dt_sub,
    dt_mul, dt_truediv, YearMonthDuration, DayTimeDuration.
  returned; try apply temporal_add_ok; try apply num_arith_ok;
    intros [= <-]; cbn [duration_ok];
    eapply duration_init_signs; eassumption.
Qed.

Lemma duration_fromstring_signs (k : dkind) (text : string) (d : duration) :
  duration_fromstring k text = Ok d -> signs_agree d.
Proof.
  unfold duration_fromstring, Duration, YearMonthDuration, DayTimeDuration.
  returned; apply duration_init_signs.
Qed.

(** C8: every duration a public operation returns has months and seconds
    that do not have strictly opposite signs: the constructors of the
    three variants, the parse of a lexical form, the sum, the difference,
    the product and the quotient of the variants, the conversion of a time
    span and the difference of two date or time values. *)
Theorem durations_keep_signs :
  (forall (m : Z) (s : PyDecimal.decimal) (d : duration),
      Duration m s = Ok d -> signs_agree d)
  /\ (forall (m : Z) (d : duration),
         YearMonthDuration m = Ok d -> signs_agree d)
  /\ (forall (s : PyDecimal.decimal) (d : duration),
         DayTimeDuration s = Ok d -> signs_agree d)
  /\ (forall (k : dkind) (text : string) (d : duration),
         duration_fromstring k text = Ok d -> signs_agree d)
  /\ (forall (op : arith) (self : duration) (other : pyval) (d : duration),
         duration_arith op self other = Ok (PDuration d) -> signs_agree d)
  /\ (forall (td : TimeDelta.timedelta) (d : duration),
         fromtimedelta td = Ok d -> signs_agree d)
  /\ (forall (self : temporal) (other : pyval) (d : duration),
         temporal_sub self other = Ok (PDuration d) -> signs_agree d).
Proof.
  repeat match goal with |- _ /\ _ => split end.
  - intros m s d. apply duration_init_signs.
  - intros m d. apply duration_init_signs.
  - intros s d. apply duration_init_signs.
  - exact duration_fromstring_signs.
  - intros op self other d H. exact (duration_arith_ok _ _ _ _ H).
  - exact fromtimedelta_signs.
  - intros self other d H. exact (temporal_sub_ok _ _ _ H).
Qed.

Lemma durations_keep_signs_witness :
  duration_fromstring KDuration "-P1Y2M3DT4H5M6.5S"
  = Ok (mkDuration KDuration (-14) (PyDecimal.mk (-2739065) (-1)))
  /\ signs_agree (mkDuration KDuration (-14) (PyDecimal.mk (-2739065) (-1))).
Proof.
  split; [vm_compute; reflexivity |].
  apply (proj1 (proj2 (proj2 (proj2 durations_keep_signs))) KDuration
           "-P1Y2M3DT4H5M6.5S"%string).
  vm_compute; reflexivity.
Defined.

(** ** A naive value against the offset zero *)

Lemma wall_us_replace_tzinfo (dt : DT.datetime) (tz : option Timezone) :
  DT.wall_us (DT.replace_tzinfo dt tz) = DT.wall_us dt.
Proof. reflexivity. Qed.

Lemma make_replace_tzinfo (y m d h mi s us : Z) (tz tz' : option Timezone)
    (dt : DT.datetime) :
  DT.make y m d h mi s us tz = Ok dt ->
  DT.make y m d h mi s us tz' = Ok (DT.replace_tzinfo dt tz').
Proof.
  unfold DT.make. destruct (_ && _); [| discriminate].
  intros [= <-]. reflexivity.
Qed.

Lemma add_replace_tzinfo (dt dt' : DT.datetime) (td : TimeDelta.timedelta)
    (tz' : option Timezone) :
  DT.add dt td = Ok dt' ->
  DT.add (DT.replace_tzinfo dt tz') td = Ok (DT.replace_tzinfo dt' tz').
Proof.
  unfold DT.add. rewrite wall_us_replace_tzinfo.
  destruct (TimeDelta.add (DT.wall_us dt) td) as [delta |]; cbn [bind];
    [| discriminate].
  destruct (_ && _); [| discriminate].
  destruct (DT._ord2ymd (TimeDelta.days delta)) as [[y m] d].
  intros [= <-]. reflexivity.
Qed.

(** The constructor does not look at the offset: with another offset it
    builds the same value, at that offset. *)
Lemma abstract_init_tzinfo (k : kind) (y m d h mi s us : Z)
    (tz tz' : option Timezone) (t : temporal) :
  abstract_init k y m d h mi s us tz = Ok t ->
  abstract_init k y m d h mi s us tz' = Ok (set_tzinfo t tz').
Proof.
  unfold abstract_init.
  set (midnight := (h =? 24) && (mi =? s) && (s =? 0)).
  set (h' := if midnight then 0 else h).
  set (delta := if midnight then TimeDelta.US_PER_DAY else 0).
  assert (Hmake : forall y0 (yr : option Z) (r : DT.datetime),
             DT.make y0 m d h' mi s us tz = Ok r ->
             (dt <- DT.make y0 m d h' mi s us tz' ;; Ok (dt, yr))
             = Ok (DT.replace_tzinfo r tz', yr)).
  { intros y0 yr r Hr. rewrite (make_replace_tzinfo _ _ _ _ _ _ _ _ tz' _ Hr).
    reflexivity. }
  assert (Hadd : forall r r',
             (if delta =? 0 then Ok r else DT.add r delta) = Ok r' ->
             (if delta =? 0 then Ok (DT.replace_tzinfo r tz')
              else DT.add (DT.replace_tzinfo r tz') delta)
             = Ok (DT.replace_tzinfo r' tz')).
  { intros r r'. destruct (delta =? 0).
    - intros [= <-]. reflexivity.
    - apply add_replace_tzinfo. }
  destruct ((1 <=? y) && (y <=? 9999)).
  - destruct (DT.make y m d h' mi s us tz) as [r |] eqn:Hr; cbn [bind];
      [| discriminate].
    rewrite (Hmake y None r Hr). cbn [bind].
    destruct (if delta =? 0 then Ok r else DT.add r delta) as [r' |] eqn:Ha;
      cbn [bind]; [| discriminate].
    rewrite (Hadd r r' Ha). cbn [bind]. intros [= <-]. reflexivity.
  - destruct (y =? 0); [discriminate |].
    destruct (isleap _).
    + destruct (DT.make 4 m d h' mi s us tz) as [r |] eqn:Hr; cbn [bind];
        [| discriminate].
      rewrite (Hmake 4 (Some y) r Hr). cbn [bind].
      destruct (if delta =? 0 then Ok r else DT.add r delta) as [r' |] eqn:Ha;
        cbn [bind]; [| discriminate].
      rewrite (Hadd r r' Ha). cbn [bind]. intros [= <-]. reflexivity.
    + destruct (DT.make 6 m d h' mi s us tz) as [r |] eqn:Hr; cbn [bind];
        [| discriminate].
      rewrite (Hmake 6 (Some y) r Hr). cbn [bind].
      destruct (if delta =? 0 then Ok r else DT.add r delta) as [r' |] eqn:Ha;
        cbn [bind]; [| discriminate].
      rewrite (Hadd r r' Ha). cbn [bind]. intros [= <-]. reflexivity.
Qed.

Lemma construct_tzinfo (k : kind) (kw : kwargs) (tz' : option Timezone)
    (t : temporal) :
  construct k kw = Ok t ->
  construct k
    (mkKwargs (kw_year kw) (kw_month kw) (kw_day kw) (kw_hour kw)
       (kw_minute kw) (kw_second kw) (kw_microsecond kw) tz')
  = Ok (set_tzinfo t tz').
Proof.
  unfold construct.
  cbn [kw_year kw_month kw_day kw_hour kw_minute kw_second kw_microsecond
       kw_tzinfo].
  destruct (shape_of k); returned; apply abstract_init_tzinfo.
Qed.

Lemma issubclass_refl (k : kind) : issubclass k k = true.
Proof. destruct k; reflexivity. Qed.

Lemma tzinfo_of_abstract_init (k : kind) (y m d h mi s us : Z)
    (tz : option Timezone) (t : temporal) :
  abstract_init k y m d h mi s us tz = Ok t -> tzinfo t = tz.
Proof.
  intros H. pose proof (abstract_init_tzinfo _ _ _ _ _ _ _ _ _ tz _ H) as H'.
  rewrite H in H'. injection H' as H'. rewrite H' at 1. reflexivity.
Qed.

(** A naive value against the same value at offset zero. *)
Lemma naive_eq_utc (t : temporal) :
  tzinfo t = None ->
  let u := set_tzinfo t (Some utc_timezone) in
  _get_operands t (PTemporal u)
  = Ok (DT.replace_tzinfo (_dt t) (Some utc_timezone), _dt u)
  /\ _get_operands u (PTemporal t)
     = Ok (_dt u, DT.replace_tzinfo (_dt t) (Some utc_timezone))
  /\ temporal_eq t (PTemporal u) = true
  /\ temporal_eq u (PTemporal t) = true.
Proof.
  intros Htz u.
  assert (Ha : _get_operands t (PTemporal u)
               = Ok (DT.replace_tzinfo (_dt t) (Some utc_timezone), _dt u)).
  { unfold _get_operands, u. cbn [cls set_tzinfo _dt].
    rewrite issubclass_refl. cbn [orb]. unfold align_tzinfo.
    unfold tzinfo in Htz. rewrite Htz. reflexivity. }
  assert (Hb : _get_operands u (PTemporal t)
               = Ok (_dt u, DT.replace_tzinfo (_dt t) (Some utc_timezone))).
  { unfold _get_operands, u. cbn [cls set_tzinfo _dt].
    rewrite issubclass_refl. cbn [orb]. unfold align_tzinfo.
    unfold tzinfo in Htz. rewrite Htz. reflexivity. }
  assert (Hy : year u = year t) by reflexivity.
  repeat split; try assumption.
  - unfold temporal_eq. rewrite Ha. cbn [year_of]. rewrite Hy, Z.eqb_refl.
    unfold DT.eqb, DT.utcoffset, u.
    cbn [set_tzinfo _dt DT.replace_tzinfo DT.tzinfo option_map].
    rewrite andb_true_r. apply Z.eqb_refl.
  - unfold temporal_eq. rewrite Hb. cbn [year_of]. rewrite Hy, Z.eqb_refl.
    unfold DT.eqb, DT.utcoffset, u.
    cbn [set_tzinfo _dt DT.replace_tzinfo DT.tzinfo option_map].
    rewrite andb_true_r. apply Z.eqb_refl.
Qed.

(** C6: a value of any class built without an offset is equal, in both
    operand orders, to the value built from the same fields at the offset
    +00:00, which exists; for the comparison the naive side is taken at
    offset zero, on a copy of its datetime, and after the call both
    objects are as they were: the naive one still has no offset. *)
Theorem naive_equals_offset_zero (k : kind) (kw : kwargs) (a : temporal) :
  kw_tzinfo kw = None ->
  construct k kw = Ok a ->
  exists b : temporal,
    construct k (with_tzinfo kw (Some utc_timezone)) = Ok b
    /\ tzinfo a = None
    /\ tzinfo b = Some utc_timezone
    /\ _get_operands a (PTemporal b)
       = Ok (DT.replace_tzinfo (_dt a) (Some utc_timezone), _dt b)
    /\ eq_call a b = (true, a, b)
    /\ eq_call b a = (true, b, a)
    /\ tzinfo (snd (fst (eq_call a b))) = None
    /\ tzinfo (snd (eq_call b a)) = None.
Proof.
  intros Hkw Ha.
  pose proof (construct_tzinfo k kw (Some utc_timezone) a Ha) as Hb.
  assert (Hna : tzinfo a = None).
  { destruct (construct_init k kw a Ha)
      as (y & m & d & h & mi & s & us & Hinit & _).
    rewrite Hkw in Hinit.
    exact (tzinfo_of_abstract_init _ _ _ _ _ _ _ _ _ _ Hinit). }
  destruct (naive_eq_utc a Hna) as (Hops & _ & Hab & Hba).
  exists (set_tzinfo a (Some utc_timezone)).
  unfold eq_call. rewrite Hab, Hba. cbn [fst snd].
  repeat split; try assumption.
Qed.

Lemma naive_equals_offset_zero_witness :
  exists b : temporal,
    construct Time
      (with_tzinfo
         (mkKwargs None None None (Some 9) (Some 26) (Some 54) None None)
         (Some utc_timezone)) = Ok b
    /\ eq_call (mkTemporal Time (DT.mk 2000 1 1 9 26 54 0 None) None) b
       = (true, mkTemporal Time (DT.mk 2000 1 1 9 26 54 0 None) None, b).
Proof.
  destruct (naive_equals_offset_zero Time
              (mkKwargs None None None (Some 9) (Some 26) (Some 54) None None)
              (mkTemporal Time (DT.mk 2000 1 1 9 26 54 0 None) None)
              eq_refl eq_refl) as (b & Hb & _ & _ & _ & Heq & _).
  exists b. split; assumption.
Defined.

(** ** A day-time duration times or over a number *)





(** * Further properties of the modules *)

(** ** The calendar helpers *)

Lemma month_cases (m : Z) :
  1 <= m <= 12 ->
  m = 1 \/ m = 2 \/ m = 3 \/ m = 4 \/ m = 5 \/ m = 6 \/ m = 7
  \/ m = 8 \/ m = 9 \/ m = 10 \/ m = 11 \/ m = 12.
Proof. lia. Qed.

Lemma days_in_month_bounds (y m : Z) :
  1 <= m <= 12 -> 28 <= DT._days_in_month y m <= 31.
Proof.
  intros Hm. unfold DT._days_in_month.
  destruct (month_cases m Hm) as
    [-> | [-> | [-> | [-> | [-> | [-> | [-> | [-> | [-> | [-> | [-> | ->]]]]]]]]]]];
    cbn [Z.eqb Pos.eqb andb DT._DAYS_IN_MONTH]; destruct (isleap y); lia.
Qed.

Lemma adjust_day_spec (y m d : Z) :
  1 <= m <= 12 -> 1 <= d <= 31 ->
  adjust_day y m d = Z.min d (DT._days_in_month y m).
Proof.
  intros Hm Hd. unfold adjust_day, DT._days_in_month.
  destruct (month_cases m Hm) as
    [-> | [-> | [-> | [-> | [-> | [-> | [-> | [-> | [-> | [-> | [-> | ->]]]]]]]]]]];
    cbn [existsb Z.eqb Pos.eqb orb andb DT._DAYS_IN_MONTH];
    destruct (isleap y); lia.
Qed.

(** X1. [adjust_day] brings a day of 1..31 into the month: the result is
    the day itself when the month has it, the last day of the month
    otherwise, so that the date of the result is a date of the calendar. *)
Theorem adjust_day_fits_the_month (y m d : Z) :
  1 <= y <= 9999 -> 1 <= m <= 12 -> 1 <= d <= 31 ->
  adjust_day y m d = Z.min d (DT._days_in_month y m)
  /\ DT.valid_date y m (adjust_day y m d) = true.
Proof.
  intros Hy Hm Hd. rewrite (adjust_day_spec y m d Hm Hd). split; [reflexivity |].
  unfold DT.valid_date, DT.MINYEAR, DT.MAXYEAR.
  pose proof (days_in_month_bounds y m Hm).
  repeat (apply andb_true_iff; split); try apply Z.leb_le; lia.
Qed.

Lemma adjust_day_fits_the_month_witness :
  (1 <= 2001 <= 9999 /\ 1 <= 2 <= 12 /\ 1 <= 31 <= 31)
  /\ adjust_day 2001 2 31 = Z.min 31 (DT._days_in_month 2001 2)
  /\ DT.valid_date 2001 2 (adjust_day 2001 2 31) = true.
Proof.
  split; [lia |]. apply (adjust_day_fits_the_month 2001 2 31); lia.
Defined.

(** X2. [days_from_common_era] grows by 366 days onto a leap year and by
    365 days onto any other year, for every year, before and after the
    common era. *)
Theorem days_from_common_era_step (y : Z) :
  days_from_common_era (y + 1) - days_from_common_era y
  = if isleap (y + 1) then 366 else 365.
Proof.
  unfold days_from_common_era, isleap.
  repeat match goal with
    | |- context [?a =? ?b] => destruct (Z.eqb_spec a b)
    | |- context [?a <? ?b] => destruct (Z.ltb_spec a b)
    | |- context [?a <=? ?b] => destruct (Z.leb_spec a b)
    end; cbn [andb orb negb]; try lia_div.
Qed.

(** A leap year, as a difference of counts *)
Lemma isleap_count (y : Z) :
  (if isleap y then 1 else 0)
  = y / 4 - (y - 1) / 4 - (y / 100 - (y - 1) / 100) + (y / 400 - (y - 1) / 400).
Proof.
  unfold isleap.
  repeat match goal with
    | |- context [?a =? ?b] => destruct (Z.eqb_spec a b)
    end; cbn [andb orb negb]; lia_div.
Qed.

Lemma month_sums_checked :
  forallb (fun leap =>
    forallb (fun a =>
      forallb (fun b => implb (a + 1 <=? b + 1) (table_ok leap (a + 1) (b + 1)))
        (upto 12)) (upto 12)) [true; false] = true.
Proof. vm_compute. reflexivity. Qed.

(** The tables of the module add up to the days before a month. *)
Lemma month_sums (y a b : Z) :
  1 <= a <= b -> b <= 12 ->
  sum_range (getitem (if isleap y then MONTH_DAYS_LEAP else MONTH_DAYS)) a b
  = DT._days_before_month y b - DT._days_before_month y a.
Proof.
  intros Ha Hb. unfold DT._days_before_month.
  pose proof month_sums_checked as Hall.
  rewrite forallb_forall in Hall.
  specialize (Hall (isleap y)
                (ltac:(destruct (isleap y); cbn; auto)
                  : In (isleap y) [true; false])).
  rewrite forallb_forall in Hall.
  specialize (Hall (a - 1) (upto_In 12 (a - 1) ltac:(lia))).
  rewrite forallb_forall in Hall.
  specialize (Hall (b - 1) (upto_In 12 (b - 1) ltac:(lia))).
  replace (a - 1 + 1) with a in Hall by lia.
  replace (b - 1 + 1) with b in Hall by lia.
  destruct (Z.leb_spec a b); [| lia]. cbn [implb] in Hall.
  unfold table_ok in Hall. apply Z.eqb_eq in Hall. exact Hall.
Qed.

(** [months2days] against the ordinals of the standard calendar *)
Lemma months2days_spec (y m k : Z) :
  1 <= m <= 12 ->
  months2days y m k
  = DT._ymd2ord (y + (m - 1 + k) / 12) ((m - 1 + k) mod 12 + 1) 1
    - DT._ymd2ord y m 1.
Proof.
  intros Hm. unfold months2days.
  destruct (Z.eqb_spec k 0) as [-> | Hk].
  { replace (m - 1 + 0) with (m - 1) by lia.
    replace ((m - 1) / 12) with 0 by lia_div.
    replace ((m - 1) mod 12 + 1) with m by lia_div.
    replace (y + 0) with y by lia. lia. }
  cbv zeta.
  set (t := m - 1 + k).
  set (ty := y + t / 12).
  set (tm := t mod 12 + 1).
  assert (Htm : 1 <= tm <= 12) by (subst tm; clearbody t; lia_div).
  assert (Hy1 : 365 * (ty - y) + leapdays y ty
                = DT._days_before_year ty - DT._days_before_year y).
  { unfold leapdays, DT._days_before_year. cbv zeta. lia. }
  assert (Hy2 : 365 * (ty - y) + leapdays (y + 1) (ty + 1)
                = DT._days_before_year ty - DT._days_before_year y
                  + (if isleap ty then 1 else 0) - (if isleap y then 1 else 0)).
  { rewrite (isleap_count ty), (isleap_count y).
    unfold leapdays, DT._days_before_year. cbv zeta.
    replace (ty + 1 - 1) with ty by lia. replace (y + 1 - 1) with y by lia. lia. }
  unfold DT._ymd2ord.
  assert (Hdbm : m <= 2 -> forall yy,
            DT._days_before_month yy m = DT._DAYS_BEFORE_MONTH m).
  { intros Hle yy. unfold DT._days_before_month.
    destruct (Z.ltb_spec 2 m); [lia |]. cbn [andb]. lia. }
  assert (Hdbm2 : 2 < m -> forall yy,
            DT._days_before_month yy m
            = DT._DAYS_BEFORE_MONTH m + (if isleap yy then 1 else 0)).
  { intros Hlt yy. unfold DT._days_before_month.
    destruct (Z.ltb_spec 2 m); [| lia]. cbn [andb]. reflexivity. }
  destruct (Z.leb_spec m 2) as [Hle | Hgt].
  - rewrite Hy1.
    destruct (Z.leb_spec m tm) as [Hmt | Hmt].
    + rewrite (month_sums ty m tm) by lia.
      rewrite (Hdbm Hle ty), (Hdbm Hle y).
      destruct (0 <=? _); lia.
    + rewrite (month_sums ty tm m) by lia.
      rewrite (Hdbm Hle ty), (Hdbm Hle y).
      destruct (0 <=? _); lia.
  - rewrite Hy2.
    destruct (Z.leb_spec m tm) as [Hmt | Hmt].
    + rewrite (month_sums ty m tm) by lia.
      rewrite (Hdbm2 Hgt ty), (Hdbm2 Hgt y).
      destruct (0 <=? _); lia.
    + rewrite (month_sums ty tm m) by lia.
      rewrite (Hdbm2 Hgt ty), (Hdbm2 Hgt y).
      destruct (0 <=? _); lia.
Qed.

(** X3. [months2days] is the number of days from the first day of the
    month it starts at to the first day of the month [k] months later (or
    earlier), in the proleptic Gregorian calendar; so the days of [k + j]
    months are the days of [k] months plus the days of [j] months counted
    from the month reached. *)
Theorem months2days_between_month_starts (y m k : Z) :
  1 <= m <= 12 ->
  months2days y m k
  = DT._ymd2ord (y + (m - 1 + k) / 12) ((m - 1 + k) mod 12 + 1) 1
    - DT._ymd2ord y m 1
  /\ forall j : Z,
       months2days y m (k + j)
       = months2days y m k
         + months2days (y + (m - 1 + k) / 12) ((m - 1 + k) mod 12 + 1) j.
Proof.
  intros Hm. split; [exact (months2days_spec y m k Hm) |].
  intros j.
  assert (Hm' : 1 <= (m - 1 + k) mod 12 + 1 <= 12) by lia_div.
  rewrite (months2days_spec y m (k + j) Hm), (months2days_spec y m k Hm),
    (months2days_spec _ _ j Hm').
  set (t := m - 1 + k).
  replace (m - 1 + (k + j)) with (t + j) by (subst t; lia).
  replace (t mod 12 + 1 - 1 + j) with (t mod 12 + j) by lia.
  replace (y + t / 12 + (t mod 12 + j) / 12) with (y + (t + j) / 12)
    by (clearbody t; lia_div).
  replace ((t mod 12 + j) mod 12) with ((t + j) mod 12)
    by (clearbody t; lia_div).
  lia.
Qed.

Lemma months2days_between_month_starts_witness :
  1 <= 11 <= 12
  /\ months2days 1999 11 (-22)
     = DT._ymd2ord (1999 + (11 - 1 + -22) / 12) ((11 - 1 + -22) mod 12 + 1) 1
       - DT._ymd2ord 1999 11 1
  /\ forall j : Z,
       months2days 1999 11 (-22 + j)
       = months2days 1999 11 (-22)
         + months2days (1999 + (11 - 1 + -22) / 12)
             ((11 - 1 + -22) mod 12 + 1) j.
Proof.
  split; [lia |]. apply (months2days_between_month_starts 1999 11 (-22)); lia.
Defined.

(** ** The order of durations *)

Lemma month_start_mono (y1 m1 y2 m2 : Z) :
  1 <= m1 <= 12 -> 1 <= m2 <= 12 ->
  y1 < y2 \/ (y1 = y2 /\ m1 < m2) ->
  DT._ymd2ord y1 m1 1 < DT._ymd2ord y2 m2 1.
Proof.
  intros H1 H2 Hlt. unfold DT._ymd2ord.
  assert (Hd : forall y m, 1 <= m <= 12 -> 1 <= 1 <= DT._days_in_month y m).
  { intros y m Hm. pose proof (days_in_month_bounds y m Hm). lia. }
  destruct (month_bounds y1 m1 1 H1 (Hd y1 m1 H1)) as (Hlo1 & Hhi1 & Hm1).
  destruct (month_bounds y2 m2 1 H2 (Hd y2 m2 H2)) as (Hlo2 & Hhi2 & _).
  destruct Hlt as [Hy | [-> Hm]].
  - pose proof (days_before_year_mono (y1 + 1) y2 ltac:(lia)) as Hmono.
    rewrite days_before_year_succ in Hmono. destruct (isleap y1); lia.
  - specialize (Hm1 m2 1 H2 (Hd y2 m2 H2) Hm). lia.
Qed.

(** More months are more days. *)
Lemma months2days_mono (y m k1 k2 : Z) :
  1 <= m <= 12 -> k1 < k2 -> months2days y m k1 < months2days y m k2.
Proof.
  intros Hm Hk. rewrite !months2days_spec by exact Hm.
  assert (DT._ymd2ord (y + (m - 1 + k1) / 12) ((m - 1 + k1) mod 12 + 1) 1
          < DT._ymd2ord (y + (m - 1 + k2) / 12) ((m - 1 + k2) mod 12 + 1) 1).
  { apply month_start_mono; lia_div. }
  lia.
Qed.

Lemma months2days_bound (y m k : Z) :
  1 <= m <= 12 -> 1 <= y <= 9999 -> Z.abs k <= 30000000 ->
  Z.abs (months2days y m k) <= 999999999.
Proof.
  intros Hm Hy Hk. rewrite months2days_spec by exact Hm.
  set (t := m - 1 + k).
  assert (Ht : -30000000 <= t <= 30000011) by lia.
  assert (H1 : forall yy mm, 1 <= mm <= 12 ->
            0 <= DT._days_before_month yy mm <= 335).
  { intros yy mm Hmm. unfold DT._days_before_month.
    destruct (month_cases mm Hmm) as
      [-> | [-> | [-> | [-> | [-> | [-> | [-> | [-> | [-> | [-> | [-> | ->]]]]]]]]]]];
      cbn [Z.ltb Z.compare Pos.compare Pos.compare_cont andb DT._DAYS_BEFORE_MONTH];
      destruct (isleap yy); lia. }
  pose proof (H1 y m Hm) as Ha.
  pose proof (H1 (y + t / 12) (t mod 12 + 1) ltac:(lia_div)) as Hb.
  unfold DT._ymd2ord.
  assert (Hq : -2500000 <= t / 12 <= 2500001) by lia_div.
  generalize dependent (t / 12). intros q Hb Hq.
  generalize dependent (DT._days_before_month (y + q) (t mod 12 + 1)).
  generalize dependent (DT._days_before_month y m). intros.
  unfold DT._days_before_year. lia_div.
Qed.

Lemma compare_mono (f : Z -> Z) (a b : Z) :
  (forall x y, x < y -> f x < f y) -> (f a ?= f b) = (a ?= b).
Proof.
  intros Hf. destruct (Z.compare_spec a b) as [-> | Hlt | Hgt].
  - apply Z.compare_refl.
  - apply Z.compare_lt_iff. apply Hf. exact Hlt.
  - apply Z.compare_gt_iff. apply Hf. exact Hgt.
Qed.

(** X4. Two year-month durations of at most thirty million months compare
    as their numbers of months do, under each of [<], [<=], [>] and [>=]:
    the four reference dates of [_compare_durations] agree. *)
Theorem year_month_durations_ordered_by_months
    (op : cmpop) (ma mb : Z) (a b : duration) :
  YearMonthDuration ma = Ok a -> YearMonthDuration mb = Ok b ->
  Z.abs ma <= 30000000 -> Z.abs mb <= 30000000 ->
  duration_compare op a b = Ok (holds op (ma ?= mb)).
Proof.
  intros Ha Hb Hma Hmb.
  unfold YearMonthDuration, duration_init in Ha, Hb.
  change (PyDecimal.is_neg PyDecimal.zero) with false in Ha, Hb.
  change (PyDecimal.is_pos PyDecimal.zero) with false in Ha, Hb.
  rewrite andb_false_r in Ha, Hb. cbn [andb orb] in Ha, Hb.
  injection Ha as <-. injection Hb as <-.
  assert (Hanchor : forall y m, 1 <= m <= 12 -> 1 <= y <= 9999 ->
            (a <- TimeDelta.make (months2days y m ma) 0 0 0 0 ;;
             b <- TimeDelta.make (months2days y m mb) 0 0 0 0 ;;
             Ok (holds op (a ?= b))) = Ok (holds op (ma ?= mb))).
  { intros y m Hm Hy.
    pose proof (months2days_bound y m ma Hm Hy Hma) as Ba.
    pose proof (months2days_bound y m mb Hm Hy Hmb) as Bb.
    unfold TimeDelta.make.
    rewrite !checked_in_range.
    - cbn [bind]. do 2 f_equal.
      rewrite <- (compare_mono (fun k => months2days y m k * TimeDelta.US_PER_DAY
                    + (0 * 3600 + 0 * 60 + 0) * TimeDelta.US_PER_SECOND + 0) ma mb).
      + reflexivity.
      + intros x z Hxz. pose proof (months2days_mono y m x z Hm Hxz).
        unfold TimeDelta.US_PER_DAY, TimeDelta.US_PER_SECOND. lia.
    - unfold TimeDelta.MAX_DAYS, TimeDelta.US_PER_DAY, TimeDelta.US_PER_SECOND.
      generalize dependent (months2days y m mb). intros. lia_div.
    - unfold TimeDelta.MAX_DAYS, TimeDelta.US_PER_DAY, TimeDelta.US_PER_SECOND.
      generalize dependent (months2days y m ma). intros. lia_div. }
  assert (Hcmp : _compare_durations
                   (mkDuration KYearMonthDuration ma PyDecimal.zero)
                   (mkDuration KYearMonthDuration mb PyDecimal.zero) op
                 = Ok (holds op (ma ?= mb))).
  { unfold _compare_durations.
    cbn [disinstance dcls dsubclass dkind_eqb negb months seconds].
    change (PyDecimal.to_int PyDecimal.zero) with 0.
    change (PyDecimal.to_int
              (PyDecimal.mul (PyDecimal.sub PyDecimal.zero (dec 0)) (dec 1000000)))
      with 0.
    rewrite !Hanchor by lia. cbn [bind forallb].
    destruct (holds op (ma ?= mb)); reflexivity. }
  unfold duration_compare. cbn [dcls dsubclass dkind_eqb negb andb].
  destruct op; cbn [duration_method]; unfold duration_lt, duration_le,
    duration_gt, duration_ge; try exact Hcmp.
  - unfold duration_eq. cbn [months seconds].
    change (PyDecimal.eqb PyDecimal.zero PyDecimal.zero) with true.
    rewrite andb_true_r. destruct (Z.eqb_spec ma mb) as [-> | Hne]; [| exact Hcmp].
    rewrite Z.compare_refl. reflexivity.
  - unfold duration_eq. cbn [months seconds].
    change (PyDecimal.eqb PyDecimal.zero PyDecimal.zero) with true.
    rewrite andb_true_r. destruct (Z.eqb_spec ma mb) as [-> | Hne]; [| exact Hcmp].
    rewrite Z.compare_refl. reflexivity.
Qed.

Lemma year_month_durations_ordered_by_months_witness :
  (YearMonthDuration 13 = Ok (mkDuration KYearMonthDuration 13 PyDecimal.zero)
   /\ YearMonthDuration (-2) = Ok (mkDuration KYearMonthDuration (-2) PyDecimal.zero)
   /\ Z.abs 13 <= 30000000 /\ Z.abs (-2) <= 30000000)
  /\ duration_compare OpGt (mkDuration KYearMonthDuration 13 PyDecimal.zero)
       (mkDuration KYearMonthDuration (-2) PyDecimal.zero)
     = Ok (holds OpGt (13 ?= -2)).
Proof.
  split; [repeat split; lia |].
  apply (year_month_durations_ordered_by_months OpGt 13 (-2));
    [reflexivity | reflexivity | lia | lia].
Defined.

(** ** Decimal numerals: ['%d' % n] and the digits of a coefficient *)

Lemma string_of_list_app (a b : list DecimalFacts.digits) :
  NilEmpty.string_of_uint (DecimalFacts.of_list (a ++ b))
  = String.append (NilEmpty.string_of_uint (DecimalFacts.of_list a))
      (NilEmpty.string_of_uint (DecimalFacts.of_list b)).
Proof.
  induction a as [| h t IH]; [reflexivity |].
  destruct h; cbn [DecimalFacts.of_list app NilEmpty.string_of_uint String.append];
    f_equal; exact IH.
Qed.

Lemma unorm_to_uint (p : positive) : Decimal.unorm (Pos.to_uint p) = Pos.to_uint p.
Proof.
  rewrite <- (DecimalPos.Unsigned.to_of (Pos.to_uint p)).
  rewrite DecimalPos.Unsigned.of_to. reflexivity.
Qed.

(** The digits of a positive number start with a digit that is not zero. *)
Lemma to_uint_head (p : positive) :
  exists h t, DecimalFacts.to_list (Pos.to_uint p) = h :: t /\ h <> DecimalFacts.d0.
Proof.
  pose proof (unorm_to_uint p) as Hu.
  apply (f_equal DecimalFacts.to_list) in Hu. rewrite DecimalFacts.unorm_spec in Hu.
  pose proof (DecimalPos.Unsigned.to_uint_nonzero p) as Hnz.
  destruct (DecimalFacts.to_list (Pos.to_uint p)) as [| h t] eqn:El.
  - exfalso. apply (DecimalPos.Unsigned.to_uint_nonnil p).
    apply DecimalFacts.to_list_inj. exact El.
  - exists h, t. split; [reflexivity |]. intros ->.
    unfold DecimalFacts.lunorm in Hu. cbn [DecimalFacts.lnzhead] in Hu.
    destruct (DecimalFacts.lnzhead t) as [| x l] eqn:Et.
    + injection Hu as Ht. apply Hnz. apply DecimalFacts.to_list_inj. rewrite El, <- Ht.
      reflexivity.
    + apply (DecimalFacts.lnzhead_neq_d0_head t t). rewrite Et. exact Hu.
Qed.

Lemma of_lu_rev_list (l : list DecimalFacts.digits) :
  DecimalPos.Unsigned.of_lu (DecimalFacts.of_list (List.rev l)) = lval l.
Proof.
  unfold lval. rewrite <- fold_left_rev_right.
  induction (List.rev l) as [| h t IH]; [reflexivity |].
  destruct h; cbn [DecimalFacts.of_list DecimalPos.Unsigned.of_lu fold_right]; rewrite IH; lia.
Qed.

Lemma of_uint_lval (d : Decimal.uint) : Pos.of_uint d = lval (DecimalFacts.to_list d).
Proof.
  rewrite DecimalPos.Unsigned.of_uint_alt, <- of_lu_rev_list.
  f_equal. apply DecimalFacts.to_list_inj. rewrite DecimalFacts.rev_spec, DecimalFacts.to_list_of_list. reflexivity.
Qed.

Lemma to_uint_step (q p : positive) (r : Z) :
  0 <= r < 10 -> Zpos p = 10 * Zpos q + r ->
  DecimalFacts.to_list (Pos.to_uint p) = DecimalFacts.to_list (Pos.to_uint q) ++ [digit_of r].
Proof.
  intros Hr Hp.
  set (d := DecimalFacts.of_list (DecimalFacts.to_list (Pos.to_uint q) ++ [digit_of r])).
  assert (Hof : Pos.of_uint d = Npos p).
  { rewrite of_uint_lval. subst d. rewrite DecimalFacts.to_list_of_list.
    unfold lval. rewrite fold_left_app. fold (lval (DecimalFacts.to_list (Pos.to_uint q))).
    rewrite <- of_uint_lval, DecimalPos.Unsigned.of_to.
    cbn [fold_left].
    assert (Hc : r = 0 \/ r = 1 \/ r = 2 \/ r = 3 \/ r = 4 \/ r = 5 \/ r = 6
                 \/ r = 7 \/ r = 8 \/ r = 9) by lia.
    repeat (destruct Hc as [-> | Hc]); try subst r; cbn [digit_of]; lia. }
  pose proof (DecimalPos.Unsigned.to_of d) as Hto.
  rewrite Hof in Hto. cbn [N.to_uint] in Hto. rewrite Hto.
  rewrite DecimalFacts.unorm_spec. subst d. rewrite DecimalFacts.to_list_of_list.
  destruct (to_uint_head q) as (h & t & El & Hh). rewrite El.
  unfold DecimalFacts.lunorm. cbn [app]. rewrite DecimalFacts.lnzhead_head_nd0 by exact Hh. reflexivity.
Qed.

Lemma digit_string (r : Z) :
  0 <= r < 10 ->
  NilEmpty.string_of_uint (DecimalFacts.of_list [digit_of r]) = String (digit_char r) EmptyString.
Proof.
  intros Hr.
  assert (Hc : r = 0 \/ r = 1 \/ r = 2 \/ r = 3 \/ r = 4 \/ r = 5 \/ r = 6
               \/ r = 7 \/ r = 8 \/ r = 9) by lia.
  repeat (destruct Hc as [-> | Hc]); try subst r; reflexivity.
Qed.

Lemma of_Z_pos (p : positive) :
  PyStr.of_Z (Zpos p) = NilEmpty.string_of_uint (Pos.to_uint p).
Proof.
  unfold PyStr.of_Z. cbn [Z.to_int NilZero.string_of_int].
  unfold NilZero.string_of_uint.
  pose proof (DecimalPos.Unsigned.to_uint_nonnil p).
  destruct (Pos.to_uint p); congruence.
Qed.

(** ['%d' % r] is one digit below ten. *)
Lemma of_Z_digit (r : Z) :
  0 <= r < 10 -> PyStr.of_Z r = String (digit_char r) EmptyString.
Proof.
  intros Hr.
  assert (Hc : r = 0 \/ r = 1 \/ r = 2 \/ r = 3 \/ r = 4 \/ r = 5 \/ r = 6
               \/ r = 7 \/ r = 8 \/ r = 9) by lia.
  repeat (destruct Hc as [-> | Hc]); try subst r; reflexivity.
Qed.

(** The last digit of ['%d' % n] is [n % 10], after the digits of [n // 10]. *)
Lemma of_Z_step (q r : Z) :
  0 < q -> 0 <= r < 10 ->
  PyStr.of_Z (10 * q + r)
  = String.append (PyStr.of_Z q) (String (digit_char r) EmptyString).
Proof.
  intros Hq Hr.
  destruct q as [| pq | pq]; try lia.
  destruct (10 * Z.pos pq + r) as [| p | p] eqn:Ep; try lia.
  rewrite !of_Z_pos.
  rewrite <- (DecimalFacts.of_list_to_list (Pos.to_uint p)).
  rewrite (to_uint_step pq p r Hr (eq_sym Ep)).
  rewrite string_of_list_app, DecimalFacts.of_list_to_list, digit_string by exact Hr.
  reflexivity.
Qed.

(** Induction on a natural number by its digits *)
Lemma digits_ind (P : Z -> Prop) :
  (forall r, 0 <= r < 10 -> P r) ->
  (forall q r, 0 < q -> 0 <= r < 10 -> P q -> P (10 * q + r)) ->
  forall n, 0 <= n -> P n.
Proof.
  intros Hbase Hstep. apply Zlt_0_ind.
  intros z IH Hz. destruct (Z_lt_ge_dec z 10) as [Hlt | Hge].
  - apply Hbase. lia.
  - rewrite (Z.div_mod z 10) by lia.
    apply Hstep; [lia_div | lia_div |]. apply IH. lia_div.
Qed.

Lemma list_of_append (a b : string) :
  list_ascii_of_string (String.append a b)
  = list_ascii_of_string a ++ list_ascii_of_string b.
Proof. induction a as [| c a IH]; cbn; [reflexivity | f_equal; exact IH]. Qed.

Lemma digit_char_spec (r : Z) :
  0 <= r < 10 ->
  PyStr.is_digit (digit_char r) = true /\ PyStr.digit_val (digit_char r) = r
  /\ PyStr.is_space (digit_char r) = false.
Proof.
  intros Hr.
  assert (Hc : r = 0 \/ r = 1 \/ r = 2 \/ r = 3 \/ r = 4 \/ r = 5 \/ r = 6
               \/ r = 7 \/ r = 8 \/ r = 9) by lia.
  repeat (destruct Hc as [-> | Hc]); try subst r; repeat split; reflexivity.
Qed.

Lemma digits_of_digit (r : Z) : 0 <= r < 10 -> digits_of r = [digit_char r].
Proof. intros Hr. unfold digits_of. rewrite of_Z_digit by exact Hr. reflexivity. Qed.

Lemma digits_of_step (q r : Z) :
  0 < q -> 0 <= r < 10 -> digits_of (10 * q + r) = digits_of q ++ [digit_char r].
Proof.
  intros Hq Hr. unfold digits_of. rewrite of_Z_step, list_of_append by assumption.
  reflexivity.
Qed.

(** The characters of ['%d' % n] are digits, and they read as [n]. *)
Lemma digits_of_spec (n : Z) :
  0 <= n ->
  forallb PyStr.is_digit (digits_of n) = true
  /\ PyFloat.digits_Z (digits_of n) = n
  /\ digits_of n <> [].
Proof.
  revert n. apply digits_ind.
  - intros r Hr. rewrite digits_of_digit by exact Hr.
    destruct (digit_char_spec r Hr) as (Hd & Hv & _).
    unfold PyFloat.digits_Z. cbn [forallb fold_left]. rewrite Hd, Hv.
    repeat split; try lia; discriminate.
  - intros q r Hq Hr (Hall & Hval & Hne).
    rewrite digits_of_step by assumption.
    destruct (digit_char_spec r Hr) as (Hd & Hv & _).
    rewrite forallb_app, Hall. cbn [forallb]. rewrite Hd.
    unfold PyFloat.digits_Z in *. rewrite fold_left_app, Hval. cbn [fold_left].
    rewrite Hv. repeat split. intros H. apply app_eq_nil in H. destruct H; discriminate.
Qed.

(** The number of digits of ['%d' % n] *)
Lemma digits_of_length (k : nat) (n : Z) :
  0 <= n < 10 ^ Z.of_nat (S k) -> (List.length (digits_of n) <= S k)%nat.
Proof.
  revert n. induction k as [| k IH]; intros n Hn.
  - rewrite digits_of_digit by (change (10 ^ Z.of_nat 1) with 10 in Hn; lia).
    cbn. lia.
  - destruct (Z_lt_ge_dec n 10) as [Hlt | Hge].
    + rewrite digits_of_digit by lia. cbn. lia.
    + rewrite (Z.div_mod n 10) by lia.
      rewrite digits_of_step by lia_div.
      rewrite length_app. cbn [List.length].
      assert (Hq : 0 <= n / 10 < 10 ^ Z.of_nat (S k)).
      { replace (Z.of_nat (S (S k))) with (Z.of_nat (S k) + 1) in Hn by lia.
        rewrite Z.pow_add_r in Hn by lia. change (10 ^ 1) with 10 in Hn.
        generalize dependent (10 ^ Z.of_nat (S k)). intros. lia_div. }
      specialize (IH _ Hq). lia.
Qed.

Lemma ndigits_bound (k : nat) (c : Z) :
  Z.abs c < 10 ^ Z.of_nat (S k) -> PyDecimal.ndigits c <= Z.of_nat (S k).
Proof.
  intros H. unfold PyDecimal.ndigits.
  pose proof (digits_of_length k (Z.abs c) ltac:(lia)) as Hl.
  unfold digits_of in Hl.
  assert (Hlen : forall s, List.length (list_ascii_of_string s) = String.length s).
  { induction s; cbn; congruence. }
  rewrite Hlen in Hl. lia.
Qed.

(** A coefficient of at most 28 digits is not rounded. *)
Lemma fix_small (d : PyDecimal.decimal) :
  Z.abs (PyDecimal.coef d) < 10 ^ 28 -> PyDecimal.fix_ d = d.
Proof.
  intros H. unfold PyDecimal.fix_.
  pose proof (ndigits_bound 27 (PyDecimal.coef d) H) as Hn.
  change (Z.of_nat 28) with 28 in Hn. unfold PyDecimal.context_prec.
  destruct (Z.leb_spec (PyDecimal.ndigits (PyDecimal.coef d)) 28); [reflexivity | lia].
Qed.

(** ** Seconds with at most six decimals *)

Lemma pow10_split (e : Z) :
  -6 <= e <= 0 ->
  0 < 10 ^ (- e) <= 1000000 /\ 0 < 10 ^ (6 + e)
  /\ 10 ^ (- e) * 10 ^ (6 + e) = 1000000.
Proof.
  intros He.
  assert (Hc : e = 0 \/ e = -1 \/ e = -2 \/ e = -3 \/ e = -4 \/ e = -5 \/ e = -6)
    by lia.
  repeat (destruct Hc as [-> | Hc]); try subst e; cbn; lia.
Qed.

Lemma to_int_quot (c e : Z) :
  e <= 0 -> PyDecimal.to_int (PyDecimal.mk c e) = Z.quot c (10 ^ (- e)).
Proof.
  intros He. unfold PyDecimal.to_int. cbn [PyDecimal.coef PyDecimal.expo].
  destruct (Z.leb_spec 0 e); [| reflexivity].
  replace e with 0 by lia. cbn. rewrite Z.quot_1_r. lia.
Qed.

(** The whole microseconds [_compare_durations] and [get_timedelta] read
    from a number of seconds with at most six decimals. *)
Lemma decimal_micros (d : PyDecimal.decimal) :
  -6 <= PyDecimal.expo d <= 0 -> Z.abs (PyDecimal.coef d) < 10 ^ 20 ->
  let s := PyDecimal.to_int d in
  PyDecimal.to_int
    (PyDecimal.mul (PyDecimal.sub d (dec s)) (dec 1000000))
  = PyDecimal.coef d * 10 ^ (6 + PyDecimal.expo d) - s * 1000000
  /\ s = Z.quot (PyDecimal.coef d) (10 ^ (- PyDecimal.expo d)).
Proof.
  destruct d as [c e]. cbn [PyDecimal.coef PyDecimal.expo]. intros He Hc. cbv zeta.
  rewrite (to_int_quot c e) by lia.
  destruct (pow10_split e He) as (Hp & Hk & Hpk).
  remember (10 ^ (- e)) as p eqn:Ep. remember (10 ^ (6 + e)) as k eqn:Ek.
  pose proof (Z.quot_rem' c p) as Hqr.
  pose proof (Z.rem_bound_abs c p ltac:(lia)) as Hb.
  split; [| reflexivity].
  remember (Z.quot c p) as q eqn:Eq in *. remember (Z.rem c p) as r eqn:Er in *.
  unfold PyDecimal.sub, PyDecimal.align, dec, PyDecimal.of_int.
  cbn [PyDecimal.coef PyDecimal.expo].
  rewrite Z.min_l by lia. rewrite Z.sub_diag. change (10 ^ 0) with 1.
  replace (0 - e) with (- e) by lia. rewrite <- Ep.
  replace (c * 1 - q * p) with r by (clear - Hqr; lia).
  rewrite fix_small by (cbn [PyDecimal.coef]; change (10 ^ 28) with 10000000000000000000000000000; lia).
  unfold PyDecimal.mul. cbn [PyDecimal.coef PyDecimal.expo].
  rewrite fix_small by (cbn [PyDecimal.coef]; change (10 ^ 28) with 10000000000000000000000000000; lia).
  rewrite to_int_quot by lia. replace (- (e + 0)) with (- e) by lia. rewrite <- Ep.
  replace (r * 1000000) with (r * k * p) by (rewrite <- Hpk; ring).
  rewrite Z.quot_mul by lia. rewrite <- Hpk. rewrite Hqr at 1. ring.
Qed.

Lemma compare_scaled (x y k : Z) : 0 < k -> (x * k ?= y * k) = (x ?= y).
Proof.
  intros Hk. destruct (Z.compare_spec x y) as [-> | H | H].
  - apply Z.compare_refl.
  - apply Z.compare_lt_iff. nia.
  - apply Z.compare_gt_iff. nia.
Qed.

(** The microseconds of two such numbers compare as the numbers do. *)
Lemma micros_compare (a b : PyDecimal.decimal) :
  -6 <= PyDecimal.expo a <= 0 -> -6 <= PyDecimal.expo b <= 0 ->
  (PyDecimal.coef a * 10 ^ (6 + PyDecimal.expo a)
   ?= PyDecimal.coef b * 10 ^ (6 + PyDecimal.expo b))
  = PyDecimal.compare a b.
Proof.
  destruct a as [ca ea], b as [cb eb]. cbn [PyDecimal.coef PyDecimal.expo].
  intros Ha Hb. unfold PyDecimal.compare, PyDecimal.align.
  cbn [PyDecimal.coef PyDecimal.expo].
  set (e := Z.min ea eb).
  assert (He : -6 <= e <= 0) by (subst e; lia).
  rewrite <- (compare_scaled (ca * 10 ^ (ea - e)) (cb * 10 ^ (eb - e))
                (10 ^ (6 + e))) by (apply Z.pow_pos_nonneg; lia).
  rewrite <- !Z.mul_assoc, <- !Z.pow_add_r by (subst e; lia).
  replace (ea - e + (6 + e)) with (6 + ea) by lia.
  replace (eb - e + (6 + e)) with (6 + eb) by lia. reflexivity.
Qed.

(** X5. Two day-time durations whose seconds have at most six decimals
    (and lie within ten million million seconds) compare as their seconds
    do, under each of [<], [<=], [>] and [>=]. *)
Theorem day_time_durations_ordered_by_seconds
    (op : cmpop) (sa sb : PyDecimal.decimal) (a b : duration) :
  DayTimeDuration sa = Ok a -> DayTimeDuration sb = Ok b ->
  -6 <= PyDecimal.expo sa <= 0 -> -6 <= PyDecimal.expo sb <= 0 ->
  Z.abs (PyDecimal.coef sa) <= 10 ^ 13 -> Z.abs (PyDecimal.coef sb) <= 10 ^ 13 ->
  duration_compare op a b = Ok (holds op (PyDecimal.compare sa sb)).
Proof.
  intros Ha Hb Hea Heb Hca Hcb.
  unfold DayTimeDuration, duration_init in Ha, Hb.
  rewrite Z.ltb_irrefl, andb_false_r in Ha, Hb. cbn [andb orb] in Ha, Hb.
  injection Ha as <-. injection Hb as <-.
  assert (Hmake : forall d, -6 <= PyDecimal.expo d <= 0 ->
            Z.abs (PyDecimal.coef d) <= 10 ^ 13 ->
            forall y m,
            TimeDelta.make (months2days y m 0) (PyDecimal.to_int d)
              (PyDecimal.to_int
                 (PyDecimal.mul (PyDecimal.sub d (dec (PyDecimal.to_int d)))
                    (dec 1000000))) 0 0
            = Ok (PyDecimal.coef d * 10 ^ (6 + PyDecimal.expo d))).
  { intros d He Hc y m.
    destruct (decimal_micros d He ltac:(lia)) as [Hms _]. cbv zeta in Hms.
    rewrite Hms. unfold months2days. cbn [Z.eqb]. unfold TimeDelta.make.
    replace (0 * TimeDelta.US_PER_DAY
             + (0 * 3600 + 0 * 60 + PyDecimal.to_int d) * TimeDelta.US_PER_SECOND
             + (PyDecimal.coef d * 10 ^ (6 + PyDecimal.expo d)
                - PyDecimal.to_int d * 1000000))
      with (PyDecimal.coef d * 10 ^ (6 + PyDecimal.expo d))
      by (unfold TimeDelta.US_PER_SECOND; lia).
    apply checked_in_range.
    destruct (pow10_split _ He) as (Hp & Hk & Hpk).
    assert (Z.abs (PyDecimal.coef d * 10 ^ (6 + PyDecimal.expo d)) <= 10 ^ 19).
    { rewrite Z.abs_mul, (Z.abs_eq (10 ^ _)) by lia.
      assert (10 ^ (6 + PyDecimal.expo d) <= 1000000) by nia.
      change (10 ^ 19) with (10 ^ 13 * 1000000).
      apply Z.mul_le_mono_nonneg; lia. }
    unfold TimeDelta.MAX_DAYS, TimeDelta.US_PER_DAY, TimeDelta.US_PER_SECOND.
    generalize dependent (PyDecimal.coef d * 10 ^ (6 + PyDecimal.expo d)).
    intros. change (10 ^ 19) with 10000000000000000000 in *. lia_div. }
  assert (Hcmp : _compare_durations
                   (mkDuration KDayTimeDuration 0 sa)
                   (mkDuration KDayTimeDuration 0 sb) op
                 = Ok (holds op (PyDecimal.compare sa sb))).
  { unfold _compare_durations.
    cbn [disinstance dcls dsubclass dkind_eqb negb months seconds].
    rewrite !(Hmake sa Hea Hca), !(Hmake sb Heb Hcb). cbn [bind forallb].
    rewrite micros_compare by assumption.
    destruct (holds op (PyDecimal.compare sa sb)); reflexivity. }
  unfold duration_compare. cbn [dcls dsubclass dkind_eqb negb andb].
  destruct op; cbn [duration_method]; unfold duration_lt, duration_le,
    duration_gt, duration_ge; try exact Hcmp;
    unfold duration_eq, PyDecimal.eqb; cbn [months seconds Z.eqb andb];
    rewrite Hcmp; destruct (PyDecimal.compare sa sb); reflexivity.
Qed.

Lemma day_time_durations_ordered_by_seconds_witness :
  (-6 <= PyDecimal.expo (PyDecimal.mk 15 (-1)) <= 0
   /\ -6 <= PyDecimal.expo (dec 2) <= 0)
  /\ duration_compare OpLt
       (mkDuration KDayTimeDuration 0 (PyDecimal.mk 15 (-1)))
       (mkDuration KDayTimeDuration 0 (dec 2))
     = Ok (holds OpLt (PyDecimal.compare (PyDecimal.mk 15 (-1)) (dec 2))).
Proof.
  split; [cbn; lia |].
  apply (day_time_durations_ordered_by_seconds OpLt (PyDecimal.mk 15 (-1)) (dec 2));
    [reflexivity | reflexivity | cbn; lia | cbn; lia
    | apply Z.leb_le; reflexivity | apply Z.leb_le; reflexivity].
Defined.

(** ** A time span as a day-time duration, and back *)

(** [get_timedelta] of seconds with six decimals: their microseconds. *)
Lemma get_timedelta_micros (k : dkind) (m c : Z) :
  Z.abs c < 10 ^ 20 ->
  get_timedelta (mkDuration k m (PyDecimal.mk c (-6))) = TimeDelta.checked c.
Proof.
  intros Hc. unfold get_timedelta. cbn [seconds].
  rewrite to_int_quot by lia. change (10 ^ (- -6)) with 1000000.
  unfold PyDecimal.mod_, PyDecimal.divide, PyDecimal.align, dec, PyDecimal.of_int.
  cbn [PyDecimal.is_zero PyDecimal.coef PyDecimal.expo Z.eqb Z.min Z.compare].
  change (10 ^ (-6 - -6)) with 1. change (1 * 10 ^ (0 - -6)) with 1000000.
  rewrite Z.mul_1_r.
  pose proof (Z.quot_rem' c 1000000) as Hqr.
  pose proof (Z.rem_bound_abs c 1000000 ltac:(lia)) as Hb.
  assert (Hq : Z.abs (Z.quot c 1000000) <= Z.abs c).
  { assert (Z.abs c = 1000000 * Z.abs (Z.quot c 1000000) + Z.abs (Z.rem c 1000000)).
    { pose proof (Z.rem_sign_nz c 1000000).
      pose proof (Z.quot_rem' c 1000000).
      pose proof (Z.rem_opp_l c 1000000).
      destruct (Z_lt_ge_dec c 0).
      - pose proof (Z.rem_nonpos c 1000000 ltac:(lia) ltac:(lia)).
        pose proof (Z.quot_le_upper_bound c 1000000 0 ltac:(lia) ltac:(lia)). lia.
      - pose proof (Z.rem_nonneg c 1000000 ltac:(lia) ltac:(lia)).
        pose proof (Z.quot_pos c 1000000 ltac:(lia) ltac:(lia)). lia. }
    lia. }
  remember (Z.quot c 1000000) as q eqn:Eq in *.
  remember (Z.rem c 1000000) as r eqn:Er in *.
  change (10 ^ 20) with 100000000000000000000 in Hc.
  unfold PyDecimal.context_prec.
  change (10 ^ 28) with 10000000000000000000000000000.
  destruct (Z.ltb_spec (Z.abs q) 10000000000000000000000000000); [| lia].
  cbn [bind].
  rewrite fix_small
    by (cbn [PyDecimal.coef]; change (10 ^ 28) with 10000000000000000000000000000; lia).
  unfold PyDecimal.mul. cbn [PyDecimal.coef PyDecimal.expo].
  rewrite fix_small
    by (cbn [PyDecimal.coef]; change (10 ^ 28) with 10000000000000000000000000000; lia).
  rewrite to_int_quot by lia. change (10 ^ (- (-6 + 0))) with 1000000.
  rewrite Z.quot_mul by lia.
  unfold TimeDelta.make. f_equal. unfold TimeDelta.US_PER_DAY, TimeDelta.US_PER_SECOND.
  lia.
Qed.

Lemma checked_value (x y : Z) : TimeDelta.checked x = Ok y -> y = x.
Proof.
  unfold TimeDelta.checked. destruct (_ && _); [| discriminate].
  intros [= <-]. reflexivity.
Qed.

(** The seconds [fromtimedelta] reads from the text it formats *)
Lemma fromtimedelta_micros (td : TimeDelta.timedelta) :
  TimeDelta.checked td = Ok td ->
  fromtimedelta td
  = Ok (mkDuration KDayTimeDuration 0
          (PyDecimal.mk
             (if td <? 0 then td - 2 * TimeDelta.microseconds td else td) (-6)))
  /\ Z.abs td < 90000000000000000000
  /\ 0 <= TimeDelta.microseconds td < 1000000.
Proof.
  intros Hck. unfold fromtimedelta, DayTimeDuration, duration_init.
  rewrite Z.ltb_irrefl, andb_false_r. cbn [andb orb].
  assert (Hrange : Z.abs td < 90000000000000000000).
  { unfold TimeDelta.checked, TimeDelta.days, TimeDelta.MAX_DAYS in Hck.
    destruct (_ && _) eqn:E in Hck; [| discriminate]. bool_to_Z.
    unfold TimeDelta.US_PER_DAY, TimeDelta.US_PER_SECOND in *. lia_div. }
  assert (Hwhole : TimeDelta.days td * 86400 + TimeDelta.seconds td = td / 1000000).
  { unfold TimeDelta.days, TimeDelta.seconds, TimeDelta.US_PER_DAY,
      TimeDelta.US_PER_SECOND. lia_div. }
  rewrite Hwhole. unfold TimeDelta.microseconds, TimeDelta.US_PER_SECOND.
  pose proof (Z.div_mod td 1000000 ltac:(lia)) as Hdm.
  pose proof (Z.mod_pos_bound td 1000000 ltac:(lia)) as Hmod.
  remember (td / 1000000) as q eqn:Eq in *.
  remember (td mod 1000000) as r eqn:Er in *.
  split; [| split; assumption].
  destruct (Z.ltb_spec q 0) as [Hneg | Hpos].
  - destruct (Z.ltb_spec td 0); [| lia]. do 4 f_equal. lia.
  - destruct (Z.ltb_spec td 0); [lia |]. do 4 f_equal. lia.
Qed.

(** A time span that is not negative, or is of whole seconds, through
    [fromtimedelta] and [get_timedelta] *)
Lemma fromtimedelta_back (td : TimeDelta.timedelta) :
  TimeDelta.checked td = Ok td ->
  exists d : duration,
    fromtimedelta td = Ok d
    /\ (0 <= td \/ TimeDelta.microseconds td = 0 -> get_timedelta d = Ok td).
Proof.
  intros Hck. destruct (fromtimedelta_micros td Hck) as (Hf & Hr & Hus).
  eexists. split; [exact Hf |]. intros Hc.
  rewrite get_timedelta_micros
    by (change (10 ^ 20) with 100000000000000000000;
        destruct (td <? 0); lia).
  destruct (Z.ltb_spec td 0); [| exact Hck].
  destruct Hc as [Hc | Hc]; [lia |].
  rewrite Hc, Z.mul_0_r, Z.sub_0_r. exact Hck.
Qed.

(** X6. [DayTimeDuration.fromtimedelta] followed by [get_timedelta]
    gives the time span back when it is not negative or is a whole number
    of seconds.  A negative time span with a fraction of a second does not
    come back: the text [fromtimedelta] formats puts the minus sign of
    the whole seconds before the fraction too, so the fraction is
    subtracted twice. *)
Theorem timedelta_through_duration (td : TimeDelta.timedelta) :
  TimeDelta.checked td = Ok td ->
  exists d : duration,
    fromtimedelta td = Ok d
    /\ dcls d = KDayTimeDuration
    /\ (0 <= td \/ TimeDelta.microseconds td = 0 -> get_timedelta d = Ok td)
    /\ (td < 0 -> TimeDelta.microseconds td <> 0 ->
        get_timedelta d
        = TimeDelta.checked (td - 2 * TimeDelta.microseconds td)
        /\ get_timedelta d <> Ok td).
Proof.
  intros Hck. destruct (fromtimedelta_micros td Hck) as (Hf & Hr & Hus).
  eexists. split; [exact Hf |]. split; [reflexivity |].
  rewrite get_timedelta_micros
    by (change (10 ^ 20) with 100000000000000000000;
        destruct (td <? 0); lia).
  split.
  - intros Hc. destruct (Z.ltb_spec td 0); [| exact Hck].
    destruct Hc as [Hc | Hc]; [lia |].
    rewrite Hc, Z.mul_0_r, Z.sub_0_r. exact Hck.
  - intros Hneg Hnz. destruct (Z.ltb_spec td 0); [| lia].
    split; [reflexivity |]. intros Heq.
    apply checked_value in Heq. lia.
Qed.

Lemma timedelta_through_duration_witness :
  TimeDelta.checked 1500000 = Ok 1500000
  /\ exists d : duration,
       fromtimedelta 1500000 = Ok d
       /\ dcls d = KDayTimeDuration
       /\ (0 <= 1500000 \/ TimeDelta.microseconds 1500000 = 0 ->
           get_timedelta d = Ok 1500000)
       /\ (1500000 < 0 -> TimeDelta.microseconds 1500000 <> 0 ->
           get_timedelta d
           = TimeDelta.checked (1500000 - 2 * TimeDelta.microseconds 1500000)
           /\ get_timedelta d <> Ok 1500000).
Proof.
  split; [reflexivity |]. apply (timedelta_through_duration 1500000). reflexivity.
Defined.

(** ** The text of a time zone offset *)

Lemma tzname_text (off : Z) :
  off <> 0 -> Z.abs off <= TimezoneM._maxoffset ->
  TimezoneM.tzname (mkTimezone off)
  = tz_text (off <? 0) (Z.abs off / 60000000 / 60) ((Z.abs off / 60000000) mod 60).
Proof.
  intros Hnz Hb. unfold TimezoneM.tzname, tz_text. cbn [offset].
  destruct (Z.eqb_spec off 0); [contradiction |].
  pose proof (Z.abs_nonneg off) as Hnn.
  assert (Hs : TimeDelta.seconds (Z.abs off) = Z.abs off / 1000000).
  { unfold TimezoneM._maxoffset, TimeDelta.seconds, TimeDelta.US_PER_DAY,
      TimeDelta.US_PER_SECOND in *. generalize dependent (Z.abs off). intros. lia_div. }
  rewrite Hs.
  replace (Z.abs off / 1000000 / 3600) with (Z.abs off / 60000000 / 60)
    by (generalize (Z.abs off); intros; lia_div).
  replace (Z.abs off / 1000000 / 60) with (Z.abs off / 60000000)
    by (generalize (Z.abs off); intros; lia_div).
  destruct (off <? 0); reflexivity.
Qed.

(** X7. The text [str] gives for a time zone is read back by
    [Timezone.fromstring] as the offset cut to whole minutes (toward
    zero); so a time zone of whole minutes is read back as itself. *)
Theorem timezone_text_reads_back (off : Z) (tz : Timezone) :
  TimezoneM.init off = Ok tz ->
  TimezoneM.fromstring (TimezoneM.tzname tz)
  = Ok (mkTimezone (Z.quot off 60000000 * 60000000))
  /\ (off mod 60000000 = 0 ->
      TimezoneM.fromstring (TimezoneM.tzname tz) = Ok tz).
Proof.
  intros Hi. apply tz_init_bounds in Hi. destruct Hi as [Ho Hb].
  destruct tz as [o]. cbn [offset] in Ho. subst o.
  assert (Hmain : TimezoneM.fromstring (TimezoneM.tzname (mkTimezone off))
                  = Ok (mkTimezone (Z.quot off 60000000 * 60000000))).
  { destruct (Z.eq_dec off 0) as [-> | Hnz]; [reflexivity |].
    unfold TimezoneM._minoffset, TimezoneM._maxoffset, TimeDelta.US_PER_SECOND in Hb.
    pose proof (Z.abs_nonneg off) as Hnn.
    assert (Habs : Z.abs off <= 50400000000) by lia.
    rewrite tzname_text
      by (unfold TimezoneM._maxoffset, TimeDelta.US_PER_SECOND; lia).
    rewrite tz_lexical_accepted.
    - do 2 f_equal. unfold tz_micros.
      destruct (Z.ltb_spec off 0).
      + assert (Hq : Z.quot off 60000000 = - ((- off) / 60000000)).
        { rewrite <- Z.quot_div_nonneg by lia.
          rewrite Z.quot_opp_l by lia. lia. }
        rewrite Hq. replace (Z.abs off) with (- off) by lia.
        generalize (- off / 60000000). intros. lia_div.
      + rewrite Z.quot_div_nonneg by lia.
        replace (Z.abs off) with off by lia.
        generalize (off / 60000000). intros. lia_div.
    - generalize dependent (Z.abs off). intros. lia_div.
    - generalize dependent (Z.abs off). intros. lia_div.
    - generalize dependent (Z.abs off). intros. lia_div. }
  split; [exact Hmain |].
  intros Hm. rewrite Hmain. do 2 f_equal.
  pose proof (Z.quot_rem' off 60000000) as Hq.
  apply Z.rem_mod_eq_0 in Hm; [| lia]. rewrite Hm in Hq. lia.
Qed.

Lemma timezone_text_reads_back_witness :
  TimezoneM.init 19800000000 = Ok (mkTimezone 19800000000)
  /\ TimezoneM.fromstring (TimezoneM.tzname (mkTimezone 19800000000))
     = Ok (mkTimezone (Z.quot 19800000000 60000000 * 60000000))
  /\ (19800000000 mod 60000000 = 0 ->
      TimezoneM.fromstring (TimezoneM.tzname (mkTimezone 19800000000))
      = Ok (mkTimezone 19800000000)).
Proof.
  split; [reflexivity |].
  apply (timezone_text_reads_back 19800000000 (mkTimezone 19800000000)).
  reflexivity.
Defined.

(** ** Sums of a date and time and a time span *)

(** [dt + td] moves the wall clock by [td] and keeps the offset; the sum
    is a date and a time of the calendar. *)
Lemma datetime_add_inv (dt dt' : DT.datetime) (td : Z) :
  DT.add dt td = Ok dt' ->
  DT.wall_us dt' = DT.wall_us dt + td
  /\ DT.tzinfo dt' = DT.tzinfo dt
  /\ DT.valid_date (DT.year dt') (DT.month dt') (DT.day dt') = true
  /\ DT.valid_time (DT.hour dt') (DT.minute dt') (DT.second dt')
       (DT.microsecond dt') = true
  /\ DT.time_us dt' = (DT.wall_us dt + td) mod TimeDelta.US_PER_DAY.
Proof.
  unfold DT.add, TimeDelta.add, TimeDelta.checked.
  set (delta := DT.wall_us dt + td) in *.
  destruct (_ && _); cbn [bind]; [| discriminate].
  unfold TimeDelta.days.
  destruct (Z.ltb_spec 0 (delta / TimeDelta.US_PER_DAY)); [| discriminate].
  destruct (Z.leb_spec (delta / TimeDelta.US_PER_DAY) DT.MAXORDINAL);
    [| discriminate].
  cbn [andb].
  pose proof (ord2ymd_spec (delta / TimeDelta.US_PER_DAY) ltac:(lia)) as Hs.
  destruct (DT._ord2ymd (delta / TimeDelta.US_PER_DAY)) as [[y m] d].
  destruct Hs as [Hv Ho]. intros [= <-].
  cbn [DT.year DT.month DT.day DT.hour DT.minute DT.second DT.microsecond DT.tzinfo].
  assert (Htime :
    ((TimeDelta.seconds delta / 3600 * 60
      + TimeDelta.seconds delta mod 3600 / 60) * 60
     + TimeDelta.seconds delta mod 3600 mod 60) * TimeDelta.US_PER_SECOND
    + TimeDelta.microseconds delta = delta mod TimeDelta.US_PER_DAY
    /\ 0 <= TimeDelta.seconds delta / 3600 <= 23
    /\ 0 <= TimeDelta.seconds delta mod 3600 / 60 <= 59
    /\ 0 <= TimeDelta.seconds delta mod 3600 mod 60 <= 59
    /\ 0 <= TimeDelta.microseconds delta <= 999999).
  { unfold TimeDelta.seconds, TimeDelta.microseconds, TimeDelta.US_PER_DAY,
      TimeDelta.US_PER_SECOND. clearbody delta. clear.
    repeat split; lia_div. }
  destruct Htime as (Ht & Hh & Hmi & Hs & Hus).
  unfold DT.wall_us at 1, DT.toordinal, DT.time_us.
  cbn [DT.year DT.month DT.day DT.hour DT.minute DT.second DT.microsecond DT.tzinfo].
  rewrite Ho, Ht.
  repeat split.
  - pose proof (Z.div_mod delta TimeDelta.US_PER_DAY
                  ltac:(unfold TimeDelta.US_PER_DAY, TimeDelta.US_PER_SECOND; lia)).
    lia.
  - exact Hv.
  - unfold DT.valid_time.
    repeat (apply andb_true_iff; split); apply Z.leb_le; lia.
Qed.

(** The sum exists when its day is a day of the calendar. *)
Lemma datetime_add_ok (dt : DT.datetime) (td : Z) :
  1 <= (DT.wall_us dt + td) / TimeDelta.US_PER_DAY <= DT.MAXORDINAL ->
  exists dt', DT.add dt td = Ok dt'.
Proof.
  intros Hord. unfold DT.add, TimeDelta.add.
  rewrite checked_in_range
    by (unfold TimeDelta.MAX_DAYS, DT.MAXORDINAL in *; lia).
  cbn [bind]. unfold TimeDelta.days.
  destruct (Z.ltb_spec 0 ((DT.wall_us dt + td) / TimeDelta.US_PER_DAY)); [| lia].
  destruct (Z.leb_spec ((DT.wall_us dt + td) / TimeDelta.US_PER_DAY) DT.MAXORDINAL);
    [| lia].
  cbn [andb]. destruct (DT._ord2ymd _) as [[y m] d]. eexists. reflexivity.
Qed.

(** What [Time(...)] builds: a time of the day 2000-01-01. *)
Lemma time_construct (kw : kwargs) (t : temporal) :
  construct Time kw = Ok t ->
  exists h mi s us,
    t = mkTemporal Time (DT.mk 2000 1 1 h mi s us (kw_tzinfo kw)) None
    /\ DT.valid_time h mi s us = true.
Proof.
  unfold construct. cbn [shape_of].
  destruct (absent (kw_year kw) && absent (kw_month kw) && absent (kw_day kw));
    [| discriminate].
  cbv zeta.
  set (h0 := or_default (kw_hour kw) 0).
  set (mi := or_default (kw_minute kw) 0).
  set (s := or_default (kw_second kw) 0).
  set (us := or_default (kw_microsecond kw) 0).
  set (c := (h0 =? 24) && (mi =? s) && (s =? 0)).
  unfold abstract_init. cbn [Z.leb Z.compare Pos.compare Pos.compare_cont andb].
  assert (Hm : ((if c then 0 else h0) =? 24) && (mi =? s) && (s =? 0) = false).
  { destruct c eqn:Ec; [reflexivity | exact Ec]. }
  rewrite Hm. cbn [Z.eqb].
  unfold DT.make.
  destruct (DT.valid_date 2000 1 1 && DT.valid_time (if c then 0 else h0) mi s us)
    eqn:Ev; cbn [bind]; [| discriminate].
  intros [= <-]. exists (if c then 0 else h0), mi, s, us.
  split; [reflexivity |]. apply andb_true_iff in Ev. apply Ev.
Qed.

Lemma time_of_valid (h mi s us : Z) (y m d : Z) (tz : option Timezone) :
  DT.valid_time h mi s us = true ->
  time_of (DT.mk y m d h mi s us tz)
  = Ok (PTemporal (mkTemporal Time (DT.mk 2000 1 1 h mi s us tz) None)).
Proof.
  intros Hv. unfold time_of, construct.
  cbn [shape_of kw_year kw_month kw_day kw_hour kw_minute kw_second
       kw_microsecond kw_tzinfo absent andb or_default DT.hour DT.minute
       DT.second DT.microsecond DT.tzinfo].
  assert (Hh : h <= 23).
  { unfold DT.valid_time in Hv. bool_to_Z. lia. }
  assert (Hc : (h =? 24) && (mi =? s) && (s =? 0) = false).
  { destruct (Z.eqb_spec h 24); [lia | reflexivity]. }
  rewrite Hc. unfold abstract_init. rewrite Hc.
  cbn [Z.leb Z.compare Pos.compare Pos.compare_cont andb Z.eqb].
  unfold DT.make. rewrite Hv.
  change (DT.valid_date 2000 1 1) with true. cbn [andb bind]. reflexivity.
Qed.

Lemma time_wall (h mi s us : Z) (tz : option Timezone) :
  DT.valid_time h mi s us = true ->
  DT.wall_us (DT.mk 2000 1 1 h mi s us tz)
  = 730120 * TimeDelta.US_PER_DAY + DT.time_us (DT.mk 2000 1 1 h mi s us tz)
  /\ 0 <= DT.time_us (DT.mk 2000 1 1 h mi s us tz) < TimeDelta.US_PER_DAY.
Proof.
  intros Hv. unfold DT.wall_us, DT.toordinal.
  cbn [DT.year DT.month DT.day]. change (DT._ymd2ord 2000 1 1) with 730120.
  split; [reflexivity |].
  unfold DT.valid_time in Hv. bool_to_Z. unfold DT.time_us.
  cbn [DT.hour DT.minute DT.second DT.microsecond].
  unfold TimeDelta.US_PER_DAY, TimeDelta.US_PER_SECOND. lia.
Qed.

Lemma time_shift (h mi s us : Z) (tz : option Timezone) (td : Z) :
  DT.valid_time h mi s us = true ->
  Z.abs td <= 700000 * TimeDelta.US_PER_DAY ->
  exists dt',
    DT.add (DT.mk 2000 1 1 h mi s us tz) td = Ok dt'
    /\ exists t',
        time_of dt' = Ok (PTemporal t')
        /\ cls t' = Time /\ tzinfo t' = tz
        /\ DT.toordinal (_dt t') = 730120
        /\ DT.time_us (_dt t')
           = (DT.time_us (DT.mk 2000 1 1 h mi s us tz) + td)
             mod TimeDelta.US_PER_DAY.
Proof.
  intros Hv Htd.
  destruct (time_wall h mi s us tz Hv) as [Hw Ht].
  set (dt := DT.mk 2000 1 1 h mi s us tz) in *.
  assert (Hr : 1 <= (DT.wall_us dt + td) / TimeDelta.US_PER_DAY <= DT.MAXORDINAL).
  { rewrite Hw. unfold DT.MAXORDINAL, TimeDelta.US_PER_DAY, TimeDelta.US_PER_SECOND
      in *. clearbody dt. generalize dependent (DT.time_us dt). intros. lia_div. }
  destruct (datetime_add_ok dt td Hr) as (dt' & Hadd).
  destruct (datetime_add_inv dt dt' td Hadd) as (Hwall & Htz & Hvd & Hvt & Htime).
  exists dt'. split; [exact Hadd |].
  destruct dt' as [y' m' d' h' mi' s' us' tz'].
  cbn [DT.year DT.month DT.day DT.hour DT.minute DT.second DT.microsecond DT.tzinfo]
    in *.
  rewrite (time_of_valid h' mi' s' us' y' m' d' tz' Hvt).
  eexists. split; [reflexivity |].
  cbn [cls tzinfo _dt DT.tzinfo]. subst tz'.
  repeat split.
  unfold DT.time_us in *.
  cbn [DT.year DT.month DT.day DT.hour DT.minute DT.second DT.microsecond] in *.
  rewrite Htime, Hw.
  unfold TimeDelta.US_PER_DAY, TimeDelta.US_PER_SECOND.
  clearbody dt. clear. lia_div.
Qed.

(** X8. A time plus or minus a day-time duration (of at most 700000
    days) is a time again, at the same offset: the time of day moves by
    the duration modulo 24 hours, and the days are dropped. *)
Theorem time_plus_duration_wraps
    (kw : kwargs) (t : temporal) (d : duration) (td : Z) :
  construct Time kw = Ok t ->
  dcls d = KDayTimeDuration -> get_timedelta d = Ok td ->
  Z.abs td <= 700000 * TimeDelta.US_PER_DAY ->
  (exists t' : temporal,
      temporal_add t (PDuration d) = Ok (PTemporal t')
      /\ cls t' = Time /\ tzinfo t' = tzinfo t
      /\ DT.toordinal (_dt t') = DT.toordinal (_dt t)
      /\ DT.time_us (_dt t')
         = (DT.time_us (_dt t) + td) mod TimeDelta.US_PER_DAY)
  /\ (exists t' : temporal,
      temporal_sub t (PDuration d) = Ok (PTemporal t')
      /\ cls t' = Time /\ tzinfo t' = tzinfo t
      /\ DT.toordinal (_dt t') = DT.toordinal (_dt t)
      /\ DT.time_us (_dt t')
         = (DT.time_us (_dt t) - td) mod TimeDelta.US_PER_DAY).
Proof.
  intros Ht Hd Hg Hb.
  destruct (time_construct kw t Ht) as (h & mi & s & us & -> & Hv).
  unfold temporal_add, temporal_sub, time_add, time_sub.
  cbn [cls is_ordered _dt tzinfo DT.tzinfo]. rewrite Hd, Hg. cbn [bind].
  change (DT.toordinal (DT.mk 2000 1 1 h mi s us (kw_tzinfo kw))) with 730120.
  split.
  - destruct (time_shift h mi s us (kw_tzinfo kw) td Hv Hb)
      as (dt' & -> & t' & Hof & Hrest).
    cbn [bind]. exists t'. split; [exact Hof | exact Hrest].
  - unfold DT.sub_delta, TimeDelta.neg.
    rewrite checked_in_range
      by (unfold TimeDelta.MAX_DAYS, TimeDelta.US_PER_DAY, TimeDelta.US_PER_SECOND in *;
          lia_div).
    cbn [bind].
    destruct (time_shift h mi s us (kw_tzinfo kw) (- td) Hv ltac:(lia))
      as (dt' & -> & t' & Hof & Hrest).
    cbn [bind]. exists t'. split; [exact Hof |].
    replace (DT.time_us (DT.mk 2000 1 1 h mi s us (kw_tzinfo kw)) - td)
      with (DT.time_us (DT.mk 2000 1 1 h mi s us (kw_tzinfo kw)) + - td) by lia.
    exact Hrest.
Qed.

Lemma time_plus_duration_wraps_witness :
  let kw := mkKwargs None None None (Some 23) (Some 30) (Some 0) None None in
  let t := mkTemporal Time (DT.mk 2000 1 1 23 30 0 0 None) None in
  let d := mkDuration KDayTimeDuration 0 (dec 3600) in
  (construct Time kw = Ok t /\ get_timedelta d = Ok 3600000000)
  /\ (exists t' : temporal,
        temporal_add t (PDuration d) = Ok (PTemporal t')
        /\ cls t' = Time /\ tzinfo t' = tzinfo t
        /\ DT.toordinal (_dt t') = DT.toordinal (_dt t)
        /\ DT.time_us (_dt t')
           = (DT.time_us (_dt t) + 3600000000) mod TimeDelta.US_PER_DAY)
  /\ (exists t' : temporal,
        temporal_sub t (PDuration d) = Ok (PTemporal t')
        /\ cls t' = Time /\ tzinfo t' = tzinfo t
        /\ DT.toordinal (_dt t') = DT.toordinal (_dt t)
        /\ DT.time_us (_dt t')
           = (DT.time_us (_dt t) - 3600000000) mod TimeDelta.US_PER_DAY).
Proof.
  intros kw t d. split; [split; vm_compute; reflexivity |].
  apply (time_plus_duration_wraps kw t d 3600000000);
    [vm_compute; reflexivity | reflexivity | vm_compute; reflexivity
    | apply Z.leb_le; reflexivity].
Defined.

(** ** The order of date and time values *)

Lemma aligned_cmp (a b : DT.datetime) :
  let '(x, y) := align_tzinfo a b in
  exists c, DT.cmp x y = Ok c /\ DT.cmp y x = Ok (CompOpp c)
            /\ DT.eqb x y = match c with Eq => true | _ => false end.
Proof.
  unfold align_tzinfo.
  destruct (DT.tzinfo a) as [ta |] eqn:Ea, (DT.tzinfo b) as [tb |] eqn:Eb;
    unfold DT.cmp, DT.eqb, DT.utcoffset, DT.replace_tzinfo;
    cbn [DT.tzinfo option_map]; rewrite ?Ea, ?Eb; cbn [option_map];
    eexists; (split; [reflexivity |]); (split; [rewrite Z.compare_antisym; reflexivity |]);
    match goal with
    | |- (?x =? ?y) = _ => destruct (Z.compare_spec x y) as [He | Hl | Hg];
        [apply Z.eqb_eq; exact He | apply Z.eqb_neq; lia | apply Z.eqb_neq; lia]
    end.
Qed.

(** X9. For two values of the same ordered date or time class exactly
    one of [a < b], [a == b] and [a > b] holds, none of the comparisons
    raises, [a <= b] and [a >= b] are [<] or [==] and [>] or [==], and
    [b > a] and [b < a] are [a < b] and [a > b]. *)
Theorem ordered_values_compare_one_way (a b : temporal) :
  is_ordered (cls a) = true -> cls b = cls a ->
  exists lt gt : bool,
    temporal_method OpLt a (PTemporal b) = Some (Ok lt)
    /\ temporal_method OpGt a (PTemporal b) = Some (Ok gt)
    /\ temporal_method OpLe a (PTemporal b)
       = Some (Ok (lt || temporal_eq a (PTemporal b)))
    /\ temporal_method OpGe a (PTemporal b)
       = Some (Ok (gt || temporal_eq a (PTemporal b)))
    /\ temporal_method OpGt b (PTemporal a) = Some (Ok lt)
    /\ temporal_method OpLt b (PTemporal a) = Some (Ok gt)
    /\ ((lt = true /\ temporal_eq a (PTemporal b) = false /\ gt = false)
        \/ (lt = false /\ temporal_eq a (PTemporal b) = true /\ gt = false)
        \/ (lt = false /\ temporal_eq a (PTemporal b) = false /\ gt = true)).
Proof.
  intros Ho Hc. unfold temporal_method. rewrite Hc, Ho.
  unfold ordered_compare, temporal_eq, _get_operands, year_of.
  rewrite Hc, issubclass_refl. cbn [orb bind].
  pose proof (aligned_cmp (_dt a) (_dt b)) as Hab.
  assert (Hsym : align_tzinfo (_dt b) (_dt a)
                 = (snd (align_tzinfo (_dt a) (_dt b)),
                    fst (align_tzinfo (_dt a) (_dt b)))).
  { unfold align_tzinfo. destruct (DT.tzinfo (_dt a)), (DT.tzinfo (_dt b));
      reflexivity. }
  rewrite Hsym.
  destruct (align_tzinfo (_dt a) (_dt b)) as [x y]. cbn [fst snd].
  destruct Hab as (c & Hxy & Hyx & Heq). rewrite Heq.
  destruct (Z.compare_spec (year a) (year b)) as [He | Hl | Hg].
  - rewrite He, Z.ltb_irrefl, Z.eqb_refl, Hxy, Hyx. cbn [bind].
    destruct c; cbn [holds CompOpp andb orb];
      do 2 eexists; repeat (split; [reflexivity |]); tauto.
  - destruct (Z.ltb_spec (year a) (year b)); [| lia].
    destruct (Z.ltb_spec (year b) (year a)); [lia |].
    destruct (Z.eqb_spec (year a) (year b)); [lia |].
    destruct (Z.eqb_spec (year b) (year a)); [lia |].
    rewrite andb_false_r.
    do 2 eexists; repeat (split; [reflexivity |]); tauto.
  - destruct (Z.ltb_spec (year a) (year b)); [lia |].
    destruct (Z.ltb_spec (year b) (year a)); [| lia].
    destruct (Z.eqb_spec (year a) (year b)); [lia |].
    destruct (Z.eqb_spec (year b) (year a)); [lia |].
    rewrite andb_false_r.
    do 2 eexists; repeat (split; [reflexivity |]); tauto.
Qed.

Lemma ordered_values_compare_one_way_witness :
  let a := mkTemporal Date10 (midnight 2000 2 29 None) None in
  let b := mkTemporal Date10 (midnight 2000 3 1 (Some utc_timezone)) None in
  (is_ordered (cls a) = true /\ cls b = cls a)
  /\ exists lt gt : bool,
       temporal_method OpLt a (PTemporal b) = Some (Ok lt)
       /\ temporal_method OpGt a (PTemporal b) = Some (Ok gt)
       /\ temporal_method OpLe a (PTemporal b)
          = Some (Ok (lt || temporal_eq a (PTemporal b)))
       /\ temporal_method OpGe a (PTemporal b)
          = Some (Ok (gt || temporal_eq a (PTemporal b)))
       /\ temporal_method OpGt b (PTemporal a) = Some (Ok lt)
       /\ temporal_method OpLt b (PTemporal a) = Some (Ok gt)
       /\ ((lt = true /\ temporal_eq a (PTemporal b) = false /\ gt = false)
           \/ (lt = false /\ temporal_eq a (PTemporal b) = true /\ gt = false)
           \/ (lt = false /\ temporal_eq a (PTemporal b) = false /\ gt = true)).
Proof.
  intros a b. split; [split; reflexivity |].
  apply (ordered_values_compare_one_way a b); reflexivity.
Defined.

(** ** A dateTime plus a duration, minus the dateTime *)

(** A value of a year within 1..9999, once built *)
Lemma abstract_init_in_range (k : kind) (y m d h mi s us : Z)
    (tz : option Timezone) (t : temporal) :
  1 <= y <= 9999 ->
  abstract_init k y m d h mi s us tz = Ok t ->
  cls t = k /\ _year t = None /\ DT.tzinfo (_dt t) = tz
  /\ DT.valid_date (DT.year (_dt t)) (DT.month (_dt t)) (DT.day (_dt t)) = true
  /\ DT.valid_time (DT.hour (_dt t)) (DT.minute (_dt t)) (DT.second (_dt t))
       (DT.microsecond (_dt t)) = true.
Proof.
  intros Hy. unfold abstract_init.
  destruct (Z.leb_spec 1 y); [| lia]. destruct (Z.leb_spec y 9999); [| lia].
  cbn [andb]. unfold DT.make.
  destruct (DT.valid_date y m d && DT.valid_time _ mi s us) eqn:Ev;
    cbn [bind]; [| discriminate].
  apply andb_true_iff in Ev. destruct Ev as [Evd Evt].
  destruct ((if (h =? 24) && (mi =? s) && (s =? 0) then TimeDelta.US_PER_DAY else 0)
            =? 0).
  - cbn [bind]. intros [= <-]. cbn [cls _year _dt DT.year DT.month DT.day DT.hour
      DT.minute DT.second DT.microsecond DT.tzinfo]. auto.
  - match goal with
    | |- context [DT.add ?a ?b] => destruct (DT.add a b) as [dt' |] eqn:Ea
    end; cbn [bind]; [| discriminate].
    intros [= <-]. cbn [cls _year _dt].
    destruct (datetime_add_inv _ _ _ Ea) as (_ & Htz & Hvd & Hvt & _).
    cbn [DT.tzinfo] in Htz. auto.
Qed.

(** Building a valid date and time of a year within 1..9999 again *)
Lemma abstract_init_valid (k : kind) (dt : DT.datetime) :
  DT.valid_date (DT.year dt) (DT.month dt) (DT.day dt) = true ->
  DT.valid_time (DT.hour dt) (DT.minute dt) (DT.second dt) (DT.microsecond dt)
  = true ->
  abstract_init k (DT.year dt) (DT.month dt) (DT.day dt) (DT.hour dt)
    (DT.minute dt) (DT.second dt) (DT.microsecond dt) (DT.tzinfo dt)
  = Ok (mkTemporal k dt None).
Proof.
  intros Hvd Hvt. unfold abstract_init.
  pose proof (valid_date_year _ _ _ Hvd) as Hy.
  assert (Hh : DT.hour dt <= 23) by (unfold DT.valid_time in Hvt; bool_to_Z; lia).
  destruct (Z.eqb_spec (DT.hour dt) 24); [lia |]. cbn [andb Z.eqb].
  destruct (Z.leb_spec 1 (DT.year dt)); [| lia].
  destruct (Z.leb_spec (DT.year dt) 9999); [| lia]. cbn [andb].
  unfold DT.make. rewrite Hvd, Hvt. cbn [andb bind]. destruct dt; reflexivity.
Qed.

Lemma todelta_in_range (t : temporal) :
  _year t = None ->
  todelta t
  = Ok (DT.wall_us (_dt t) - offset_us (DT.tzinfo (_dt t)) - TimeDelta.US_PER_DAY).
Proof.
  intros Hy. unfold todelta. rewrite Hy. cbn [_get_operands bind].
  unfold align_tzinfo, DT.sub, DT.utcoffset, offset_us.
  destruct (DT.tzinfo (_dt t)) as [tz |] eqn:Etz;
    cbn [DT.tzinfo DT.epoch DT.replace_tzinfo option_map];
    rewrite ?Etz; cbn [option_map utc_timezone TimezoneM.utc offset].
  - change (DT.wall_us (DT.replace_tzinfo DT.epoch (Some utc_timezone)))
      with TimeDelta.US_PER_DAY. f_equal. lia.
  - change (DT.wall_us DT.epoch) with TimeDelta.US_PER_DAY.
    f_equal. lia.
Qed.

Lemma get_timedelta_checked (d : duration) (td : Z) :
  get_timedelta d = Ok td -> TimeDelta.checked td = Ok td.
Proof.
  unfold get_timedelta. destruct (PyDecimal.mod_ _ _); cbn [bind]; [| discriminate].
  unfold TimeDelta.make. intros H. pose proof (checked_value _ _ H) as He.
  rewrite <- He in H. exact H.
Qed.

(** X10. A dateTime of a year within 1..9999 plus a day-time duration,
    when the sum stays within 0001..9999, is the dateTime of that instant
    (at offset zero when the operand has an offset, naive otherwise); and
    the sum minus the operand is the duration [fromtimedelta] makes of the
    microseconds added, which is the same time span when it is not
    negative or is a whole number of seconds. *)
Theorem datetime_plus_duration_minus_itself
    (k : kind) (y m d h mi s us : Z) (tz : option Timezone)
    (t : temporal) (delta : duration) (td : Z) :
  shape_of k = SDateTime -> 1 <= y <= 9999 ->
  construct8 k y m d h mi s us tz = Ok t ->
  dcls delta = KDayTimeDuration -> get_timedelta delta = Ok td ->
  1 <= (DT.wall_us (_dt t) - offset_us tz + td) / TimeDelta.US_PER_DAY
    <= DT.MAXORDINAL ->
  exists (t2 : temporal) (d2 : duration),
    temporal_add t (PDuration delta) = Ok (PTemporal t2)
    /\ cls t2 = k
    /\ tzinfo t2 = match tz with Some _ => Some utc_timezone | None => None end
    /\ DT.wall_us (_dt t2) = DT.wall_us (_dt t) - offset_us tz + td
    /\ temporal_sub t2 (PTemporal t) = Ok (PDuration d2)
    /\ fromtimedelta td = Ok d2
    /\ (0 <= td \/ TimeDelta.microseconds td = 0 -> get_timedelta d2 = Ok td).
Proof.
  intros Hsh Hy Hc Hd Hg Hr.
  unfold construct8 in Hc. rewrite Hsh in Hc.
  destruct (abstract_init_in_range _ _ _ _ _ _ _ _ _ _ Hy Hc)
    as (Hk & Hyr & Htz & Hvd & Hvt).
  assert (Hord : is_ordered k = true) by (destruct k; try discriminate; reflexivity).
  assert (Hnd : issubclass k Date10 = false)
    by (destruct k; try discriminate; reflexivity).
  unfold temporal_add, temporal_sub. rewrite Hk, Hord.
  unfold ordered_add, ordered_sub. cbn [is_ordered_value].
  unfold _date_operator at 1. rewrite Hd, (todelta_in_range t Hyr), Hg, Htz, Hk.
  cbn [bind]. unfold apply_timedelta, TimeDelta.add.
  set (inst := DT.wall_us (_dt t) - offset_us tz + td) in *.
  replace (DT.wall_us (_dt t) - offset_us tz - TimeDelta.US_PER_DAY + td)
    with (inst - TimeDelta.US_PER_DAY) by (subst inst; lia).
  rewrite checked_in_range
    by (unfold TimeDelta.MAX_DAYS, DT.MAXORDINAL, TimeDelta.US_PER_DAY,
          TimeDelta.US_PER_SECOND in *; clearbody inst; lia_div).
  cbn [bind]. unfold fromdelta.
  assert (Hw : DT.wall_us DT.epoch + (inst - TimeDelta.US_PER_DAY) = inst)
    by (change (DT.wall_us DT.epoch) with TimeDelta.US_PER_DAY; lia).
  destruct (datetime_add_ok DT.epoch (inst - TimeDelta.US_PER_DAY)
              ltac:(rewrite Hw; exact Hr)) as (dt' & Ha).
  rewrite Ha. cbn [bind]. rewrite Hnd.
  destruct (datetime_add_inv _ _ _ Ha) as (Hwall & Htz' & Hvd' & Hvt' & _).
  rewrite Hw in Hwall. cbn [DT.tzinfo DT.epoch] in Htz'.
  unfold construct8. rewrite Hsh.
  rewrite (abstract_init_valid k dt' Hvd' Hvt'). cbn [bind].
  pose proof (get_timedelta_checked _ _ Hg) as Hck.
  destruct (fromtimedelta_back td Hck) as (d2 & Hft & Hback).
  assert (Hsub : forall t2 : temporal,
            cls t2 = k -> _year t2 = None ->
            DT.wall_us (_dt t2) - offset_us (DT.tzinfo (_dt t2)) = inst ->
            (DT.tzinfo (_dt t2) = None <-> tz = None) ->
            _date_operator t2 OpSub (PTemporal t) = Ok (PDuration d2)).
  { intros t2 Hk2 Hy2 Hi2 Htz2. unfold _date_operator.
    rewrite Hk, Hk2, issubclass_refl. cbn [_get_operands].
    rewrite Hk, Hk2, issubclass_refl. cbn [orb bind].
    unfold align_tzinfo. rewrite Hyr, Hy2, Htz.
    assert (Hdiff : forall a b, DT.tzinfo a = DT.tzinfo (_dt t2) -> DT.tzinfo b = tz ->
               DT.wall_us a = DT.wall_us (_dt t2) -> DT.wall_us b = DT.wall_us (_dt t) ->
               DT.sub a b = Ok td).
    { intros a b Ea Eb Ewa Ewb. unfold DT.sub, DT.utcoffset. rewrite Ea, Eb, Ewa, Ewb.
      unfold offset_us in *.
      destruct (DT.tzinfo (_dt t2)) as [z2 |], tz as [z |]; cbn [option_map];
        try (f_equal; subst inst; lia).
      - destruct Htz2 as [_ H]. discriminate (H eq_refl).
      - destruct Htz2 as [H _]. discriminate (H eq_refl). }
    destruct (DT.tzinfo (_dt t2)) as [z2 |] eqn:E2, tz as [z |] eqn:Ez;
      rewrite (Hdiff _ _ E2 Htz eq_refl eq_refl) || idtac.
    - cbn [bind]. rewrite Hft. reflexivity.
    - destruct Htz2 as [_ H]. discriminate (H eq_refl).
    - destruct Htz2 as [H _]. discriminate (H eq_refl).
    - cbn [bind]. rewrite Hft. reflexivity. }
  destruct tz as [z |].
  - unfold tzinfo at 1. cbn [_dt]. rewrite Htz'.
    exists (set_tzinfo (mkTemporal k dt' None) (Some utc_timezone)), d2.
    split; [reflexivity |].
    unfold tzinfo. cbn [set_tzinfo cls _dt _year DT.tzinfo DT.replace_tzinfo].
    rewrite Hord.
    repeat split; try assumption.
    apply Hsub; cbn [set_tzinfo cls _dt _year DT.tzinfo DT.replace_tzinfo];
      try reflexivity.
    + rewrite wall_us_replace_tzinfo.
      cbn [offset_us utc_timezone TimezoneM.utc offset]. clearbody inst. lia.
    + split; discriminate.
  - exists (mkTemporal k dt' None), d2.
    split; [reflexivity |]. unfold tzinfo. cbn [cls _dt _year]. rewrite Hord.
    repeat split; try assumption.
    apply Hsub; cbn [cls _dt _year]; try reflexivity.
    + rewrite Htz'. cbn [offset_us]. clearbody inst. lia.
    + rewrite Htz'. tauto.
Qed.

Lemma datetime_plus_duration_minus_itself_witness :
  let t := mkTemporal DateTime10 (DT.mk 2000 1 1 12 0 0 0 None) None in
  let delta := mkDuration KDayTimeDuration 0 (dec 86460) in
  (construct8 DateTime10 2000 1 1 12 0 0 0 None = Ok t
   /\ get_timedelta delta = Ok 86460000000)
  /\ exists (t2 : temporal) (d2 : duration),
       temporal_add t (PDuration delta) = Ok (PTemporal t2)
       /\ cls t2 = DateTime10
       /\ tzinfo t2 = None
       /\ DT.wall_us (_dt t2) = DT.wall_us (_dt t) - offset_us None + 86460000000
       /\ temporal_sub t2 (PTemporal t) = Ok (PDuration d2)
       /\ fromtimedelta 86460000000 = Ok d2
       /\ (0 <= 86460000000 \/ TimeDelta.microseconds 86460000000 = 0 ->
           get_timedelta d2 = Ok 86460000000).
Proof.
  intros t delta. split; [split; vm_compute; reflexivity |].
  apply (datetime_plus_duration_minus_itself DateTime10 2000 1 1 12 0 0 0 None
           t delta 86460000000);
    [reflexivity | lia | vm_compute; reflexivity | reflexivity
    | vm_compute; reflexivity
    | split; apply Z.leb_le; vm_compute; reflexivity].
Defined.


(** ** The text of durations *)

Lemma span_digits_app (ds rest : list ascii) :
  forallb PyStr.is_digit ds = true ->
  DurationLexical.starts_with_digit rest = false ->
  PyFloat.span_digits (ds ++ rest) = (ds, rest).
Proof.
  intros Hd Hr. induction ds as [| c ds IH].
  - cbn [app]. destruct rest as [| c r]; [reflexivity |].
    cbn [DurationLexical.starts_with_digit] in Hr.
    cbn [PyFloat.span_digits]. rewrite Hr. reflexivity.
  - cbn [forallb] in Hd. apply andb_true_iff in Hd. destruct Hd as [Hc Hd].
    cbn [app PyFloat.span_digits]. rewrite Hc, (IH Hd). reflexivity.
Qed.

Lemma list_of_string_of_list (cs : list ascii) :
  list_ascii_of_string (string_of_list_ascii cs) = cs.
Proof. induction cs; cbn; congruence. Qed.

Lemma string_of_list_of_string (s : string) :
  string_of_list_ascii (list_ascii_of_string s) = s.
Proof. induction s; cbn; congruence. Qed.

(** A designator after its digits *)
Lemma component_some (x : ascii) (n : Z) (rest : list ascii) :
  0 <= n -> PyStr.is_digit x = false ->
  DurationLexical.component x (digits_of n ++ x :: rest)
  = (Some (digits_of n), rest).
Proof.
  intros Hn Hx. unfold DurationLexical.component.
  destruct (digits_of_spec n Hn) as (Hall & _ & Hne).
  rewrite span_digits_app by (try assumption; cbn; exact Hx).
  destruct (digits_of n) as [| d ds]; [congruence |].
  rewrite Ascii.eqb_refl. reflexivity.
Qed.

(** Digits before another designator *)
Lemma component_other (x y : ascii) (n : Z) (rest : list ascii) :
  0 <= n -> PyStr.is_digit y = false -> Ascii.eqb y x = false ->
  DurationLexical.component x (digits_of n ++ y :: rest)
  = (None, digits_of n ++ y :: rest).
Proof.
  intros Hn Hy Hxy. unfold DurationLexical.component.
  destruct (digits_of_spec n Hn) as (Hall & _ & Hne).
  rewrite span_digits_app by (try assumption; cbn; exact Hy).
  destruct (digits_of n) as [| d ds]; [congruence |].
  rewrite Hxy. reflexivity.
Qed.

Lemma component_nil (x : ascii) : DurationLexical.component x [] = (None, []).
Proof. reflexivity. Qed.

Lemma digits_of_head (n : Z) :
  0 <= n -> DurationLexical.starts_with_digit (digits_of n ++ []) = true
  /\ forall rest, DurationLexical.starts_with_digit (digits_of n ++ rest) = true.
Proof.
  intros Hn. destruct (digits_of_spec n Hn) as (Hall & _ & Hne).
  destruct (digits_of n) as [| d ds]; [congruence |].
  cbn [forallb] in Hall. apply andb_true_iff in Hall. destruct Hall as [Hd _].
  split; intros; cbn; exact Hd.
Qed.

Lemma no_space_strip (cs : list ascii) :
  forallb (fun c => negb (PyStr.is_space c)) cs = true ->
  PyStr.strip_chars cs = cs.
Proof.
  intros H. unfold PyStr.strip_chars.
  assert (Hl : forall l, forallb (fun c => negb (PyStr.is_space c)) l = true ->
                         PyStr.lstrip l = l).
  { intros l Hl. destruct l as [| c l']; [reflexivity |].
    cbn [forallb] in Hl. apply andb_true_iff in Hl. destruct Hl as [Hc _].
    cbn [PyStr.lstrip]. apply negb_true_iff in Hc. rewrite Hc. reflexivity. }
  rewrite (Hl cs H). rewrite Hl.
  - apply rev_involutive.
  - rewrite forallb_forall in *. intros c Hc. apply H. apply in_rev. exact Hc.
Qed.

Lemma digits_no_space (ds : list ascii) :
  forallb PyStr.is_digit ds = true ->
  forallb (fun c => negb (PyStr.is_space c)) ds = true.
Proof.
  rewrite !forallb_forall. intros H c Hc. specialize (H c Hc).
  unfold PyStr.is_digit, PyStr.is_space in *. cbv zeta in *.
  bool_to_Z. apply negb_true_iff.
  destruct (Z.leb_spec 9 (PyStr.code c)), (Z.leb_spec (PyStr.code c) 13),
    (Z.leb_spec 28 (PyStr.code c)), (Z.leb_spec (PyStr.code c) 32);
    cbn; try reflexivity; lia.
Qed.

Lemma year_month_str_text (n : Z) (s : PyDecimal.decimal) :
  list_ascii_of_string (year_month_str (mkDuration KYearMonthDuration n s))
  = ym_text n.
Proof.
  unfold year_month_str, ym_text. cbn [months]. cbv zeta.
  destruct (n <? 0), (Z.abs n / 12 =? 0), (Z.abs n mod 12 =? 0);
    repeat rewrite list_of_append; cbn [list_ascii_of_string app];
    unfold digits_of; rewrite <- ?app_assoc; reflexivity.
Qed.

Lemma ym_text_no_space (n : Z) :
  forallb (fun c => negb (PyStr.is_space c)) (ym_text n) = true.
Proof.
  unfold ym_text. cbv zeta.
  assert (Hd : forall k, 0 <= k ->
            forallb (fun c => negb (PyStr.is_space c)) (digits_of k) = true).
  { intros k Hk. apply digits_no_space. apply (digits_of_spec k Hk). }
  pose proof (Hd (Z.abs n / 12) ltac:(lia_div)) as Hy.
  pose proof (Hd (Z.abs n mod 12) ltac:(lia_div)) as Hm.
  destruct (n <? 0), (Z.abs n / 12 =? 0), (Z.abs n mod 12 =? 0);
    repeat (rewrite forallb_app || cbn [forallb app]);
    rewrite ?Hy, ?Hm; reflexivity.
Qed.

Lemma ym_text_match (n : Z) :
  exists y m,
    DurationLexical.pattern_match (ym_text n)
    = Some (DurationLexical.mkDgroups (n <? 0) y m None None None None)
    /\ DurationLexical.int_or_0 m + 12 * DurationLexical.int_or_0 y = Z.abs n.
Proof.
  unfold ym_text. cbv zeta.
  set (a := Z.abs n).
  assert (Ha : 0 <= a) by (subst a; lia).
  assert (Hy : 0 <= a / 12) by lia_div.
  assert (Hm : 0 <= a mod 12) by lia_div.
  assert (Hsum : a mod 12 + 12 * (a / 12) = a) by lia_div.
  destruct (digits_of_spec _ Hy) as (_ & Hvy & _).
  destruct (digits_of_spec _ Hm) as (_ & Hvm & _).
  destruct (digits_of_head _ Hy) as (_ & Hhy).
  destruct (digits_of_head _ Hm) as (_ & Hhm).
  assert (Hpre : forall body,
            DurationLexical.starts_with_digit body = true ->
            forall g,
            (let '(y, r) := DurationLexical.component "Y" body in
             let '(m, r) := DurationLexical.component "M" r in
             let '(d, r) := DurationLexical.component "D" r in
             match r with
             | [] => Some (DurationLexical.mkDgroups (n <? 0) y m d None None None)
             | _ => None
             end) = Some g ->
            DurationLexical.pattern_match
              ((if n <? 0 then ["-"%char; "P"%char] else ["P"%char]) ++ body) = Some g).
  { intros body Hb g Hg. unfold DurationLexical.pattern_match.
    destruct (n <? 0); cbn [app Ascii.eqb Bool.eqb Lexical.lit Lexical.opt_bind];
      rewrite Hb; cbn [orb negb];
      destruct (DurationLexical.component "Y" body) as [y r1];
      destruct (DurationLexical.component "M" r1) as [m r2];
      destruct (DurationLexical.component "D" r2) as [d r3];
      destruct r3; [exact Hg | discriminate | exact Hg | discriminate]. }
  destruct (Z.eqb_spec (a / 12) 0) as [Hy0 | Hy0];
    [| destruct (Z.eqb_spec (a mod 12) 0) as [Hm0 | Hm0]].
  - exists None, (Some (digits_of (a mod 12))). split.
    + apply Hpre; [apply Hhm |].
      rewrite component_other by (try assumption; reflexivity).
      rewrite component_some by (try assumption; reflexivity).
      rewrite component_nil. reflexivity.
    + cbn [DurationLexical.int_or_0]. rewrite Hvm. lia.
  - exists (Some (digits_of (a / 12))), None. split.
    + apply Hpre; [apply Hhy |].
      rewrite component_some by (try assumption; reflexivity).
      rewrite !component_nil. reflexivity.
    + cbn [DurationLexical.int_or_0]. rewrite Hvy. lia.
  - exists (Some (digits_of (a / 12))), (Some (digits_of (a mod 12))). split.
    + apply Hpre; [apply Hhy |].
      rewrite component_some by (try assumption; reflexivity).
      rewrite component_some by (try assumption; reflexivity).
      rewrite component_nil. reflexivity.
    + cbn [DurationLexical.int_or_0]. rewrite Hvy, Hvm. lia.
Qed.

(** X11. The text of a YearMonthDuration is read back by
    [YearMonthDuration.fromstring] as an equal value, for every number of
    months. *)
Theorem year_month_duration_text_reads_back (n : Z) (d : duration) :
  YearMonthDuration n = Ok d ->
  exists text : string,
    format d = Ok text
    /\ duration_fromstring KYearMonthDuration text = Ok d.
Proof.
  intros Hd. unfold YearMonthDuration, duration_init in Hd.
  change (PyDecimal.is_neg PyDecimal.zero) with false in Hd.
  change (PyDecimal.is_pos PyDecimal.zero) with false in Hd.
  rewrite andb_false_r in Hd. cbn [andb orb] in Hd. injection Hd as <-.
  eexists. split; [reflexivity |].
  unfold duration_fromstring.
  rewrite year_month_str_text, (no_space_strip _ (ym_text_no_space n)).
  destruct (ym_text_match n) as (y & m & -> & Hsum).
  cbn [DurationLexical.g_seconds DurationLexical.g_minutes DurationLexical.g_hours
       DurationLexical.g_days DurationLexical.g_months DurationLexical.g_years
       DurationLexical.g_sign DurationLexical.int_or_0].
  change (PyDecimal.floordiv (dec 0) (dec 60)) with (Ok (PyDecimal.mk 0 0)).
  cbn [bind].
  change (PyDecimal.mod_ (dec 0) (dec 60)) with (Ok (PyDecimal.mk 0 0)).
  cbn [bind]. rewrite Hsum.
  change (PyDecimal.to_int (PyDecimal.mk 0 0)) with 0.
  cbn [Z.add Z.div Z.modulo Z.mul Z.div_eucl].
  destruct (Z.ltb_spec n 0).
  - change (PyDecimal.is_zero _) with true. cbn iota.
    unfold YearMonthDuration, duration_init.
    change (PyDecimal.is_neg PyDecimal.zero) with false.
    change (PyDecimal.is_pos PyDecimal.zero) with false.
    rewrite andb_false_r. cbn [andb orb]. do 2 f_equal. lia.
  - change (PyDecimal.is_zero _) with true. cbn iota.
    unfold YearMonthDuration, duration_init.
    change (PyDecimal.is_neg PyDecimal.zero) with false.
    change (PyDecimal.is_pos PyDecimal.zero) with false.
    rewrite andb_false_r. cbn [andb orb]. do 2 f_equal. lia.
Qed.

Lemma year_month_duration_text_reads_back_witness :
  exists text : string,
    format (mkDuration KYearMonthDuration (-14) PyDecimal.zero) = Ok text
    /\ duration_fromstring KYearMonthDuration text
       = Ok (mkDuration KYearMonthDuration (-14) PyDecimal.zero).
Proof.
  apply (year_month_duration_text_reads_back (-14)). reflexivity.
Defined.
